(** * Cat vs Dog classifier: a shallow embedding of the Streamlit application

    The development follows the Python sources:
    - [utils/image_utils.py]  : [validate_image], [preprocess_image], [get_image_info]
    - [utils/model_utils.py]  : [load_model], [predict_image], [get_model_info]
    - [components/sidebar.py] : [render_sidebar]
    - [components/ui_components.py] : the [render_*] functions
    - [app.py]                : [main] and the script entry point

    Conventions of the embedding.
    - Python functions that talk to Streamlit are computations in the monad
      [M]: they read and write [st.session_state], append to the trace of
      effects (every [st.*] call, [print], and every call into PIL, Keras and
      gdown), and end by returning, by [st.stop()] or by raising.
    - Python and NumPy floating point numbers are read as the rationals they
      denote ([Q]); comparisons and [max] are exact on them. NumPy keeps the
      model output and the image tensor in float32, so a subtraction on them
      ([1 - prob], the mean subtraction) is the exact difference rounded to
      the nearest float32 ([round32]).
    - Library code (PIL decoding, colour conversion and resampling, the Keras
      forward pass) is a parameter: a field of the object it belongs to or a
      variable of the section. The Keras function [preprocess_input], which
      the repository only binds, is modelled apart and marked as such.
    - [st.cache_resource] keeps one value of [load_model] per server process:
      what it holds when a run starts is a field of [Host] (with the elements
      Streamlit shows again when it serves that value), what a run puts into
      it is an event of the trace, and [process_runs] carries it from one run
      to the next.
    - Large HTML blocks passed to [st.markdown] are recorded by a short tag
      and the run-time values interpolated into them. *)

From Stdlib Require Import ZArith QArith Qminmax Qround Qabs Qpower Lia Lqa.
From Stdlib Require Import Bool List String Ascii.
Import ListNotations.

Local Open Scope string_scope.
Local Open Scope Z_scope.

(** ** Python values shared by the modules *)

(** A raised Python exception: its class name and [str(e)]. *)
Record exn : Type := Exn { exn_type : string; exn_msg : string }.

(** The result of calling into a library that may raise. *)
Definition PyResult (A : Type) : Type := (exn + A)%type.

(** A batch of images as NumPy holds it: batch, rows, columns, channels. *)
Definition Tensor : Type := list (list (list (list Q))).

(** A loaded Keras model: the forward pass and what [get_model_info] reads. *)
Record Model : Type := {
  predict : Tensor -> PyResult (list (list Q));
  count_params : Z;
  trainable_weights : list Z;      (* np.prod(w.shape) for each trainable variable *)
  num_layers : Z;
  input_shape : string;
  output_shape : string
}.

(** A PIL image: [size] is (width, height), [getpixel x y] the band values. *)
Record Image : Type := {
  format : option string;
  mode : string;
  size : nat * nat;
  getpixel : nat -> nat -> list Z
}.

(** A Streamlit [UploadedFile]: the declared name, the byte count and the bytes. *)
Record UploadedFile : Type := {
  name : string;
  file_size : Z;
  getvalue : list Byte.byte
}.

(** The dict returned by [predict_image]. *)
Record Results : Type := {
  predicted_class : string;
  confidence : Q;
  cat_probability : Q;
  dog_probability : Q;
  all_probabilities : list (string * Q)
}.

(** The dict returned by [render_sidebar]. *)
Record Settings : Type := {
  confidence_threshold : Q;
  show_probabilities : bool;
  show_image_info : bool;
  show_processing_steps : bool;
  theme : string
}.

(** The dict returned by [get_model_info]. *)
Record ModelInfo : Type := {
  total_params : Z;
  trainable_params : Z;
  non_trainable_params : Z;
  info_input_shape : string;
  info_output_shape : string;
  info_num_layers : Z
}.

(** The dict returned by [get_image_info]; [megapixels] before rounding. *)
Record ImageInfo : Type := {
  info_format : option string;
  info_mode : string;
  info_size : nat * nat;
  megapixels : Q
}.

(** ** The effects of a script run *)

(** [st.session_state]: a key that was never assigned is [None]. *)
Record SessionState : Type := {
  ss_model : option (option Model);
  ss_model_loaded : option bool;
  predictions_made : option Z;
  cats_detected : option Z;
  dogs_detected : option Z
}.

(** What a run does to the outside, in order. *)
Inductive Event : Type :=
| St_error (msg : string)
| St_success (msg : string)
| St_success_certain (conf : Q)
    (* st.success(f"🎯 High confidence prediction! The model is {confidence:.1%} certain.") *)
| St_warning (msg : string)
| St_markdown (tag : string)
| St_metric (label : string) (value : string)
| St_metric_int (label : string) (value : Z)
| St_spinner (msg : string)
| St_balloons
| St_image (caption : string)
| St_plotly_chart (title : string) (labels : list string) (values : list Q)
| St_columns (n : nat)
| St_expander (label : string)
| St_exception (e : exn)
| St_selectbox (label : string)
| St_slider (label : string)
| St_toggle (label : string)
| St_file_uploader (label : string)
| St_button (label : string)
| Md_prediction (label : string) (conf : Q)                 (* the "It's a ...!" card *)
| Md_uncertain (label : string) (conf : Q) (threshold : Q)  (* the "Uncertain Prediction" card *)
| Md_probability (label : string) (prob : Q)                (* one probability card *)
| Md_confidence_level (level : string) (conf : Q)
| Md_threshold_mode (text : string)
| Md_understanding_results (threshold : Q)
| Md_image_info (info : ImageInfo)
| Print (line : string)
| Os_path_exists (path : string)
| Gdown_download (url path : string)
| Keras_load_model (path : string)
| Image_open (file_name : string)
| Model_predict
| Cache_resource_store (value : option Model).
    (* st.cache_resource keeps the value load_model returned *)

(** How a computation ends: a value, [st.stop()], or an exception.
    [st.stop()] raises a [BaseException] of Streamlit's own, which
    [except Exception] does not catch. *)
Inductive Outcome (A : Type) : Type :=
| Ret (a : A)
| Stopped
| Raised (e : exn).
Arguments Ret {A} a.
Arguments Stopped {A}.
Arguments Raised {A} e.

Definition M (A : Type) : Type :=
  SessionState -> Outcome A * SessionState * list Event.

Definition ret {A} (a : A) : M A := fun s => (Ret a, s, []).

Definition bind {A B} (m : M A) (k : A -> M B) : M B :=
  fun s =>
    match m s with
    | (Ret a, s1, l1) => let '(r, s2, l2) := k a s1 in (r, s2, (l1 ++ l2)%list)
    | (Stopped, s1, l1) => (Stopped, s1, l1)
    | (Raised e, s1, l1) => (Raised e, s1, l1)
    end.

Notation "x <- m ;; k" := (bind m (fun x => k))
  (at level 61, m at next level, right associativity).
Notation "m ;; k" := (bind m (fun _ => k))
  (at level 61, right associativity).

Definition emit (e : Event) : M unit := fun s => (Ret tt, s, [e]).
Definition emit_all (l : list Event) : M unit := fun s => (Ret tt, s, l).
Definition raise {A} (e : exn) : M A := fun s => (Raised e, s, []).
Definition st_stop {A} : M A := fun s => (Stopped, s, []).
Definition get_state : M SessionState := fun s => (Ret s, s, []).
Definition put_state (s : SessionState) : M unit := fun _ => (Ret tt, s, []).

(** [try: body except Exception as e: handler e]. *)
Definition try_except {A} (body : M A) (handler : exn -> M A) : M A :=
  fun s =>
    match body s with
    | (Raised e, s1, l1) => let '(r, s2, l2) := handler e s1 in (r, s2, (l1 ++ l2)%list)
    | other => other
    end.

(** A call that returns or raises. *)
Definition lift_result {A} (r : PyResult A) : M A :=
  match r with inl e => raise e | inr a => ret a end.

(** A call into a library that acts on the outside: it is traced. *)
Definition lib_call {A} (e : Event) (r : PyResult A) : M A :=
  emit e ;; lift_result r.

Definition when (b : bool) (m : M unit) : M unit := if b then m else ret tt.

Definition run_outcome {A} (r : Outcome A * SessionState * list Event) : Outcome A :=
  fst (fst r).
Definition run_state {A} (r : Outcome A * SessionState * list Event) : SessionState :=
  snd (fst r).
Definition run_trace {A} (r : Outcome A * SessionState * list Event) : list Event :=
  snd r.

(** ** NumPy's float32

    A float32 value is read as the rational it denotes. An operation on
    float32 values is the exact operation followed by rounding to the
    nearest float32, a tie going to the even significand (IEEE 754
    binary32, the default rounding). *)

(** The nearest integer, a tie going to the even one. *)
Definition round_half_even (x : Q) : Z :=
  let f := Qfloor x in
  match (x - inject_Z f ?= 1 # 2)%Q with
  | Lt => f
  | Gt => f + 1
  | Eq => if Z.even f then f else f + 1
  end.

(** The binade of a positive rational: the [e] with [2^e <= x < 2^(e+1)].
    [Z.log2] of the numerator and of the denominator differ from it by at
    most one, which the comparison settles. *)
Definition binade (x : Q) : Z :=
  let e := Z.log2 (Qnum x) - Z.log2 (Zpos (Qden x)) in
  if Qle_bool (2 ^ e) x then e else e - 1.

(** Rounding to float32: 24 significant bits, and below [2^-126] the fixed
    spacing [2^-149] of the subnormal numbers. Magnitudes from [2^128] on,
    which float32 sends to infinity, have no rational value; no subtraction
    of the sources reaches them on float32 operands. *)
Definition round32 (x : Q) : Q :=
  let e := Z.max (binade (Qabs x)) (-126) in
  let ulp := (2 ^ (e - 23))%Q in
  Qred (inject_Z (round_half_even (x / ulp)) * ulp).

(** [a - b] on float32 operands. *)
Definition sub32 (a b : Q) : Q := round32 (a - b).

(** [x.astype('float32')] on an integer. *)
Definition astype_float32 (v : Z) : Q := round32 (inject_Z v).

(** ** Python built-ins used by the sources *)

(** [max(a, b)]: the first argument unless the second is greater. *)
Definition Qgtb (a b : Q) : bool := negb (Qle_bool a b).
Definition Qgeb (a b : Q) : bool := Qle_bool b a.
Definition py_max (a b : Q) : Q := if Qgtb b a then b else a.

(** [s.split(sep)] for a one-character separator. *)
Fixpoint split_from (sep : ascii) (cur : string) (s : string) : list string :=
  match s with
  | EmptyString => [cur]
  | String c rest =>
      if Ascii.eqb c sep then cur :: split_from sep "" rest
      else split_from sep (cur ++ String c "") rest
  end.
Definition split (sep : ascii) (s : string) : list string := split_from sep "" s.

(** [c.lower()] on the ASCII range; other bytes are kept. *)
Definition lower_ascii (c : ascii) : ascii :=
  let n := nat_of_ascii c in
  if andb (Nat.leb 65 n) (Nat.leb n 90) then ascii_of_nat (n + 32) else c.
Fixpoint lower (s : string) : string :=
  match s with
  | EmptyString => EmptyString
  | String c rest => String (lower_ascii c) (lower rest)
  end.

(** [sep.join(items)]. *)
Fixpoint join (sep : string) (items : list string) : string :=
  match items with
  | [] => ""
  | [x] => x
  | x :: rest => x ++ sep ++ join sep rest
  end.

(** [x in items] for a list of strings. *)
Definition str_in (x : string) (items : list string) : bool :=
  existsb (String.eqb x) items.

(** [[f i for i in range(n)]]. *)
Definition tabulate {A} (n : nat) (f : nat -> A) : list A := map f (seq 0 n).

(** [items[i]] on a list. *)
Definition py_index {A} (what : string) (items : list A) (i : nat) : M A :=
  match nth_error items i with
  | Some x => ret x
  | None => raise (Exn "IndexError" (what ++ " index out of range"))
  end.

(** [st.session_state.<key>]: reading a key that was never assigned raises. *)
Definition get_attr {A} (field : SessionState -> option A) (key : string) : M A :=
  fun s =>
    match field s with
    | Some v => (Ret v, s, [])
    | None =>
        (Raised (Exn "AttributeError" ("st.session_state has no attribute " ++ key)), s, [])
    end.

Definition set_model (v : option Model) : M unit :=
  fun s => (Ret tt,
            {| ss_model := Some v; ss_model_loaded := ss_model_loaded s;
               predictions_made := predictions_made s;
               cats_detected := cats_detected s; dogs_detected := dogs_detected s |}, []).
Definition set_model_loaded (v : bool) : M unit :=
  fun s => (Ret tt,
            {| ss_model := ss_model s; ss_model_loaded := Some v;
               predictions_made := predictions_made s;
               cats_detected := cats_detected s; dogs_detected := dogs_detected s |}, []).
Definition set_predictions_made (v : Z) : M unit :=
  fun s => (Ret tt,
            {| ss_model := ss_model s; ss_model_loaded := ss_model_loaded s;
               predictions_made := Some v;
               cats_detected := cats_detected s; dogs_detected := dogs_detected s |}, []).
Definition set_cats_detected (v : Z) : M unit :=
  fun s => (Ret tt,
            {| ss_model := ss_model s; ss_model_loaded := ss_model_loaded s;
               predictions_made := predictions_made s;
               cats_detected := Some v; dogs_detected := dogs_detected s |}, []).
Definition set_dogs_detected (v : Z) : M unit :=
  fun s => (Ret tt,
            {| ss_model := ss_model s; ss_model_loaded := ss_model_loaded s;
               predictions_made := predictions_made s;
               cats_detected := cats_detected s; dogs_detected := Some v |}, []).

Definition is_none {A} (o : option A) : bool :=
  match o with None => true | Some _ => false end.
Definition is_some {A} (o : option A) : bool := negb (is_none o).

(** ** What a run receives from outside *)

(** An element shown by [load_model] while it ran. Streamlit records the
    elements a cached function shows and shows them again when the value is
    served from the cache. *)
Inductive Element : Type :=
| El_spinner (msg : string)
| El_success (msg : string)
| El_error (msg : string).

Definition element_event (el : Element) : Event :=
  match el with
  | El_spinner msg => St_spinner msg
  | El_success msg => St_success msg
  | El_error msg => St_error msg
  end.

(** The server process and its machine, as [load_model] meets them. *)
Record Host : Type := {
  cache_resource : option (option Model);
    (* what st.cache_resource holds for load_model: nothing before the first
       call of the process, afterwards the value that call returned *)
  cache_replay : list Element;
    (* the elements Streamlit shows again when it serves that value, none
       if it replays nothing *)
  model_file_exists : bool;            (* os.path.exists(model_path) *)
  gdown_download : PyResult unit;      (* gdown.download(model_url, model_path) *)
  keras_load_model : PyResult Model    (* keras.models.load_model(model_path) *)
}.

(** The values the widgets hold when the script runs. *)
Record Browser : Type := {
  selectbox_theme : string;
  slider_confidence : Q;
  toggle_probabilities : bool;
  toggle_image_info : bool;
  toggle_processing_steps : bool;
  file_uploader : option UploadedFile;
  button_clicked : bool
}.

(** The part of PIL the application relies on. *)
Class Imaging : Type := {
  (** [Image.open], together with the decoding it defers to the first use. *)
  PIL_open : UploadedFile -> PyResult Image;
  (** The colour of a pixel after [image.convert('RGB')]. *)
  PIL_to_rgb : Image -> nat -> nat -> Z * Z * Z;
  (** The resampling filter of [image.resize], band by band: the band, its
      size, the requested size, and the position in the result. *)
  PIL_resample : (nat -> nat -> Z) -> nat * nat -> nat * nat -> nat -> nat -> Z
}.

(** ** utils/image_utils.py *)

Module image_utils.

Definition IMAGE_SIZE : nat * nat := (224, 224)%nat.
Definition ALLOWED_EXTENSIONS : list string := ["jpg"; "jpeg"; "png"; "bmp"].

(** [uploaded_file.name.split('.')[-1].lower()] *)
Definition file_extension (uploaded_file : UploadedFile) : string :=
  lower (last (split "." (name uploaded_file)) "").

Definition validate_image (uploaded_file : option UploadedFile) : M bool :=
  match uploaded_file with
  | None => ret false
  | Some f =>
      if negb (str_in (file_extension f) ALLOWED_EXTENSIONS) then
        emit (St_error ("❌ Unsupported file format. Please upload: "
                        ++ join ", " ALLOWED_EXTENSIONS)) ;;
        ret false
      else if file_size f >? 10 * 1024 * 1024 then
        emit (St_error "❌ File too large. Please upload an image smaller than 10MB.") ;;
        ret false
      else ret true
  end.

(** Number of bands of a PIL mode. *)
Definition getbands (m : string) : nat :=
  if str_in m ["RGB"; "YCbCr"; "LAB"; "HSV"] then 3
  else if str_in m ["RGBA"; "CMYK"; "RGBX"; "RGBa"] then 4
  else if str_in m ["LA"; "PA"; "La"] then 2
  else 1.

(** [np.array(image)]: rows, columns, bands. *)
Definition np_array (image : Image) : list (list (list Z)) :=
  let '(w, h) := size image in
  tabulate h (fun y =>
    tabulate w (fun x =>
      tabulate (getbands (mode image)) (fun c => nth c (getpixel image x y) 0))).

(** [np.expand_dims(a, axis=0)] *)
Definition expand_dims {A} (a : A) : list A := [a].

(** [tf.keras.applications.vgg16.preprocess_input] is a function of the
    Keras library, which [image_utils.py] only binds (line 11): its code is
    not part of the sources. The three definitions below write it down as
    the specification and the comment at image_utils.py:77-79 describe it:
    the channels are reordered from RGB to BGR and the per-channel means
    103.939, 116.779 and 123.68 are subtracted; nothing is scaled. As Keras
    does on a NumPy array of integers, the array is first cast to float32 and
    the means, written as decimals, are subtracted in float32. *)

(** Modelled from the spec: the per-channel means of [preprocess_input],
    for blue, green and red, as the decimals that Keras and the comment at
    image_utils.py:78-79 write. *)
Definition vgg16_mean : Q * Q * Q := (103.939, 116.779, 123.68)%Q.

(** Modelled from the spec: [preprocess_input] on one pixel, the means
    given in float32: the channels in reverse order, the means subtracted
    from the first three. *)
Definition preprocess_pixel (mean : Q * Q * Q) (px : list Z) : option (list Q) :=
  match rev (map astype_float32 px) with
  | b :: g :: r :: rest =>
      let '(mean_b, mean_g, mean_r) := mean in
      Some (sub32 b mean_b :: sub32 g mean_g :: sub32 r mean_r :: rest)
  | _ => None
  end.

Fixpoint map_opt {A B} (f : A -> option B) (l : list A) : option (list B) :=
  match l with
  | [] => Some []
  | x :: rest =>
      match f x, map_opt f rest with
      | Some y, Some ys => Some (y :: ys)
      | _, _ => None
      end
  end.

(** Modelled from the spec: [preprocess_input] on a batch of channels-last
    images; an image with fewer than three channels has no channel 2 to
    subtract from. *)
Definition preprocess_input (x : list (list (list (list Z)))) : PyResult Tensor :=
  let '(mean_b, mean_g, mean_r) := vgg16_mean in
  let mean := (round32 mean_b, round32 mean_g, round32 mean_r) in
  match map_opt (map_opt (map_opt (preprocess_pixel mean))) x with
  | Some t => inr t
  | None => inl (Exn "IndexError" "index 2 is out of bounds for axis 3")
  end.

(** [image.copy()]: the pixels, mode and size; the copy has no [format]. *)
Definition copy (image : Image) : Image :=
  {| format := None; mode := mode image; size := size image;
     getpixel := getpixel image |}.

Definition get_image_info (image : Image) : ImageInfo :=
  {| info_format := format image;
     info_mode := mode image;
     info_size := size image;
     megapixels :=
       (inject_Z (Z.of_nat (fst (size image) * snd (size image))) / 1000000)%Q |}.

Section PIL.
Context `{Imaging}.

Definition convert_RGB (image : Image) : Image :=
  {| format := None; mode := "RGB"; size := size image;
     getpixel := fun x y => let '(r, g, b) := PIL_to_rgb image x y in [r; g; b] |}.

Definition resize (image : Image) (new_size : nat * nat) : Image :=
  {| format := None; mode := mode image; size := new_size;
     getpixel := fun x y =>
       tabulate (getbands (mode image)) (fun c =>
         PIL_resample (fun u v => nth c (getpixel image u v) 0)
                      (size image) new_size x y) |}.

Definition preprocess_image (uploaded_file : UploadedFile)
  : M (option Tensor * option Image) :=
  try_except
    (image <- lib_call (Image_open (name uploaded_file)) (PIL_open uploaded_file) ;;
     let image :=
       if negb (String.eqb (mode image) "RGB") then convert_RGB image else image in
     let original_image := copy image in
     let image := resize image IMAGE_SIZE in
     let image_array := np_array image in
     let image_array := expand_dims image_array in
     image_array <- lift_result (preprocess_input image_array) ;;
     ret (Some image_array, Some original_image))
    (fun e =>
       emit (St_error ("❌ Error processing image: " ++ exn_msg e)) ;;
       ret (None, None)).
End PIL.

End image_utils.

(** ** utils/model_utils.py *)

Module model_utils.

Definition CLASS_NAMES : list string := ["Cat"; "Dog"].

(** The body of [load_model], below its decorator. *)
Definition load_model_body (host : Host) : M (option Model) :=
  try_except
    (let model_path := "vgg16_cat_dog_classifier.h5" in
     let model_url :=
       "https://drive.google.com/uc?export=download&id=1YucE0YxT0iDXPGXK83NoL7c5ht4g9q1Q" in
     present <- lib_call (Os_path_exists model_path) (inr (model_file_exists host)) ;;
     when (negb present)
       (emit (St_spinner "📥 Downloading model from Google Drive... Please wait.") ;;
        lib_call (Gdown_download model_url model_path) (gdown_download host) ;;
        emit (St_success "✅ Model downloaded successfully!")) ;;
     model <- lib_call (Keras_load_model model_path) (keras_load_model host) ;;
     emit (Print ("📊 Model input shape: " ++ input_shape model)) ;;
     emit (Print ("📊 Model output shape: " ++ output_shape model)) ;;
     ret (Some model))
    (fun e =>
       emit (St_error ("❌ Error loading model: " ++ exn_msg e)) ;;
       ret None).

(** [@st.cache_resource def load_model()]. The first call of a process runs
    the body and the decorator keeps what it returned, a model or [None];
    every later call, in whichever session, is served that value without
    running the body: no file test, no download, no Keras load. *)
Definition load_model (host : Host) : M (option Model) :=
  match cache_resource host with
  | Some model =>
      emit_all (map element_event (cache_replay host)) ;;
      ret model
  | None =>
      model <- load_model_body host ;;
      emit (Cache_resource_store model) ;;
      ret model
  end.

Definition predict_image (model : option Model) (processed_image : Tensor)
  : M (option Results) :=
  try_except
    (match model with
     | None => ret None
     | Some m =>
         predictions <- lib_call Model_predict (predict m processed_image) ;;
         row <- py_index "list" predictions 0 ;;
         probs <-
           (if Nat.eqb (List.length row) 1 then
              prob <- py_index "list" row 0 ;;
              ret (sub32 1 prob, prob)
            else
              cat_prob <- py_index "list" row 0 ;;
              dog_prob <- py_index "list" row 1 ;;
              ret (cat_prob, dog_prob)) ;;
         let '(cat_prob, dog_prob) := probs in
         let predicted_class := if Qgtb dog_prob cat_prob then "Dog" else "Cat" in
         let confidence := py_max cat_prob dog_prob in
         ret (Some {| predicted_class := predicted_class;
                      confidence := confidence;
                      cat_probability := cat_prob;
                      dog_probability := dog_prob;
                      all_probabilities := [("Cat", cat_prob); ("Dog", dog_prob)] |})
     end)
    (fun e =>
       emit (St_error ("❌ Error making prediction: " ++ exn_msg e)) ;;
       ret None).

Definition get_model_info (model : option Model) : M (option ModelInfo) :=
  match model with
  | None => ret None
  | Some m =>
      try_except
        (let total_params := count_params m in
         let trainable_params := fold_right Z.add 0 (trainable_weights m) in
         ret (Some {| total_params := total_params;
                      trainable_params := trainable_params;
                      non_trainable_params := total_params - trainable_params;
                      info_input_shape := input_shape m;
                      info_output_shape := output_shape m;
                      info_num_layers := num_layers m |}))
        (fun e =>
           emit (St_error ("❌ Error getting model info: " ++ exn_msg e)) ;;
           ret None)
  end.

End model_utils.

(** ** components/sidebar.py *)

Module sidebar.

Definition render_model_dashboard (model : option Model) : M unit :=
  match model with
  | Some m =>
      model_info <- model_utils.get_model_info (Some m) ;;
      match model_info with
      | Some info =>
          emit (St_columns 2) ;;
          emit (St_metric_int "Parameters" (total_params info)) ;;
          emit (St_metric_int "Layers" (info_num_layers info)) ;;
          (* trainable_pct = (trainable_params / total_params) * 100 *)
          (if total_params info =? 0
           then raise (Exn "ZeroDivisionError" "division by zero")
           else ret tt) ;;
          emit (St_plotly_chart "Parameter Distribution" ["Trainable"; "Frozen"]
                  [inject_Z (trainable_params info);
                   inject_Z (non_trainable_params info)]) ;;
          emit (St_expander "🔧 Technical Specs") ;;
          emit (St_markdown ("Technical Specs " ++ info_input_shape info
                             ++ " " ++ info_output_shape info))
      | None => ret tt
      end
  | None =>
      emit (St_error "❌ Model not loaded") ;;
      emit (St_markdown "Please check your model file!")
  end.

Definition render_session_stats : M unit :=
  emit (St_markdown "### 📈 Session Stats") ;;
  s <- get_state ;;
  when (is_none (predictions_made s)) (set_predictions_made 0) ;;
  s <- get_state ;;
  when (is_none (cats_detected s)) (set_cats_detected 0) ;;
  s <- get_state ;;
  when (is_none (dogs_detected s)) (set_dogs_detected 0) ;;
  emit (St_columns 2) ;;
  made <- get_attr predictions_made "predictions_made" ;;
  emit (St_metric_int "🔮 Predictions" made) ;;
  cats <- get_attr cats_detected "cats_detected" ;;
  emit (St_metric_int "🐱 Cats Found" cats) ;;
  dogs <- get_attr dogs_detected "dogs_detected" ;;
  emit (St_metric_int "🐶 Dogs Found" dogs) ;;
  made <- get_attr predictions_made "predictions_made" ;;
  let accuracy_display := if made >? 0 then "Analyzing..." else "No data" in
  emit (St_metric "📊 Session" accuracy_display).

Definition render_sidebar (browser : Browser) (model : option Model) : M Settings :=
  emit (St_markdown "AI Classifier") ;;
  emit (St_markdown "### 🎨 Appearance") ;;
  emit (St_selectbox "Choose Theme") ;;
  let theme_choice := selectbox_theme browser in
  emit (St_markdown "---") ;;
  emit (St_markdown "### 📋 Quick Guide") ;;
  emit (St_markdown "📁 Step 1: Upload") ;;
  emit (St_markdown "🔮 Step 2: Predict") ;;
  emit (St_markdown "📊 Step 3: Results") ;;
  emit (St_markdown "---") ;;
  emit (St_markdown "### 🤖 Model Dashboard") ;;
  render_model_dashboard model ;;
  emit (St_markdown "---") ;;
  emit (St_markdown "### ⚙️ Prediction Settings") ;;
  emit (St_slider "🎯 Confidence Threshold") ;;
  let confidence_threshold := slider_confidence browser in
  let conf_text :=
    if Qgeb confidence_threshold 0.8 then "High Precision"
    else if Qgeb confidence_threshold 0.7 then "Balanced"
    else "High Recall" in
  emit (Md_threshold_mode conf_text) ;;
  emit (St_markdown "#### 📊 Display Options") ;;
  emit (St_toggle "📈 Show Probability Charts") ;;
  let show_probabilities := toggle_probabilities browser in
  emit (St_toggle "📷 Show Image Details") ;;
  let show_image_info := toggle_image_info browser in
  emit (St_toggle "🔄 Show Processing Steps") ;;
  let show_processing_steps := toggle_processing_steps browser in
  emit (St_markdown "---") ;;
  emit (St_markdown "### 💡 Pro Tips") ;;
  emit (St_expander "📸 Best Photo Practices") ;;
  emit (St_markdown "Best Photo Practices") ;;
  emit (St_expander "🎯 Accuracy Tips") ;;
  emit (St_markdown "Accuracy Tips") ;;
  emit (St_expander "📊 Understanding Results") ;;
  emit (Md_understanding_results confidence_threshold) ;;
  emit (St_markdown "---") ;;
  render_session_stats ;;
  emit (St_markdown "---") ;;
  emit (St_markdown "v2.0 Enhanced UI") ;;
  ret {| confidence_threshold := confidence_threshold;
         show_probabilities := show_probabilities;
         show_image_info := show_image_info;
         show_processing_steps := show_processing_steps;
         theme := theme_choice |}.

End sidebar.

(** ** components/ui_components.py *)

Module ui_components.

Definition render_header : M unit :=
  emit (St_markdown "AI Pet Classifier").

Definition render_file_uploader (browser : Browser) : M (option UploadedFile) :=
  emit (St_markdown "📁 Upload Your Pet Image") ;;
  emit (St_file_uploader "Choose an image file") ;;
  let uploaded_file := file_uploader browser in
  when (is_none uploaded_file)
    (emit (St_expander "💡 Photo Upload Tips") ;;
     emit (St_columns 2) ;;
     emit (St_markdown "✅ Good Photos") ;;
     emit (St_markdown "❌ Avoid")) ;;
  ret uploaded_file.

Definition render_processing_steps : M unit :=
  emit (St_markdown "#### 🔄 Processing Pipeline") ;;
  emit (St_columns 5) ;;
  emit (St_markdown "🔍 Validation") ;;
  emit (St_markdown "📁 Loading") ;;
  emit (St_markdown "📐 Resizing") ;;
  emit (St_markdown "⚡ Normalization") ;;
  emit (St_markdown "✅ Ready").

(** The four cards (format, dimensions, megapixels, colour mode) are one event. *)
Definition render_image_info (image : Image) (filename : string) : M unit :=
  let image_info := image_utils.get_image_info image in
  emit (St_markdown "#### 📊 Image Analysis") ;;
  emit (St_columns 4) ;;
  emit (Md_image_info image_info).

Section Display.
Context `{Imaging}.

Definition render_image_display (uploaded_file : UploadedFile) (settings : Settings)
  : M (option Tensor * option Image) :=
  valid <- image_utils.validate_image (Some uploaded_file) ;;
  if negb valid then
    emit (St_error "❌ Invalid image file. Please upload a valid JPG, PNG, or BMP image.") ;;
    ret (None, None)
  else
    when (show_processing_steps settings) render_processing_steps ;;
    emit (St_spinner "🔄 Processing image...") ;;
    processed <- image_utils.preprocess_image uploaded_file ;;
    match processed with
    | (Some processed_image, Some original_image) =>
        emit (St_success "✅ Image processed successfully!") ;;
        emit (St_markdown "image frame") ;;
        emit (St_columns 3) ;;
        emit (St_markdown "image container") ;;
        emit (St_image ("📷 " ++ name uploaded_file)) ;;
        emit (St_markdown "</div>") ;;
        when (show_image_info settings)
          (render_image_info original_image (name uploaded_file)) ;;
        ret (Some processed_image, Some original_image)
    | _ =>
        emit (St_error "❌ Failed to process the image. Please try a different file.") ;;
        ret (None, None)
    end.

End Display.

Definition render_prediction_button (browser : Browser) : M bool :=
  emit (St_markdown "#### 🔮 AI Analysis") ;;
  emit (St_markdown "🚀 Ready to Analyze Your Pet Photo?") ;;
  emit (St_columns 3) ;;
  emit (St_button "🎯 Analyze Image with AI") ;;
  ret (button_clicked browser).

Definition create_enhanced_probability_chart (probabilities : list (string * Q))
  : M unit :=
  let classes := map fst probabilities in
  let probs := map snd probabilities in
  emit (St_plotly_chart "🎯 Class Probability Distribution" classes probs).

Definition render_confidence_interpretation (results : Results) (cat_prob dog_prob : Q)
  : M unit :=
  emit (St_markdown "#### 🧠 AI Confidence Analysis") ;;
  let confidence := confidence results in
  let level :=
    if Qgeb confidence 0.9 then "Extremely High"
    else if Qgeb confidence 0.8 then "High"
    else if Qgeb confidence 0.7 then "Moderate"
    else if Qgeb confidence 0.6 then "Low"
    else "Very Low" in
  emit (Md_confidence_level level confidence).

Definition render_probability_section (results : Results) : M unit :=
  emit (St_markdown "#### 📊 Detailed Probability Analysis") ;;
  emit (St_columns 2) ;;
  let cat_prob := cat_probability results in
  let dog_prob := dog_probability results in
  emit (Md_probability "Cat" cat_prob) ;;
  emit (Md_probability "Dog" dog_prob) ;;
  create_enhanced_probability_chart (all_probabilities results) ;;
  render_confidence_interpretation results cat_prob dog_prob.

Definition render_prediction_results (results : option Results) (settings : Settings)
  : M unit :=
  match results with
  | None =>
      emit (St_error
              "❌ Could not generate prediction. Please try again with a different image.")
  | Some results =>
      (* st.session_state.predictions_made += 1 *)
      made <- get_attr predictions_made "predictions_made" ;;
      set_predictions_made (made + 1) ;;
      (if String.eqb (predicted_class results) "Cat" then
         cats <- get_attr cats_detected "cats_detected" ;;
         set_cats_detected (cats + 1)
       else
         dogs <- get_attr dogs_detected "dogs_detected" ;;
         set_dogs_detected (dogs + 1)) ;;
      emit (St_markdown "### 🎯 AI Prediction Results") ;;
      let predicted_class := predicted_class results in
      let confidence := confidence results in
      (if Qgeb confidence (confidence_threshold settings) then
         emit (Md_prediction predicted_class confidence) ;;
         emit (St_success_certain confidence)
       else
         emit (Md_uncertain predicted_class confidence (confidence_threshold settings)) ;;
         emit (St_warning
                 "⚠️ Low confidence prediction. Consider uploading a clearer image.")) ;;
      when (show_probabilities settings) (render_probability_section results)
  end.

End ui_components.

(** ** app.py *)

Module app.

(** [results['confidence']]: subscripting [None] raises [TypeError]. *)
Definition subscript_confidence (results : option Results) : M Q :=
  match results with
  | Some r => ret (confidence r)
  | None => raise (Exn "TypeError" "'NoneType' object is not subscriptable")
  end.

Definition render_instructions : M unit :=
  emit (St_markdown "👆 Upload an image to get started!") ;;
  emit (St_markdown "---") ;;
  emit (St_markdown "### 🎯 How it works:") ;;
  emit (St_columns 3) ;;
  emit (St_markdown "Step 1: Upload") ;;
  emit (St_markdown "Step 2: Predict") ;;
  emit (St_markdown "Step 3: Results").

Section Main.
Context `{Imaging}.

Definition main (host : Host) (browser : Browser) : M unit :=
  (* Initialize session state *)
  s <- get_state ;;
  when (is_none (ss_model s)) (set_model None) ;;
  s <- get_state ;;
  when (is_none (ss_model_loaded s)) (set_model_loaded false) ;;
  (* Load model on first run *)
  loaded <- get_attr ss_model_loaded "model_loaded" ;;
  when (negb loaded)
    (emit (St_spinner "🤖 Loading AI model... This may take a moment on first run.") ;;
     model <- model_utils.load_model host ;;
     set_model model ;;
     set_model_loaded true ;;
     model <- get_attr ss_model "model" ;;
     if is_some model then
       emit (St_success "✅ Model loaded successfully!")
     else
       emit (St_error "❌ Failed to load model. Please check if the model file exists.") ;;
       st_stop) ;;
  (* Render sidebar and get settings *)
  model <- get_attr ss_model "model" ;;
  settings <- sidebar.render_sidebar browser model ;;
  ui_components.render_header ;;
  (* Check if model is loaded before proceeding *)
  model <- get_attr ss_model "model" ;;
  when (is_none model)
    (emit (St_error "❌ Model not available. Please refresh the page.") ;;
     st_stop) ;;
  uploaded_file <- ui_components.render_file_uploader browser ;;
  match uploaded_file with
  | Some uploaded_file =>
      images <- ui_components.render_image_display uploaded_file settings ;;
      let '(processed_image, original_image) := images in
      match processed_image with
      | Some processed_image =>
          predict_clicked <- ui_components.render_prediction_button browser ;;
          when predict_clicked
            (emit (St_spinner "🔮 Analyzing image... Please wait!") ;;
             model <- get_attr ss_model "model" ;;
             results <- model_utils.predict_image model processed_image ;;
             when (is_some results)
               (ui_components.render_prediction_results results settings) ;;
             conf <- subscript_confidence results ;;
             if Qgeb conf (confidence_threshold settings) then
               emit St_balloons
             else
               emit (St_error "❌ Failed to make prediction. Please try again."))
      | None => ret tt
      end
  | None => render_instructions
  end.

Definition render_footer : M unit :=
  emit (St_markdown "---") ;;
  emit (St_markdown "🤖 Powered by VGG16 Deep Learning Model").

(** The body of [if __name__ == "__main__":]. *)
Definition script (host : Host) (browser : Browser) : M unit :=
  try_except
    (main host browser ;; render_footer)
    (fun e =>
       emit (St_error ("❌ Application Error: " ++ exn_msg e)) ;;
       emit (St_error "Please refresh the page or contact support if the problem persists.") ;;
       emit (St_expander "🔧 Debug Information") ;;
       emit (St_exception e)).

End Main.

End app.

Import image_utils model_utils sidebar ui_components app.

(** * Specification vocabulary *)

(** A four-dimensional array of the given shape. *)
Definition has_shape (t : Tensor) (batch height width channels : nat) : Prop :=
  List.length t = batch /\
  Forall (fun img =>
    List.length img = height /\
    Forall (fun row =>
      List.length row = width /\
      Forall (fun px => List.length px = channels) row) img) t.

(** The events that let the user classify an image, or do the classifying. *)
Definition classifying (e : Event) : bool :=
  match e with
  | St_file_uploader _ | St_button _ | Image_open _ | Model_predict => true
  | _ => false
  end.

Definition is_error (e : Event) : bool :=
  match e with St_error _ => true | _ => false end.

(** The session counters, an unset key counting as zero. *)
Definition made (s : SessionState) : Z :=
  match predictions_made s with Some n => n | None => 0 end.
Definition cats (s : SessionState) : Z :=
  match cats_detected s with Some n => n | None => 0 end.
Definition dogs (s : SessionState) : Z :=
  match dogs_detected s with Some n => n | None => 0 end.

(** The three counters are set together, and the tallies add up. *)
Definition counters_ok (s : SessionState) : Prop :=
  match predictions_made s, cats_detected s, dogs_detected s with
  | None, None, None => True
  | Some n, Some c, Some d => n = c + d
  | _, _, _ => False
  end.

(** The result cards of a trace, by the label they announce. *)
Definition card_label (e : Event) : option string :=
  match e with
  | Md_prediction l _ | Md_uncertain l _ _ => Some l
  | _ => None
  end.

Definition cat_card (e : Event) : Z :=
  match card_label e with
  | Some l => if String.eqb l "Cat" then 1 else 0
  | None => 0
  end.
Definition dog_card (e : Event) : Z :=
  match card_label e with
  | Some l => if String.eqb l "Cat" then 0 else 1
  | None => 0
  end.
Definition cat_cards (tr : list Event) : Z := fold_right (fun e n => cat_card e + n) 0 tr.
Definition dog_cards (tr : list Event) : Z := fold_right (fun e n => dog_card e + n) 0 tr.

(** A computation keeps the counters consistent and advances them by the
    result cards it renders. *)
Definition tallies {A} (m : M A) : Prop :=
  forall s, counters_ok s ->
    counters_ok (run_state (m s)) /\
    cats (run_state (m s)) = cats s + cat_cards (run_trace (m s)) /\
    dogs (run_state (m s)) = dogs s + dog_cards (run_trace (m s)).

(** What a computation leaves behind: the session and the trace. *)
Definition effects {A} (m : M A) (s : SessionState) : SessionState * list Event :=
  (run_state (m s), run_trace (m s)).

(** From session [s], the effects [x] keep the counters consistent and
    advance each by the result cards rendered. *)
Definition advances (s : SessionState) (x : SessionState * list Event) : Prop :=
  counters_ok (fst x) /\
  made (fst x) = made s + cat_cards (snd x) + dog_cards (snd x) /\
  cats (fst x) = cats s + cat_cards (snd x) /\
  dogs (fst x) = dogs s + dog_cards (snd x).

(** What a trace shows of the computed prediction: the announced label with
    its confidence, the probability cards and the chart. How it is shown
    (reliable or uncertain, the threshold, balloons) is left out. *)
Inductive Shown : Type :=
| Shown_label (label : string) (conf : Q)
| Shown_probability (label : string) (prob : Q)
| Shown_chart (labels : list string) (values : list Q)
| Shown_level (level : string) (conf : Q).

Definition shown (e : Event) : list Shown :=
  match e with
  | Md_prediction l c | Md_uncertain l c _ => [Shown_label l c]
  | Md_probability l p => [Shown_probability l p]
  | St_plotly_chart _ ls vs => [Shown_chart ls vs]
  | Md_confidence_level l c => [Shown_level l c]
  | _ => []
  end.

Definition view (tr : list Event) : list Shown := flat_map shown tr.

(** Two values of the widgets that differ at most in the confidence slider. *)
Definition same_but_threshold (b1 b2 : Browser) : Prop :=
  selectbox_theme b1 = selectbox_theme b2 /\
  toggle_probabilities b1 = toggle_probabilities b2 /\
  toggle_image_info b1 = toggle_image_info b2 /\
  toggle_processing_steps b1 = toggle_processing_steps b2 /\
  file_uploader b1 = file_uploader b2 /\
  button_clicked b1 = button_clicked b2.

Definition settings_agree (st1 st2 : Settings) : Prop :=
  show_probabilities st1 = show_probabilities st2 /\
  show_image_info st1 = show_image_info st2 /\
  show_processing_steps st1 = show_processing_steps st2 /\
  theme st1 = theme st2.

(** Two outcomes of the same kind, with related values. *)
Definition outcome_rel {A} (R : A -> A -> Prop) (o1 o2 : Outcome A) : Prop :=
  match o1, o2 with
  | Ret a1, Ret a2 => R a1 a2
  | Stopped, Stopped => True
  | Raised e1, Raised e2 => e1 = e2
  | _, _ => False
  end.

(** Two computations that, from the same session, end alike, leave the same
    session and show the same prediction. *)
Definition alike {A} (R : A -> A -> Prop) (m1 m2 : M A) : Prop :=
  forall s,
    outcome_rel R (run_outcome (m1 s)) (run_outcome (m2 s)) /\
    run_state (m1 s) = run_state (m2 s) /\
    view (run_trace (m1 s)) = view (run_trace (m2 s)).

(** A session in which the model failed to load. *)
Definition load_failed (s : SessionState) : Prop :=
  ss_model s = Some None /\ ss_model_loaded s = Some true.

(** A pixel in BGR order with the ImageNet channel means subtracted, in
    float32. *)
Definition bgr_centered (px : list Z) : list Q :=
  [sub32 (astype_float32 (nth 2 px 0%Z)) (round32 103.939);
   sub32 (astype_float32 (nth 1 px 0%Z)) (round32 116.779);
   sub32 (astype_float32 (nth 0 px 0%Z)) (round32 123.68)].

(** The runs of one session: each starts from the session the previous
    one left, with the host and the widgets as they are then. *)
Fixpoint session_runs `{Imaging} (inputs : list (Host * Browser)) (s : SessionState)
  : list (Outcome unit * SessionState * list Event) :=
  match inputs with
  | [] => []
  | (host, browser) :: later =>
      main host browser s :: session_runs later (run_state (main host browser s))
  end.

(** The load of the model fails: the artifact is missing and the download
    raises, or Keras cannot load the file. *)
Definition load_fails (host : Host) : Prop :=
  (model_file_exists host = false /\ exists e, gdown_download host = inl e) \/
  (exists e, keras_load_model host = inl e).

(** A run that ends by [st.stop()] after an error, without the uploader, the
    button, a decoding or a forward pass. *)
Definition refused (r : Outcome unit * SessionState * list Event) : Prop :=
  run_outcome r = Stopped /\
  existsb classifying (run_trace r) = false /\
  existsb is_error (run_trace r) = true.

(** The string holds no dot. *)
Fixpoint no_dot (s : string) : bool :=
  match s with
  | EmptyString => true
  | String c rest => negb (Ascii.eqb c ".") && no_dot rest
  end.

(** The two keys of the session that concern the model. *)
Definition model_part (s : SessionState) : option (option Model) * option bool :=
  (ss_model s, ss_model_loaded s).

(** From a session whose model keys satisfy [J], the computation [m] leaves
    them satisfying [J] and emits no event that satisfies [p]. *)
Definition holds {A} (J : option (option Model) * option bool -> Prop)
                 (p : Event -> bool) (m : M A) : Prop :=
  forall s, J (model_part s) ->
    J (model_part (run_state (m s))) /\ existsb p (run_trace (m s)) = false.

(** The decorator keeps a value. *)
Definition caching (e : Event) : bool :=
  match e with Cache_resource_store _ => true | _ => false end.

(** What a run put into [st.cache_resource], if [load_model] ran its body. *)
Fixpoint stored (tr : list Event) : option (option Model) :=
  match tr with
  | [] => None
  | Cache_resource_store value :: _ => Some value
  | _ :: rest => stored rest
  end.

(** The host with the given value in [st.cache_resource]. *)
Definition with_cache (cache : option (option Model)) (host : Host) : Host :=
  {| cache_resource := cache;
     cache_replay := cache_replay host;
     model_file_exists := model_file_exists host;
     gdown_download := gdown_download host;
     keras_load_model := keras_load_model host |}.

(** A server process: what [st.cache_resource] holds, and the
    [st.session_state] of each browser session. *)
Record Process : Type := {
  cache : option (option Model);
  sessions : nat -> SessionState
}.

(** A process that has just started: nothing is cached and no session has
    assigned a key. *)
Definition started : Process :=
  {| cache := None;
     sessions := fun _ =>
       {| ss_model := None; ss_model_loaded := None;
          predictions_made := None; cats_detected := None; dogs_detected := None |} |}.

(** The process after a run of session [i]. *)
Definition after_run (p : Process) (i : nat)
                     (r : Outcome unit * SessionState * list Event) : Process :=
  {| cache := match stored (run_trace r) with
              | Some value => Some value
              | None => cache p
              end;
     sessions := fun j => if Nat.eqb j i then run_state r else sessions p j |}.

(** The runs of one process, in order: each is a run of [main] in some
    session, with the machine and the widgets as they are then, and finds
    in [st.cache_resource] what the runs before it left there. *)
Fixpoint process_runs `{Imaging} (inputs : list (nat * Host * Browser)) (p : Process)
  : list (Outcome unit * SessionState * list Event) :=
  match inputs with
  | [] => []
  | (i, host, browser) :: later =>
      let r := main (with_cache (cache p) host) browser (sessions p i) in
      r :: process_runs later (after_run p i r)
  end.

(** The events of [load_model]: the file test, the download, the Keras load. *)
Definition loading (e : Event) : bool :=
  match e with
  | Os_path_exists _ | Gdown_download _ _ | Keras_load_model _ => true
  | _ => false
  end.

(** A forward pass, or a result card. *)
Definition predicting (e : Event) : bool :=
  match e with
  | Model_predict | Md_prediction _ _ | Md_uncertain _ _ _ => true
  | _ => false
  end.

(** An image is opened, or a forward pass made. *)
Definition processing (e : Event) : bool :=
  match e with
  | Image_open _ | Model_predict => true
  | _ => false
  end.

(** A session that holds a loaded model. *)
Definition model_ready (m : Model) (s : SessionState) : Prop :=
  ss_model s = Some (Some m) /\ ss_model_loaded s = Some true.

(** The session with every unset counter set to zero. *)
Definition initialised (s : SessionState) : SessionState :=
  {| ss_model := ss_model s; ss_model_loaded := ss_model_loaded s;
     predictions_made := Some (made s);
     cats_detected := Some (cats s);
     dogs_detected := Some (dogs s) |}.

(** The settings the sidebar reads off the widgets. *)
Definition settings_of (browser : Browser) : Settings :=
  {| confidence_threshold := slider_confidence browser;
     show_probabilities := toggle_probabilities browser;
     show_image_info := toggle_image_info browser;
     show_processing_steps := toggle_processing_steps browser;
     theme := selectbox_theme browser |}.

(** Two parts of [main], named for the proofs (see [main_parts]): the body
    of [if predict_clicked:], and everything after the model is loaded. *)
Definition prediction_block (settings : Settings) (processed_image : Tensor) : M unit :=
  emit (St_spinner "🔮 Analyzing image... Please wait!") ;;
  model <- get_attr ss_model "model" ;;
  results <- predict_image model processed_image ;;
  when (is_some results) (render_prediction_results results settings) ;;
  conf <- subscript_confidence results ;;
  if Qgeb conf (confidence_threshold settings) then
    emit St_balloons
  else
    emit (St_error "❌ Failed to make prediction. Please try again.").

Definition page `{Imaging} (browser : Browser) : M unit :=
  model <- get_attr ss_model "model" ;;
  settings <- render_sidebar browser model ;;
  render_header ;;
  model <- get_attr ss_model "model" ;;
  when (is_none model)
    (emit (St_error "❌ Model not available. Please refresh the page.") ;;
     st_stop) ;;
  uploaded_file <- render_file_uploader browser ;;
  match uploaded_file with
  | Some uploaded_file =>
      images <- render_image_display uploaded_file settings ;;
      let '(processed_image, original_image) := images in
      match processed_image with
      | Some processed_image =>
          predict_clicked <- render_prediction_button browser ;;
          when predict_clicked (prediction_block settings processed_image)
      | None => ret tt
      end
  | None => render_instructions
  end.

(** The events that tell the user how a prediction went: an error, a
    forward pass or result card, balloons. *)
Definition celebrating (e : Event) : bool :=
  match e with St_balloons => true | _ => false end.
Definition telling (e : Event) : bool :=
  is_error e || predicting e || celebrating e.

(** The predict button is rendered, a forward pass made or a result shown. *)
Definition offering (e : Event) : bool :=
  match e with
  | St_button _ | Model_predict | Md_prediction _ _ | Md_uncertain _ _ _ => true
  | _ => false
  end.

(** The session at the end of a sequence of runs. *)
Fixpoint session_end `{Imaging} (inputs : list (Host * Browser)) (s : SessionState)
  : SessionState :=
  match inputs with
  | [] => s
  | (host, browser) :: later => session_end later (run_state (main host browser s))
  end.

(** Everything the runs of a session emitted, in order. *)
Definition session_trace (runs : list (Outcome unit * SessionState * list Event))
  : list Event :=
  flat_map (fun r => run_trace r) runs.

(** ** Sample objects *)

Definition fresh_session : SessionState :=
  {| ss_model := None; ss_model_loaded := None;
     predictions_made := None; cats_detected := None; dogs_detected := None |}.

(** A model with a fixed answer. *)
Definition constant_model (answer : PyResult (list (list Q))) : Model :=
  {| predict := fun _ => answer;
     count_params := 14714688 + 25089;
     trainable_weights := [25088; 1];
     num_layers := 22;
     input_shape := "(None, 224, 224, 3)";
     output_shape := "(None, 1)" |}.

(** A decoder for which every file but [broken.png] is a 500 x 300 RGBA
    image of one colour; resampling takes the top-left sample. *)
Definition sample_imaging : Imaging :=
  {| PIL_open f :=
       if String.eqb (name f) "broken.png"
       then inl (Exn "UnidentifiedImageError" "cannot identify image file")
       else inr {| format := Some "PNG"; mode := "RGBA"; size := (500, 300)%nat;
                   getpixel := fun _ _ => [200; 120; 40; 255] |};
     PIL_to_rgb img x y :=
       (nth 0 (getpixel img x y) 0, nth 1 (getpixel img x y) 0, nth 2 (getpixel img x y) 0);
     PIL_resample band _ _ _ _ := band 0%nat 0%nat |}.

Definition sample_file (file_name : string) (bytes : Z) : UploadedFile :=
  {| name := file_name; file_size := bytes; getvalue := [] |}.

(** A process that has not called [load_model] yet, with the artifact on
    disk. *)
Definition sample_host (loaded : PyResult Model) : Host :=
  {| cache_resource := None; cache_replay := [];
     model_file_exists := true; gdown_download := inr tt; keras_load_model := loaded |}.

(** A host without the artifact and without network, [load_model] not yet
    called. *)
Definition offline_host : Host :=
  {| cache_resource := None; cache_replay := [];
     model_file_exists := false;
     gdown_download := inl (Exn "ConnectionError" "network unreachable");
     keras_load_model := inl (Exn "OSError" "no file or directory found") |}.

Definition sample_browser (threshold : Q) (file : option UploadedFile) (clicked : bool)
  : Browser :=
  {| selectbox_theme := "🌙 Dark";
     slider_confidence := threshold;
     toggle_probabilities := true;
     toggle_image_info := false;
     toggle_processing_steps := true;
     file_uploader := file;
     button_clicked := clicked |}.

(** A session with three predictions behind it. *)
Definition busy_session (model : option Model) : SessionState :=
  {| ss_model := Some model; ss_model_loaded := Some true;
     predictions_made := Some 3; cats_detected := Some 1; dogs_detected := Some 2 |}.

Definition sample_settings (threshold : Q) : Settings :=
  {| confidence_threshold := threshold;
     show_probabilities := true;
     show_image_info := false;
     show_processing_steps := true;
     theme := "🌙 Dark" |}.

(** * Properties *)

(** ** Numbers and strings *)

Lemma Qgtb_true (a b : Q) : Qgtb a b = true <-> (b < a)%Q.
Proof.
  unfold Qgtb. rewrite negb_true_iff. split; intro Hc.
  - apply Qnot_le_lt. intro Hle. apply Qle_bool_iff in Hle. congruence.
  - destruct (Qle_bool a b) eqn:E; [|reflexivity].
    apply Qle_bool_iff in E. exfalso. exact (Qlt_not_le _ _ Hc E).
Qed.

Lemma Qgtb_false (a b : Q) : Qgtb a b = false <-> (a <= b)%Q.
Proof.
  unfold Qgtb. rewrite negb_false_iff. apply Qle_bool_iff.
Qed.

Lemma Qgeb_true (a b : Q) : Qgeb a b = true <-> (b <= a)%Q.
Proof. unfold Qgeb. apply Qle_bool_iff. Qed.

Lemma py_max_Qmax (a b : Q) : (py_max a b == Qmax a b)%Q.
Proof.
  unfold py_max. destruct (Qgtb b a) eqn:E.
  - apply Qgtb_true in E. symmetry. apply Q.max_r. apply Qlt_le_weak. exact E.
  - apply Qgtb_false in E. symmetry. apply Q.max_l. exact E.
Qed.

(** ** Rounding to float32 *)

Lemma round_half_even_between (x : Q) :
  (round_half_even x = Qfloor x \/
   (round_half_even x = Qfloor x + 1 /\ (inject_Z (Qfloor x) < x)%Q)) /\
  (- (1 # 2) <= inject_Z (round_half_even x) - x <= 1 # 2)%Q.
Proof.
  pose proof (Qfloor_le x) as Hlo. pose proof (Qlt_floor x) as Hhi.
  rewrite inject_Z_plus in Hhi. change (inject_Z 1) with 1%Q in Hhi.
  unfold round_half_even.
  destruct (x - inject_Z (Qfloor x) ?= 1 # 2)%Q eqn:E.
  - apply Qeq_alt in E.
    destruct (Z.even (Qfloor x)).
    + split; [left; reflexivity | lra].
    + rewrite inject_Z_plus. change (inject_Z 1) with 1%Q.
      split; [right; split; [reflexivity | lra] | lra].
  - apply Qlt_alt in E. split; [left; reflexivity | lra].
  - apply Qgt_alt in E. rewrite inject_Z_plus. change (inject_Z 1) with 1%Q.
    split; [right; split; [reflexivity | lra] | lra].
Qed.

Lemma round_half_even_le (x : Q) (z : Z) :
  (x <= inject_Z z)%Q -> round_half_even x <= z.
Proof.
  intro Hx. pose proof (Qfloor_le x) as Hlo.
  destruct (round_half_even_between x) as [[Hr | [Hr Hlt]] _]; rewrite Hr.
  - rewrite Zle_Qle. lra.
  - assert (Hz : (inject_Z (Qfloor x) < inject_Z z)%Q) by lra.
    rewrite <- Zlt_Qlt in Hz. lia.
Qed.

Lemma round_half_even_ge (x : Q) (z : Z) :
  (inject_Z z <= x)%Q -> z <= round_half_even x.
Proof.
  intro Hx. pose proof (Qlt_floor x) as Hhi.
  assert (Hz : (inject_Z z < inject_Z (Qfloor x + 1))%Q) by lra.
  rewrite <- Zlt_Qlt in Hz.
  destruct (round_half_even_between x) as [[Hr | [Hr _]] _]; rewrite Hr; lia.
Qed.

Lemma two_power_pos (e : Z) : (0 < 2 ^ e)%Q.
Proof. apply Qpower_0_lt. reflexivity. Qed.

Lemma two_power_split (a b : Z) : (2 ^ (a + b) == 2 ^ a * 2 ^ b)%Q.
Proof. apply Qpower_plus. discriminate. Qed.

Lemma two_power_inject (k : Z) : 0 <= k -> (2 ^ k == inject_Z (2 ^ k))%Q.
Proof. intro Hk. rewrite Zpower_Qpower by exact Hk. reflexivity. Qed.

(** The binade of a positive rational starts at or below it. *)
Lemma binade_below (x : Q) : (0 < x)%Q -> (2 ^ binade x <= x)%Q.
Proof.
  intro Hx. unfold binade.
  destruct (Qle_bool _ x) eqn:E; [apply Qle_bool_iff; exact E|].
  destruct x as [n d]. cbn [Qnum Qden].
  assert (Hn : 0 < n).
  { unfold Qlt in Hx. cbn in Hx. lia. }
  destruct (Z.log2_spec n Hn) as [Hlo _].
  destruct (Z.log2_spec (Z.pos d) (Pos2Z.is_pos d)) as [_ Hhi].
  pose proof (Z.log2_nonneg n) as Ha. pose proof (Z.log2_nonneg (Z.pos d)) as Hb.
  set (a := Z.log2 n) in *. set (b := Z.log2 (Z.pos d)) in *.
  assert (Hsplit : (2 ^ (a - b - 1) * 2 ^ (b + 1) == 2 ^ a)%Q).
  { rewrite <- two_power_split. replace (a - b - 1 + (b + 1)) with a by lia. reflexivity. }
  rewrite (two_power_inject a Ha), (two_power_inject (b + 1)) in Hsplit by lia.
  replace (Z.succ b) with (b + 1) in Hhi by lia.
  assert (Hd : (inject_Z (Z.pos d) < inject_Z (2 ^ (b + 1)))%Q) by (rewrite <- Zlt_Qlt; exact Hhi).
  assert (Hnq : (inject_Z (2 ^ a) <= inject_Z n)%Q) by (rewrite <- Zle_Qle; exact Hlo).
  pose proof (two_power_pos (a - b - 1)) as Hp.
  rewrite (Qmake_Qdiv n d). apply Qle_shift_div_l; [reflexivity|].
  nra.
Qed.

Lemma Qabs_nonneg_eq (x : Q) : (0 <= x)%Q -> Qabs x = x.
Proof.
  destruct x as [n d]. unfold Qle. cbn. intro Hn. rewrite Z.abs_eq by lia. reflexivity.
Qed.

Lemma binade_unit (x : Q) : (0 <= x <= 1)%Q -> binade x <= 0.
Proof.
  intros [H0 H1]. destruct (Qlt_le_dec 0 x) as [Hpos | Hzero].
  - pose proof (binade_below x Hpos) as Hb.
    destruct (Z_le_gt_dec (binade x) 0) as [Hle | Hgt]; [exact Hle|].
    assert (H2 : (2 ^ 1 <= 2 ^ binade x)%Q).
    { apply Qpower_le_compat_l; [lia | discriminate]. }
    change (2 ^ 1)%Q with 2%Q in H2.
    set (p := (2 ^ binade x)%Q) in *. clearbody p. exfalso. lra.
  - unfold binade. assert (Hn : Qnum x = 0).
    { destruct x as [n d]. unfold Qle in *. cbn in *. lia. }
    rewrite Hn. change (Z.log2 0) with 0. pose proof (Z.log2_nonneg (Z.pos (Qden x))).
    destruct (Qle_bool _ x); lia.
Qed.

Lemma binade_below_one (x : Q) : (0 < x < 1)%Q -> binade x <= -1.
Proof.
  intros [H0 H1]. pose proof (binade_below x H0) as Hb.
  destruct (Z_le_gt_dec (binade x) (-1)) as [Hle | Hgt]; [exact Hle|].
  assert (H2 : (2 ^ 0 <= 2 ^ binade x)%Q).
  { apply Qpower_le_compat_l; [lia | discriminate]. }
  change (2 ^ 0)%Q with 1%Q in H2.
  set (p := (2 ^ binade x)%Q) in *. clearbody p. exfalso. lra.
Qed.

(** Rounding to a multiple of [ulp] keeps every bound that is itself a
    multiple of [ulp]. *)
Lemma round_to_le (ulp x : Q) (z : Z) :
  (0 < ulp)%Q -> (x <= inject_Z z * ulp)%Q ->
  (inject_Z (round_half_even (x / ulp)) * ulp <= inject_Z z * ulp)%Q.
Proof.
  intros Hu Hx. apply Qmult_le_compat_r; [|lra].
  rewrite <- Zle_Qle. apply round_half_even_le.
  apply Qle_shift_div_r; assumption.
Qed.

Lemma round_to_ge (ulp x : Q) (z : Z) :
  (0 < ulp)%Q -> (inject_Z z * ulp <= x)%Q ->
  (inject_Z z * ulp <= inject_Z (round_half_even (x / ulp)) * ulp)%Q.
Proof.
  intros Hu Hx. apply Qmult_le_compat_r; [|lra].
  rewrite <- Zle_Qle. apply round_half_even_ge.
  apply Qle_shift_div_l; assumption.
Qed.

Lemma round_to_error (ulp x : Q) :
  (0 < ulp)%Q ->
  (- (ulp / 2) <= inject_Z (round_half_even (x / ulp)) * ulp - x <= ulp / 2)%Q.
Proof.
  intro Hu. destruct (round_half_even_between (x / ulp)) as [_ [Hlo Hhi]].
  assert (Hx : (x / ulp * ulp == x)%Q) by (field; lra).
  set (r := inject_Z (round_half_even (x / ulp))) in *.
  set (y := (x / ulp)%Q) in *. clearbody r y.
  assert (H1 : ((r - y) * ulp <= (1 # 2) * ulp)%Q) by (apply Qmult_le_compat_r; lra).
  assert (H2 : (- (1 # 2) * ulp <= (r - y) * ulp)%Q) by (apply Qmult_le_compat_r; lra).
  assert (Hhalf : (ulp / 2 == (1 # 2) * ulp)%Q) by field.
  rewrite Hhalf. lra.
Qed.

(** A power of two at or above the spacing is a multiple of it. *)
Lemma two_power_multiple (k e : Z) :
  e <= k -> (2 ^ k == inject_Z (2 ^ (k - e)) * 2 ^ e)%Q.
Proof.
  intro Hk. rewrite <- (two_power_inject (k - e)) by lia.
  rewrite <- two_power_split. replace (k - e + e) with k by lia. reflexivity.
Qed.

Lemma round32_unit (x : Q) :
  (0 <= x <= 1)%Q ->
  (0 <= round32 x <= 1)%Q /\
  ((1 # 2) <= x -> (1 # 2) <= round32 x)%Q /\
  (- (1 # 33554432) <= round32 x - x <= 1 # 33554432)%Q.
Proof.
  intros [H0 H1]. unfold round32. rewrite (Qabs_nonneg_eq x H0).
  pose proof (binade_unit x (conj H0 H1)) as He.
  set (e := Z.max (binade x) (-126)).
  assert (He0 : e <= 0) by (unfold e; lia).
  pose proof (two_power_pos (e - 23)) as Hu.
  assert (Hone : (inject_Z (2 ^ (0 - (e - 23))) * 2 ^ (e - 23) == 1)%Q).
  { rewrite <- (two_power_multiple 0 (e - 23)) by lia. reflexivity. }
  assert (Hhalf : (inject_Z (2 ^ (-1 - (e - 23))) * 2 ^ (e - 23) == 1 # 2)%Q).
  { rewrite <- (two_power_multiple (-1) (e - 23)) by lia. reflexivity. }
  assert (Hzero : (inject_Z 0 * 2 ^ (e - 23) == 0)%Q) by ring.
  rewrite Qred_correct.
  pose proof (round_to_le (2 ^ (e - 23)) x (2 ^ (0 - (e - 23))) Hu) as Hle1.
  pose proof (round_to_ge (2 ^ (e - 23)) x (2 ^ (0 - (e - 23))) Hu) as Hge1.
  pose proof (round_to_ge (2 ^ (e - 23)) x (2 ^ (-1 - (e - 23))) Hu) as Hgeh.
  pose proof (round_to_le (2 ^ (e - 23)) x 0 Hu) as Hle0.
  pose proof (round_to_ge (2 ^ (e - 23)) x 0 Hu) as Hge0.
  pose proof (round_to_error (2 ^ (e - 23)) x Hu) as Herr.
  rewrite Hone in Hle1, Hge1. rewrite Hhalf in Hgeh. rewrite Hzero in Hle0, Hge0.
  assert (Hsmall : (0 < x -> x < 1 -> 2 ^ (e - 23) / 2 <= 1 # 33554432)%Q).
  { intros Hpos Hlt. pose proof (binade_below_one x (conj Hpos Hlt)) as Hb.
    assert (Hm : (2 ^ (e - 23) <= 2 ^ (-24))%Q).
    { apply Qpower_le_compat_l; [unfold e; lia | discriminate]. }
    change (2 ^ (-24))%Q with (1 # 16777216)%Q in Hm.
    set (u := (2 ^ (e - 23))%Q) in *. clearbody u.
    apply Qle_shift_div_r; [reflexivity | lra]. }
  set (r := (inject_Z (round_half_even (x / 2 ^ (e - 23))) * 2 ^ (e - 23))%Q) in *.
  clearbody r.
  set (u := (2 ^ (e - 23) / 2)%Q) in *. clearbody u.
  split; [split; [apply Hge0; exact H0 | apply Hle1; exact H1]|].
  split; [exact Hgeh|].
  destruct (Qlt_le_dec x 1) as [Hlt | Hge].
  - destruct (Qlt_le_dec 0 x) as [Hpos | Hnonpos].
    + specialize (Hsmall Hpos Hlt). lra.
    + specialize (Hle0 Hnonpos). specialize (Hge0 H0). lra.
  - specialize (Hle1 H1). specialize (Hge1 Hge). lra.
Qed.

(** The strings of a list *)

Lemma str_in_In (x : string) (items : list string) :
  str_in x items = true <-> In x items.
Proof.
  unfold str_in. rewrite existsb_exists. split.
  - intros [y [Hin Heq]]. apply String.eqb_eq in Heq. subst. exact Hin.
  - intro Hin. exists x. split; [exact Hin | apply String.eqb_refl].
Qed.

Lemma str_in_not_In (x : string) (items : list string) :
  str_in x items = false <-> ~ In x items.
Proof.
  rewrite <- str_in_In. destruct (str_in x items); split; congruence.
Qed.

(** ** [predict_image] *)

Lemma predict_image_two_outputs (m : Model) (t : Tensor) (c d : Q)
                                (more : list Q) (rest : list (list Q)) (s : SessionState) :
  predict m t = inr ((c :: d :: more) :: rest) ->
  predict_image (Some m) t s =
    (Ret (Some {| predicted_class := if Qgtb d c then "Dog" else "Cat";
                  confidence := py_max c d;
                  cat_probability := c;
                  dog_probability := d;
                  all_probabilities := [("Cat", c); ("Dog", d)] |}),
     s, [Model_predict]).
Proof.
  intro Hp. unfold predict_image, try_except, lib_call, lift_result, bind, emit.
  rewrite Hp. reflexivity.
Qed.

Lemma predict_image_sigmoid (m : Model) (t : Tensor) (p : Q)
                            (rest : list (list Q)) (s : SessionState) :
  predict m t = inr ([p] :: rest) ->
  predict_image (Some m) t s =
    (Ret (Some {| predicted_class := if Qgtb p (sub32 1 p) then "Dog" else "Cat";
                  confidence := py_max (sub32 1 p) p;
                  cat_probability := sub32 1 p;
                  dog_probability := p;
                  all_probabilities := [("Cat", sub32 1 p); ("Dog", p)] |}),
     s, [Model_predict]).
Proof.
  intro Hp. unfold predict_image, try_except, lib_call, lift_result, bind, emit.
  rewrite Hp. reflexivity.
Qed.

(** A failed prediction: the model is missing, the forward pass raises, or
    its output has no row or an empty row. *)
Lemma predict_image_none (t : Tensor) (s : SessionState) :
  predict_image None t s = (Ret None, s, []).
Proof. reflexivity. Qed.

Lemma predict_image_raises (m : Model) (t : Tensor) (e : exn) (s : SessionState) :
  predict m t = inl e ->
  predict_image (Some m) t s =
    (Ret None, s, [Model_predict; St_error ("❌ Error making prediction: " ++ exn_msg e)]).
Proof.
  intro Hp. unfold predict_image, try_except, lib_call, lift_result, bind, emit.
  rewrite Hp. reflexivity.
Qed.

(** Whatever the model answers, [predict_image] returns, leaves the session
    alone, and its value and trace do not depend on the session. *)
Lemma predict_image_run (model : option Model) (t : Tensor) :
  exists (r : option Results) (tr : list Event),
    forall s, predict_image model t s = (Ret r, s, tr).
Proof.
  destruct model as [m|].
  2:{ exists None, []. intro s. reflexivity. }
  unfold predict_image, try_except, lib_call, lift_result, bind, emit, py_index, raise, ret.
  destruct (predict m t) as [e|rows]; cbn.
  { eexists _, _. intro s. reflexivity. }
  destruct rows as [|row rest]; cbn.
  { eexists _, _. intro s. reflexivity. }
  destruct row as [|c [|d more]]; cbn.
  - eexists _, _. intro s. reflexivity.
  - eexists _, _. intro s. reflexivity.
  - destruct (Nat.eqb (S (S (List.length more))) 1) eqn:E; [discriminate|].
    eexists _, _. intro s. reflexivity.
Qed.

(** What a successful prediction was computed from. *)
Lemma predict_image_success (model : option Model) (t : Tensor)
                            (s s' : SessionState) (tr : list Event) (r : Results) :
  predict_image model t s = (Ret (Some r), s', tr) ->
  exists m row rest,
    model = Some m /\ predict m t = inr (row :: rest) /\
    ((exists p, row = [p] /\
        cat_probability r = sub32 1 p /\ dog_probability r = p) \/
     (exists c d more, row = c :: d :: more /\
        cat_probability r = c /\ dog_probability r = d)) /\
    predicted_class r =
      (if Qgtb (dog_probability r) (cat_probability r) then "Dog" else "Cat") /\
    confidence r = py_max (cat_probability r) (dog_probability r) /\
    all_probabilities r = [("Cat", cat_probability r); ("Dog", dog_probability r)].
Proof.
  destruct model as [m|]; [|discriminate].
  destruct (predict m t) as [e|rows] eqn:Hp.
  { rewrite (predict_image_raises m t e s Hp). discriminate. }
  destruct rows as [|row rest].
  { unfold predict_image, try_except, lib_call, lift_result, bind, emit.
    rewrite Hp. discriminate. }
  destruct row as [|c [|d more]].
  - unfold predict_image, try_except, lib_call, lift_result, bind, emit.
    rewrite Hp. discriminate.
  - rewrite (predict_image_sigmoid m t c rest s Hp). intro H. inversion H; subst.
    exists m, [c], rest. cbn.
    split; [reflexivity|]. split; [exact Hp|].
    split; [left; exists c; repeat split|].
    repeat split.
  - rewrite (predict_image_two_outputs m t c d more rest s Hp). intro H. inversion H; subst.
    exists m, (c :: d :: more), rest. cbn.
    split; [reflexivity|]. split; [exact Hp|].
    split; [right; exists c, d, more; repeat split|].
    repeat split.
Qed.

(** C1 (as amended). For a model output [(1 - p, p)], [predict_image]
    succeeds; the label is "Dog" exactly when [p > 1/2] and "Cat" exactly when
    [p <= 1/2] (a tie goes to "Cat"); the confidence is [max(p, 1 - p)]. *)
Theorem predict_image_label_and_confidence
    (m : Model) (t : Tensor) (c p : Q) (s : SessionState) :
  predict m t = inr [[c; p]] ->
  (c == 1 - p)%Q ->
  exists r,
    predict_image (Some m) t s = (Ret (Some r), s, [Model_predict]) /\
    (predicted_class r = "Dog" <-> (1 # 2 < p)%Q) /\
    (predicted_class r = "Cat" <-> (p <= 1 # 2)%Q) /\
    (confidence r == Qmax p (1 - p))%Q.
Proof.
  intros Hp Hc. eexists. split.
  { apply (predict_image_two_outputs m t c p [] [] s Hp). }
  cbn [predicted_class confidence].
  split; [|split].
  - destruct (Qgtb p c) eqn:E.
    + apply Qgtb_true in E. split; [intros _; lra | reflexivity].
    + apply Qgtb_false in E. split; [discriminate | intro; lra].
  - destruct (Qgtb p c) eqn:E.
    + apply Qgtb_true in E. split; [discriminate | intro; lra].
    + apply Qgtb_false in E. split; [intros _; lra | reflexivity].
  - rewrite py_max_Qmax, Q.max_comm, Hc. reflexivity.
Qed.

Lemma predict_image_label_and_confidence_witness :
  exists r,
    predict_image (Some (constant_model (inr [[0.25; 0.75]]%Q))) [] fresh_session
      = (Ret (Some r), fresh_session, [Model_predict]) /\
    (predicted_class r = "Dog" <-> (1 # 2 < 0.75)%Q) /\
    (predicted_class r = "Cat" <-> (0.75 <= 1 # 2)%Q) /\
    (confidence r == Qmax 0.75 (1 - 0.75))%Q.
Proof.
  apply (predict_image_label_and_confidence
           (constant_model (inr [[0.25; 0.75]]%Q)) [] 0.25 0.75 fresh_session).
  - reflexivity.
  - reflexivity.
Defined.

(** C1 (as stated) fails at [p = 1/2]: the pair [(1 - 1/2, 1/2)] is labelled
    "Cat" although [1/2 < 1/2] does not hold. *)
Lemma predict_image_tie_is_cat :
  exists r,
    predict_image (Some (constant_model (inr [[1 - 0.5; 0.5]]%Q))) [] fresh_session
      = (Ret (Some r), fresh_session, [Model_predict]) /\
    ~ (predicted_class r = "Cat" <-> (0.5 < 0.5)%Q).
Proof.
  eexists. split; [reflexivity|].
  intros [Hcat _]. apply (Qlt_irrefl 0.5). apply Hcat. reflexivity.
Qed.

(** C7 (as amended). The per-class mapping of a successful prediction holds
    the cat and the dog probability. For a one-element output [p] the cat
    probability is [1 - p] computed in float32, so with [0 <= p <= 1] the
    two sum to one up to one rounding, that is within [2^-25]. For an output
    of two entries or more they are its first two entries [c] and [d] and
    sum to [c + d]: to one when the output is exactly [(c, d)] and sums to
    one, while the further entries of a longer output are left out. *)
Theorem predict_image_probabilities_sum_to_one
    (model : option Model) (t : Tensor) (s s' : SessionState)
    (tr : list Event) (r : Results) :
  predict_image model t s = (Ret (Some r), s', tr) ->
  exists m row rest,
    model = Some m /\ predict m t = inr (row :: rest) /\
    all_probabilities r = [("Cat", cat_probability r); ("Dog", dog_probability r)] /\
    (forall p, row = [p] ->
       dog_probability r = p /\ cat_probability r = sub32 1 p /\
       ((0 <= p <= 1)%Q ->
          (1 - (1 # 33554432) <= fold_right Qplus 0 (map snd (all_probabilities r))
             <= 1 + (1 # 33554432))%Q)) /\
    (forall c d more, row = c :: d :: more ->
       (fold_right Qplus 0 (map snd (all_probabilities r)) == c + d)%Q /\
       (more = [] -> (c + d == 1)%Q ->
          (fold_right Qplus 0 (map snd (all_probabilities r)) == 1)%Q)).
Proof.
  intro Hrun.
  destruct (predict_image_success model t s s' tr r Hrun)
    as (m & row & rest & Hm & Hp & Hrow & _ & _ & Hall).
  exists m, row, rest. split; [exact Hm|]. split; [exact Hp|]. split; [exact Hall|].
  rewrite Hall. cbn [map snd fold_right]. split.
  - intros p Hr. destruct Hrow as [(p' & Hr' & Hcat & Hdog) | (c & d & more & Hr' & _)].
    + rewrite Hr in Hr'. injection Hr' as <-.
      split; [exact Hdog|]. split; [exact Hcat|].
      intros [Hp0 Hp1]. rewrite Hcat, Hdog. unfold sub32.
      destruct (round32_unit (1 - p)) as (_ & _ & Herr); [lra|]. lra.
    + rewrite Hr in Hr'. discriminate.
  - intros c d more Hr.
    destruct Hrow as [(p & Hr' & _) | (c' & d' & more' & Hr' & Hcat & Hdog)].
    + rewrite Hr in Hr'. discriminate.
    + rewrite Hr in Hr'. injection Hr' as Hc Hd Hmore.
      rewrite Hcat, Hdog, <- Hc, <- Hd.
      split; [ring | intros _ Hsum; rewrite <- Hsum; ring].
Qed.

(** The float32 nearest to 0.4 as the one output. *)
Lemma predict_image_probabilities_sum_to_one_witness :
  exists m row rest,
    Some (constant_model (inr [[13421773 # 33554432]]%Q)) = Some m /\
    predict m [] = inr (row :: rest) /\
    all_probabilities
      {| predicted_class := "Cat";
         confidence := py_max (sub32 1 (13421773 # 33554432)) (13421773 # 33554432);
         cat_probability := sub32 1 (13421773 # 33554432);
         dog_probability := 13421773 # 33554432;
         all_probabilities := [("Cat", sub32 1 (13421773 # 33554432));
                               ("Dog", (13421773 # 33554432)%Q)] |}
      = [("Cat", sub32 1 (13421773 # 33554432)); ("Dog", (13421773 # 33554432)%Q)] /\
    (forall p, row = [p] ->
       (13421773 # 33554432)%Q = p /\
       sub32 1 (13421773 # 33554432) = sub32 1 p /\
       ((0 <= p <= 1)%Q ->
          (1 - (1 # 33554432)
             <= fold_right Qplus 0
                  (map snd [("Cat", sub32 1 (13421773 # 33554432));
                            ("Dog", (13421773 # 33554432)%Q)])
             <= 1 + (1 # 33554432))%Q)) /\
    (forall c d more, row = c :: d :: more ->
       (fold_right Qplus 0
          (map snd [("Cat", sub32 1 (13421773 # 33554432));
                    ("Dog", (13421773 # 33554432)%Q)]) == c + d)%Q /\
       (more = [] -> (c + d == 1)%Q ->
          (fold_right Qplus 0
             (map snd [("Cat", sub32 1 (13421773 # 33554432));
                       ("Dog", (13421773 # 33554432)%Q)]) == 1)%Q)).
Proof.
  apply (predict_image_probabilities_sum_to_one
           (Some (constant_model (inr [[13421773 # 33554432]]%Q))) []
           fresh_session fresh_session [Model_predict]
           {| predicted_class := "Cat";
              confidence := py_max (sub32 1 (13421773 # 33554432)) (13421773 # 33554432);
              cat_probability := sub32 1 (13421773 # 33554432);
              dog_probability := 13421773 # 33554432;
              all_probabilities := [("Cat", sub32 1 (13421773 # 33554432));
                                    ("Dog", (13421773 # 33554432)%Q)] |}).
  vm_compute. reflexivity.
Defined.

(** C7 (as stated) fails twice. A three-class output that is a probability
    distribution gives a successful prediction whose mapping sums to 1/2:
    only its first two entries are read. And for the one-element output
    nearest to 0.4 the cat probability is not one minus the dog probability:
    the difference is rounded to float32, and the two sum to [1 + 2^-25]. *)
Lemma predict_image_sum_is_not_one :
  (exists r,
     predict_image (Some (constant_model (inr [[0.25; 0.25; 0.5]]%Q))) [] fresh_session
       = (Ret (Some r), fresh_session, [Model_predict]) /\
     (0.25 + 0.25 + 0.5 == 1)%Q /\
     (fold_right Qplus 0 (map snd (all_probabilities r)) == 1 # 2)%Q /\
     ~ (fold_right Qplus 0 (map snd (all_probabilities r)) == 1)%Q) /\
  (exists r,
     predict_image (Some (constant_model (inr [[13421773 # 33554432]]%Q))) [] fresh_session
       = (Ret (Some r), fresh_session, [Model_predict]) /\
     cat_probability r = (5033165 # 8388608)%Q /\
     ~ (cat_probability r == 1 - dog_probability r)%Q /\
     (fold_right Qplus 0 (map snd (all_probabilities r)) == 1 + (1 # 33554432))%Q).
Proof.
  split.
  - eexists. split; [reflexivity|]. split; [reflexivity|]. split; [reflexivity|].
    intro Hsum. vm_compute in Hsum. discriminate Hsum.
  - eexists. split; [vm_compute; reflexivity|]. split; [reflexivity|].
    split; [|reflexivity].
    intro Heq. vm_compute in Heq. discriminate Heq.
Qed.

(** C8. Over a complementary pair of probabilities (a one-element output
    [p], or a two-element output [(1 - p, p)], with [0 <= p <= 1]) the
    prediction succeeds with a label among "Cat" and "Dog" and a confidence
    between 1/2 and 1. *)
Theorem predict_image_confidence_range
    (m : Model) (t : Tensor) (row : list Q) (p : Q) (s : SessionState) :
  predict m t = inr [row] ->
  row = [p] \/ (exists c, row = [c; p] /\ (c == 1 - p)%Q) ->
  (0 <= p <= 1)%Q ->
  exists r,
    predict_image (Some m) t s = (Ret (Some r), s, [Model_predict]) /\
    (predicted_class r = "Cat" \/ predicted_class r = "Dog") /\
    (1 # 2 <= confidence r <= 1)%Q.
Proof.
  intros Hp Hrow [Hp0 Hp1].
  destruct Hrow as [Hr | (c & Hr & Hc)]; subst row.
  - eexists. split; [apply (predict_image_sigmoid m t p [] s Hp)|].
    cbn [predicted_class confidence]. split.
    + destruct (Qgtb p (sub32 1 p)); [right | left]; reflexivity.
    + rewrite py_max_Qmax. unfold sub32.
      destruct (round32_unit (1 - p)) as ([Hc0 Hc1] & Hhalf & _); [lra|].
      destruct (Q.max_spec (round32 (1 - p)) p) as [[Hord Hmax] | [Hord Hmax]];
        rewrite Hmax;
        (destruct (Qlt_le_dec p (1 # 2)) as [Hlt | Hge];
         [assert (1 # 2 <= round32 (1 - p))%Q by (apply Hhalf; lra)|]; lra).
  - eexists. split; [apply (predict_image_two_outputs m t c p [] [] s Hp)|].
    cbn [predicted_class confidence]. split.
    + destruct (Qgtb p c); [right | left]; reflexivity.
    + rewrite py_max_Qmax.
      destruct (Qlt_le_dec p (1 # 2)) as [Hlt | Hge].
      * rewrite Q.max_l by lra. lra.
      * rewrite Q.max_r by lra. lra.
Qed.

Lemma predict_image_confidence_range_witness :
  exists r,
    predict_image (Some (constant_model (inr [[0.4]]%Q))) [] fresh_session
      = (Ret (Some r), fresh_session, [Model_predict]) /\
    (predicted_class r = "Cat" \/ predicted_class r = "Dog") /\
    (1 # 2 <= confidence r <= 1)%Q.
Proof.
  apply (predict_image_confidence_range
           (constant_model (inr [[0.4]]%Q)) [] [0.4%Q] 0.4 fresh_session).
  - reflexivity.
  - left. reflexivity.
  - split; [apply Qle_bool_iff | apply Qle_bool_iff]; reflexivity.
Defined.

(** ** [validate_image] and [render_image_display] *)

Lemma validate_image_bad_extension (f : UploadedFile) (s : SessionState) :
  ~ In (file_extension f) ALLOWED_EXTENSIONS ->
  validate_image (Some f) s =
    (Ret false, s,
     [St_error "❌ Unsupported file format. Please upload: jpg, jpeg, png, bmp"]).
Proof.
  intro Hext. apply str_in_not_In in Hext.
  unfold validate_image. rewrite Hext. reflexivity.
Qed.

Lemma validate_image_too_large (f : UploadedFile) (s : SessionState) :
  In (file_extension f) ALLOWED_EXTENSIONS ->
  file_size f > 10 * 1024 * 1024 ->
  validate_image (Some f) s =
    (Ret false, s,
     [St_error "❌ File too large. Please upload an image smaller than 10MB."]).
Proof.
  intros Hext Hsize. apply str_in_In in Hext.
  unfold validate_image. rewrite Hext. cbn [negb].
  replace (file_size f >? 10 * 1024 * 1024) with true; [reflexivity|].
  symmetry. apply Z.gtb_lt. lia.
Qed.

Lemma validate_image_accepts (f : UploadedFile) (s : SessionState) :
  In (file_extension f) ALLOWED_EXTENSIONS ->
  file_size f <= 10 * 1024 * 1024 ->
  validate_image (Some f) s = (Ret true, s, []).
Proof.
  intros Hext Hsize. apply str_in_In in Hext.
  unfold validate_image. rewrite Hext. cbn [negb].
  replace (file_size f >? 10 * 1024 * 1024) with false; [reflexivity|].
  symmetry. rewrite Z.gtb_ltb. apply Z.ltb_ge. lia.
Qed.

Section Display_properties.
Context `{Imaging}.

Lemma render_image_display_rejected
    (f : UploadedFile) (settings : Settings) (s : SessionState) (msg : string) :
  validate_image (Some f) s = (Ret false, s, [St_error msg]) ->
  render_image_display f settings s =
    (Ret (None, None), s,
     [St_error msg;
      St_error "❌ Invalid image file. Please upload a valid JPG, PNG, or BMP image."]).
Proof.
  intro Hv. unfold render_image_display, bind. rewrite Hv. reflexivity.
Qed.

(** C2. A file whose extension is not one of jpg, jpeg, png, bmp, or whose
    size exceeds 10 MiB, is rejected by [validate_image] with an error, and
    [render_image_display] returns nothing for it without opening the image;
    past the extension check, an oversized file gets the size error. *)
Theorem oversized_or_foreign_file_is_rejected
    (f : UploadedFile) (settings : Settings) (s : SessionState) :
  ~ In (file_extension f) ALLOWED_EXTENSIONS \/ file_size f > 10 * 1024 * 1024 ->
  exists msg,
    validate_image (Some f) s = (Ret false, s, [St_error msg]) /\
    (exists tr,
       render_image_display f settings s = (Ret (None, None), s, tr) /\
       existsb is_error tr = true /\
       existsb classifying tr = false) /\
    (In (file_extension f) ALLOWED_EXTENSIONS ->
       msg = "❌ File too large. Please upload an image smaller than 10MB.").
Proof.
  intro Hbad.
  destruct (in_dec string_dec (file_extension f) ALLOWED_EXTENSIONS) as [Hin | Hnot].
  - assert (Hsize : file_size f > 10 * 1024 * 1024) by (destruct Hbad; [contradiction | assumption]).
    eexists. split; [apply validate_image_too_large; assumption|].
    split; [|reflexivity].
    eexists. split.
    { apply render_image_display_rejected. apply validate_image_too_large; assumption. }
    split; reflexivity.
  - eexists. split; [apply validate_image_bad_extension; assumption|].
    split; [|contradiction].
    eexists. split.
    { apply render_image_display_rejected. apply validate_image_bad_extension; assumption. }
    split; reflexivity.
Qed.

End Display_properties.

(** A 10.5 MiB JPEG. *)
Lemma oversized_or_foreign_file_is_rejected_witness :
  exists msg,
    validate_image (Some (sample_file "holiday.jpg" 11010048)) fresh_session
      = (Ret false, fresh_session, [St_error msg]) /\
    (exists tr,
       @render_image_display sample_imaging (sample_file "holiday.jpg" 11010048)
         (sample_settings 0.8) fresh_session = (Ret (None, None), fresh_session, tr) /\
       existsb is_error tr = true /\
       existsb classifying tr = false) /\
    (In (file_extension (sample_file "holiday.jpg" 11010048)) ALLOWED_EXTENSIONS ->
       msg = "❌ File too large. Please upload an image smaller than 10MB.").
Proof.
  apply (@oversized_or_foreign_file_is_rejected sample_imaging
           (sample_file "holiday.jpg" 11010048) (sample_settings 0.8) fresh_session).
  right. reflexivity.
Defined.

(** ** [preprocess_image] *)

Lemma map_opt_map {A B C} (f : B -> option C) (g : A -> B) (h : A -> C) (l : list A) :
  (forall x, f (g x) = Some (h x)) ->
  map_opt f (map g l) = Some (map h l).
Proof.
  intro Hf. induction l as [|x l IH]; cbn; [reflexivity|].
  rewrite Hf, IH. reflexivity.
Qed.

Lemma preprocess_pixel_rgb (mean_b mean_g mean_r : Q) (r g b : Z) :
  preprocess_pixel (mean_b, mean_g, mean_r) [r; g; b] =
    Some [sub32 (astype_float32 b) mean_b;
          sub32 (astype_float32 g) mean_g;
          sub32 (astype_float32 r) mean_r].
Proof. reflexivity. Qed.

Lemma preprocess_input_rgb (image : Image) :
  mode image = "RGB" ->
  preprocess_input (expand_dims (np_array image)) =
    inr [tabulate (snd (size image)) (fun y =>
           tabulate (fst (size image)) (fun x =>
             bgr_centered (getpixel image x y)))].
Proof.
  intro Hmode. unfold preprocess_input, expand_dims, np_array, vgg16_mean.
  destruct (size image) as [w h]. rewrite Hmode.
  change (getbands "RGB") with 3%nat.
  cbn [map_opt fst snd]. unfold tabulate at 1 3.
  erewrite map_opt_map; [reflexivity|].
  intro y. cbv beta. unfold tabulate at 1 2.
  erewrite map_opt_map; [reflexivity|].
  intro x. cbv beta. reflexivity.
Qed.

Section Preprocess_properties.
Context `{Imaging}.

(** The image handed to [resize]: converted unless it is RGB already. The
    image kept for display is a copy of it. *)
Lemma preprocess_image_decoded (f : UploadedFile) (image : Image) (s : SessionState) :
  PIL_open f = inr image ->
  let rgb := if negb (String.eqb (mode image) "RGB") then convert_RGB image else image in
  let resized := resize rgb IMAGE_SIZE in
  mode rgb = "RGB" /\
  preprocess_image f s =
    (Ret (Some [tabulate 224 (fun y =>
                  tabulate 224 (fun x =>
                    bgr_centered (getpixel resized x y)))],
          Some (copy rgb)),
     s, [Image_open (name f)]).
Proof.
  intros Hopen rgb resized.
  assert (Hrgb : mode rgb = "RGB").
  { unfold rgb. destruct (String.eqb (mode image) "RGB") eqn:E; cbn [negb].
    - apply String.eqb_eq. exact E.
    - reflexivity. }
  split; [exact Hrgb|].
  assert (Hres : mode resized = "RGB") by exact Hrgb.
  pose proof (preprocess_input_rgb resized Hres) as Hpre.
  unfold preprocess_image, try_except, lib_call, lift_result, bind, emit.
  rewrite Hopen. unfold ret. cbv beta iota zeta. unfold resized, rgb in Hpre |- *.
  rewrite Hpre. reflexivity.
Qed.

Lemma preprocess_image_undecodable (f : UploadedFile) (e : exn) (s : SessionState) :
  PIL_open f = inl e ->
  preprocess_image f s =
    (Ret (None, None), s,
     [Image_open (name f); St_error ("❌ Error processing image: " ++ exn_msg e)]).
Proof.
  intro Hopen. unfold preprocess_image, try_except, lib_call, lift_result, bind, emit.
  rewrite Hopen. reflexivity.
Qed.

End Preprocess_properties.

Lemma tabulate_length {A} (n : nat) (f : nat -> A) : List.length (tabulate n f) = n.
Proof. unfold tabulate. rewrite length_map, length_seq. reflexivity. Qed.

Lemma nth_tabulate {A} (n i : nat) (f : nat -> A) (d : A) :
  (i < n)%nat -> nth i (tabulate n f) d = f i.
Proof.
  intro Hi. unfold tabulate.
  rewrite (nth_indep (map f (seq 0 n)) d (f 0%nat)).
  - rewrite map_nth, seq_nth by exact Hi. reflexivity.
  - rewrite length_map, length_seq. exact Hi.
Qed.

Lemma Forall_tabulate {A} (P : A -> Prop) (n : nat) (f : nat -> A) :
  (forall i, (i < n)%nat -> P (f i)) -> Forall P (tabulate n f).
Proof.
  intro Hf. unfold tabulate. apply Forall_map. apply Forall_forall.
  intros i Hi. apply in_seq in Hi. apply Hf. lia.
Qed.

Lemma normalised_grid_shape (h w : nat) (pixel : nat -> nat -> list Z) :
  has_shape [tabulate h (fun y => tabulate w (fun x => bgr_centered (pixel x y)))] 1 h w 3.
Proof.
  split; [reflexivity|]. constructor; [|constructor].
  split; [apply tabulate_length|].
  apply Forall_tabulate. intros y _.
  split; [apply tabulate_length|].
  apply Forall_tabulate. intros x _. reflexivity.
Qed.

Section Shape_properties.
Context `{Imaging}.

Lemma render_image_display_accepted
    (f : UploadedFile) (settings : Settings) (image : Image) (s : SessionState) :
  In (file_extension f) ALLOWED_EXTENSIONS ->
  file_size f <= 10 * 1024 * 1024 ->
  PIL_open f = inr image ->
  exists t rgb tr,
    preprocess_image f s = (Ret (Some t, Some rgb), s, [Image_open (name f)]) /\
    render_image_display f settings s = (Ret (Some t, Some rgb), s, tr) /\
    existsb is_error tr = false.
Proof.
  intros Hext Hsize Hopen.
  destruct (preprocess_image_decoded f image s Hopen) as [_ Hpre].
  eexists _, _.
  unfold render_image_display, bind.
  rewrite (validate_image_accepts f s Hext Hsize). cbn [negb].
  destruct (show_processing_steps settings), (show_image_info settings);
    cbn -[preprocess_image tabulate]; rewrite Hpre; cbn -[tabulate];
    (eexists; split; [reflexivity|]; split; reflexivity).
Qed.

(** C3. An accepted image (allowed extension, at most 10 MiB, decodable),
    whatever its mode and dimensions, is preprocessed into one image of
    224 x 224 pixels with 3 channels, by [preprocess_image] and by
    [render_image_display] alike. *)
Theorem accepted_image_has_target_shape
    (f : UploadedFile) (settings : Settings) (image : Image) (s : SessionState) :
  In (file_extension f) ALLOWED_EXTENSIONS ->
  file_size f <= 10 * 1024 * 1024 ->
  PIL_open f = inr image ->
  exists t original tr,
    preprocess_image f s = (Ret (Some t, Some original), s, [Image_open (name f)]) /\
    render_image_display f settings s = (Ret (Some t, Some original), s, tr) /\
    has_shape t 1 224 224 3.
Proof.
  intros Hext Hsize Hopen.
  destruct (render_image_display_accepted f settings image s Hext Hsize Hopen)
    as (t & rgb & tr & Hpre & Hdisp & _).
  exists t, rgb, tr. split; [exact Hpre|]. split; [exact Hdisp|].
  destruct (preprocess_image_decoded f image s Hopen) as [_ Hpre'].
  rewrite Hpre' in Hpre. injection Hpre as Ht _. subst t.
  apply normalised_grid_shape.
Qed.

(** C9. For a decodable file, the image kept for display is a copy (without
    [format]) of the opened image, converted to RGB unless it is RGB
    already; and the tensor holds, at every position of the 224 x 224 grid,
    the pixel of the resized image in the order blue, green, red, each
    channel cast to float32 and the float32 nearest to 103.939, 116.779 and
    123.68 subtracted from it in float32. *)
Theorem preprocess_image_vgg16_convention
    (f : UploadedFile) (image : Image) (s : SessionState) :
  PIL_open f = inr image ->
  exists t original,
    preprocess_image f s = (Ret (Some t, Some original), s, [Image_open (name f)]) /\
    mode original = "RGB" /\
    format original = None /\
    (mode image = "RGB" -> original = copy image) /\
    (mode image <> "RGB" -> original = copy (convert_RGB image)) /\
    forall x y, (x < 224)%nat -> (y < 224)%nat ->
      nth x (nth y (nth 0 t []) []) [] =
        [sub32 (astype_float32 (nth 2 (getpixel (resize original IMAGE_SIZE) x y) 0%Z))
               (round32 103.939);
         sub32 (astype_float32 (nth 1 (getpixel (resize original IMAGE_SIZE) x y) 0%Z))
               (round32 116.779);
         sub32 (astype_float32 (nth 0 (getpixel (resize original IMAGE_SIZE) x y) 0%Z))
               (round32 123.68)].
Proof.
  intro Hopen.
  destruct (preprocess_image_decoded f image s Hopen) as [Hrgb Hpre].
  eexists _, _. split; [exact Hpre|]. split; [exact Hrgb|]. split; [reflexivity|].
  split; [|split].
  - intro Hmode. apply String.eqb_eq in Hmode. rewrite Hmode. reflexivity.
  - intro Hmode. apply String.eqb_neq in Hmode. rewrite Hmode. reflexivity.
  - intros x y Hx Hy. cbn [nth].
    rewrite nth_tabulate by exact Hy. rewrite nth_tabulate by exact Hx. reflexivity.
Qed.

End Shape_properties.

(** A 500 x 300 RGBA PNG. *)
Lemma accepted_image_has_target_shape_witness :
  exists t original tr,
    @preprocess_image sample_imaging (sample_file "garden.png" 481203) fresh_session
      = (Ret (Some t, Some original), fresh_session, [Image_open "garden.png"]) /\
    @render_image_display sample_imaging (sample_file "garden.png" 481203)
        (sample_settings 0.8) fresh_session
      = (Ret (Some t, Some original), fresh_session, tr) /\
    has_shape t 1 224 224 3.
Proof.
  apply (@accepted_image_has_target_shape sample_imaging
           (sample_file "garden.png" 481203) (sample_settings 0.8)
           {| format := Some "PNG"; mode := "RGBA"; size := (500, 300)%nat;
              getpixel := fun _ _ => [200; 120; 40; 255] |} fresh_session).
  - right. right. left. reflexivity.
  - vm_compute. discriminate.
  - reflexivity.
Defined.

(** The same file: every position of its tensor holds the pixel
    (200, 120, 40) as 40 - 103.939, 120 - 116.779 and 200 - 123.68 in
    float32. *)
Lemma preprocess_image_vgg16_convention_witness :
  exists t original,
    @preprocess_image sample_imaging (sample_file "garden.png" 481203) fresh_session
      = (Ret (Some t, Some original), fresh_session, [Image_open "garden.png"]) /\
    mode original = "RGB" /\
    format original = None /\
    ("RGBA" = "RGB" ->
       original = copy {| format := Some "PNG"; mode := "RGBA"; size := (500, 300)%nat;
                          getpixel := fun _ _ => [200; 120; 40; 255] |}) /\
    ("RGBA" <> "RGB" ->
       original =
         copy (@convert_RGB sample_imaging
                 {| format := Some "PNG"; mode := "RGBA"; size := (500, 300)%nat;
                    getpixel := fun _ _ => [200; 120; 40; 255] |})) /\
    forall x y, (x < 224)%nat -> (y < 224)%nat ->
      nth x (nth y (nth 0 t []) []) [] =
        [sub32 (astype_float32
                  (nth 2 (getpixel (@resize sample_imaging original IMAGE_SIZE) x y) 0%Z))
               (round32 103.939);
         sub32 (astype_float32
                  (nth 1 (getpixel (@resize sample_imaging original IMAGE_SIZE) x y) 0%Z))
               (round32 116.779);
         sub32 (astype_float32
                  (nth 0 (getpixel (@resize sample_imaging original IMAGE_SIZE) x y) 0%Z))
               (round32 123.68)].
Proof.
  apply (@preprocess_image_vgg16_convention sample_imaging
           (sample_file "garden.png" 481203)
           {| format := Some "PNG"; mode := "RGBA"; size := (500, 300)%nat;
              getpixel := fun _ _ => [200; 120; 40; 255] |} fresh_session).
  reflexivity.
Defined.

(** The float32 constants, and the sample pixel after preprocessing. *)
Example vgg16_mean_in_float32 :
  round32 103.939 = (13623493 # 131072)%Q /\
  round32 116.779 = (15306457 # 131072)%Q /\
  round32 123.68 = (16210985 # 131072)%Q /\
  bgr_centered [200; 120; 40] =
    [- (8380613 # 131072); 422183 # 131072; 10003415 # 131072]%Q.
Proof. vm_compute. repeat split; reflexivity. Qed.

(** ** The parts of [main] *)

Section Main_parts.
Context `{Imaging}.

Lemma main_parts (host : Host) (browser : Browser) :
  main host browser =
    (s <- get_state ;;
     when (is_none (ss_model s)) (set_model None) ;;
     s <- get_state ;;
     when (is_none (ss_model_loaded s)) (set_model_loaded false) ;;
     loaded <- get_attr ss_model_loaded "model_loaded" ;;
     when (negb loaded)
       (emit (St_spinner "🤖 Loading AI model... This may take a moment on first run.") ;;
        model <- load_model host ;;
        set_model model ;;
        set_model_loaded true ;;
        model <- get_attr ss_model "model" ;;
        if is_some model then
          emit (St_success "✅ Model loaded successfully!")
        else
          emit (St_error "❌ Failed to load model. Please check if the model file exists.") ;;
          st_stop) ;;
     page browser).
Proof. reflexivity. Qed.

(** Once the session says the model is loaded, [main] is the page. *)
Lemma main_is_page_once_loaded (host : Host) (browser : Browser) (s : SessionState) :
  is_some (ss_model s) = true ->
  ss_model_loaded s = Some true ->
  main host browser s = page browser s.
Proof.
  intros Hm Hl. rewrite main_parts. destruct s as [m l pm c d]. cbn in Hm, Hl. subst l.
  destruct m as [m|]; [|discriminate].
  unfold bind at 1. cbn -[page]. destruct (page browser _) as [[o s1] l1]. reflexivity.
Qed.

End Main_parts.

(** ** [load_model] and a failed load *)

Lemma existsb_replay (p : Event -> bool) (replay : list Element) :
  (forall el, p (element_event el) = false) ->
  existsb p (map element_event replay) = false.
Proof.
  intro Hp. induction replay as [|el l IH]; cbn; [reflexivity|].
  rewrite Hp, IH. reflexivity.
Qed.

Lemma stored_nothing (tr : list Event) : existsb caching tr = false -> stored tr = None.
Proof.
  induction tr as [|e tr IH]; [reflexivity|]. cbn [existsb]. intro Hc.
  apply orb_false_iff in Hc. destruct Hc as [He Hrest].
  destruct e; cbn in He; try discriminate He; cbn [stored]; apply IH; exact Hrest.
Qed.

Lemma stored_before (a b : list Event) :
  existsb caching b = false -> stored (a ++ b) = stored a.
Proof.
  intro Hb. induction a as [|e a IH]; [apply stored_nothing; exact Hb|].
  destruct e; cbn [app stored]; try reflexivity; exact IH.
Qed.

(** [load_model] always returns, whatever the session, and leaves it alone.
    Served from the cache it returns the cached value and touches neither
    the disk, the network nor Keras; otherwise it runs its body and the
    decorator keeps what it returns. *)
Lemma load_model_run (host : Host) :
  exists (r : option Model) (tr : list Event),
    (forall s, load_model host s = (Ret r, s, tr)) /\
    existsb classifying tr = false /\
    (forall value, cache_resource host = Some value ->
       r = value /\ existsb caching tr = false /\ existsb loading tr = false) /\
    (cache_resource host = None ->
       stored tr = Some r /\
       (r = None -> existsb is_error tr = true) /\
       (load_fails host -> r = None) /\
       (forall m, keras_load_model host = inr m ->
          model_file_exists host = true \/ gdown_download host = inr tt ->
          r = Some m /\ existsb loading tr = true)).
Proof.
  destruct host as [cached replay present download loaded].
  unfold load_model, load_fails. cbn [cache_resource cache_replay model_file_exists
                                       gdown_download keras_load_model].
  destruct cached as [value|].
  - exists value, (map element_event replay ++ [])%list.
    split; [intro s; reflexivity|]. rewrite app_nil_r.
    split; [apply existsb_replay; intros []; reflexivity|].
    split; [|discriminate].
    intros v Hv. injection Hv as <-.
    split; [reflexivity|].
    split; apply existsb_replay; intros []; reflexivity.
  - unfold load_model_body, try_except, lib_call, lift_result, bind, emit, when, ret, raise.
    cbn [model_file_exists gdown_download keras_load_model].
    destruct present, download as [e1|[]], loaded as [e2|m]; cbn;
      eexists _, _; (split; [intro s; reflexivity|]); (split; [reflexivity|]);
      (split; [discriminate|]); intros _;
      (split; [reflexivity|]);
      (split; [try reflexivity; discriminate|]);
      (split;
       [ intros [[Hp [e He]] | [e He]]; try reflexivity; discriminate
       | intros m' Hk Hf; try discriminate Hk;
         try (destruct Hf as [Hf | Hf]; discriminate Hf);
         injection Hk as <-; split; reflexivity ]).
Qed.

Section Failed_load.
Context `{Imaging}.

(** The first run of a session: [main] takes what [load_model] returns,
    stops when it is [None], and goes on to the page otherwise. *)
Lemma main_first_run (host : Host) (browser : Browser) (s : SessionState)
                     (r : option Model) (tr : list Event) :
  ss_model_loaded s <> Some true ->
  (forall s', load_model host s' = (Ret r, s', tr)) ->
  let s1 := {| ss_model := Some r; ss_model_loaded := Some true;
               predictions_made := predictions_made s;
               cats_detected := cats_detected s;
               dogs_detected := dogs_detected s |} in
  match r with
  | None =>
      main host browser s =
        (Stopped, s1,
         (St_spinner "🤖 Loading AI model... This may take a moment on first run." :: tr
          ++ [St_error "❌ Failed to load model. Please check if the model file exists."])%list)
  | Some _ =>
      main host browser s =
        (run_outcome (page browser s1), run_state (page browser s1),
         ((St_spinner "🤖 Loading AI model... This may take a moment on first run." :: tr
           ++ [St_success "✅ Model loaded successfully!"])
          ++ run_trace (page browser s1))%list)
  end.
Proof.
  intros Hl Hload s1. unfold s1. clear s1.
  rewrite main_parts. destruct s as [mm l pm c d]. cbn in Hl.
  destruct l as [[|]|]; [congruence| |]; destruct mm as [mm|]; destruct r as [m|];
    unfold bind, when, emit, get_state, get_attr, set_model, set_model_loaded, ret, st_stop;
    cbn -[page load_model]; rewrite Hload; cbn -[page load_model]; rewrite ?app_nil_r;
    first
      [ reflexivity
      | match goal with
        | |- context [page browser ?s1] => destruct (page browser s1) as [[o s2] l2]
        end;
        cbn [run_outcome run_state run_trace fst snd];
        rewrite <- ?app_assoc; reflexivity ].
Qed.

Lemma main_after_failed_load (host : Host) (browser : Browser) (s : SessionState) :
  load_failed s ->
  run_outcome (main host browser s) = Stopped /\
  load_failed (run_state (main host browser s)) /\
  existsb classifying (run_trace (main host browser s)) = false /\
  existsb is_error (run_trace (main host browser s)) = true /\
  existsb caching (run_trace (main host browser s)) = false.
Proof.
  intros [Hm Hl]. destruct s as [m l pm c d]. cbn in Hm, Hl. subst m l.
  destruct pm, c, d; cbn; repeat split; reflexivity.
Qed.

(** In a session that has not loaded yet, a [load_model] that returns
    [None] makes [main] refuse and mark the session. *)
Lemma main_refuses_without_model (host : Host) (browser : Browser) (s : SessionState)
                                 (tr : list Event) :
  ss_model_loaded s <> Some true ->
  (forall s', load_model host s' = (Ret None, s', tr)) ->
  existsb classifying tr = false ->
  refused (main host browser s) /\
  load_failed (run_state (main host browser s)) /\
  stored (run_trace (main host browser s)) = stored tr.
Proof.
  intros Hl Hload Hquiet.
  pose proof (main_first_run host browser s None tr Hl Hload) as Hmain.
  cbv zeta beta iota in Hmain. rewrite Hmain. unfold refused, load_failed.
  cbn [run_outcome run_state run_trace fst snd ss_model ss_model_loaded existsb
       classifying is_error stored orb].
  rewrite !existsb_app, Hquiet. cbn.
  repeat split; try reflexivity.
  - apply orb_true_r.
  - apply stored_before. reflexivity.
Qed.

End Failed_load.

Section Refusal.
Context `{Imaging}.

(** Once the cache holds [None], every run of every session is refused:
    a session that has not loaded is served the cached [None], and a session
    that has stops at once. *)
Lemma process_runs_refused (inputs : list (nat * Host * Browser)) (p : Process) :
  cache p = Some None ->
  (forall j, ss_model_loaded (sessions p j) <> Some true \/ load_failed (sessions p j)) ->
  Forall refused (process_runs inputs p).
Proof.
  revert p. induction inputs as [|[[i host] browser] later IH]; intros p Hcache Hsessions;
    cbn [process_runs].
  - constructor.
  - set (run := main (with_cache (cache p) host) browser (sessions p i)).
    assert (Hrun : refused run /\ load_failed (run_state run) /\ stored (run_trace run) = None).
    { destruct (Hsessions i) as [Hfresh | Hfailed].
      - destruct (load_model_run (with_cache (cache p) host))
          as (r & tr & Hload & Hquiet & Hhit & _).
        destruct (Hhit None) as (-> & Hnostore & _); [rewrite Hcache; reflexivity|].
        destruct (main_refuses_without_model _ browser (sessions p i) tr Hfresh Hload Hquiet)
          as (Href & Hfailed & Hstored).
        split; [exact Href|]. split; [exact Hfailed|].
        unfold run. rewrite Hstored. apply stored_nothing. exact Hnostore.
      - destruct (main_after_failed_load (with_cache (cache p) host) browser
                    (sessions p i) Hfailed) as (Ho & Hs & Hc & He & Hn).
        split; [repeat split; assumption|]. split; [exact Hs|].
        apply stored_nothing. exact Hn. }
    destruct Hrun as (Href & Hfailed & Hstored).
    constructor; [exact Href|].
    apply IH.
    + cbn [after_run cache]. rewrite Hstored. exact Hcache.
    + intro j. cbn [after_run sessions].
      destruct (Nat.eqb j i); [right; exact Hfailed | apply Hsessions].
Qed.

(** C5. When loading fails in the first call of a process, [load_model]
    reports an error, returns [None] and the decorator keeps that [None];
    [load_model] never raises. From then on every run of the process, in the
    session that attempted the load and in any other, whatever the machine
    would answer by then, stops with an error before the uploader is
    rendered: no image is decoded and no prediction made until the process
    is started again. *)
Theorem failed_load_refuses_classification
    (host : Host) (browser : Browser) (i : nat)
    (later : list (nat * Host * Browser)) (s : SessionState) :
  cache_resource host = None ->
  load_fails host ->
  (exists tr,
     load_model host s = (Ret None, s, tr) /\
     existsb is_error tr = true /\
     stored tr = Some None) /\
  (forall host' s', exists r tr, load_model host' s' = (Ret r, s', tr)) /\
  Forall refused (process_runs ((i, host, browser) :: later) started).
Proof.
  intros Hcold Hfail. split; [|split].
  - destruct (load_model_run host) as (r & tr & Hload & _ & _ & Hmiss).
    destruct (Hmiss Hcold) as (Hstored & Herr & Hnone & _).
    specialize (Hnone Hfail). subst r.
    exists tr. split; [apply Hload|]. split; [apply Herr; reflexivity | exact Hstored].
  - intros host' s'. destruct (load_model_run host') as (r & tr & Hload & _).
    exists r, tr. apply Hload.
  - cbn [process_runs].
    destruct (load_model_run (with_cache (cache started) host))
      as (r & tr & Hload & Hquiet & _ & Hmiss).
    destruct (Hmiss eq_refl) as (Hstored & _ & Hnone & _).
    specialize (Hnone Hfail). subst r.
    destruct (main_refuses_without_model (with_cache (cache started) host) browser
                (sessions started i) tr) as (Href & Hfailed & Hkept);
      [discriminate | exact Hload | exact Hquiet |].
    constructor; [exact Href|].
    apply process_runs_refused.
    + cbn [after_run cache]. rewrite Hkept, Hstored. reflexivity.
    + intro j. cbn [after_run sessions].
      destruct (Nat.eqb j i); [right; exact Hfailed | left; discriminate].
Qed.

End Refusal.

(** The artifact is missing and the download fails when the process starts.
    The user uploads a file and clicks the button; a second session then
    opens when the artifact is on disk, and the first session tries again. *)
Lemma failed_load_refuses_classification_witness :
  (exists tr,
     load_model offline_host fresh_session = (Ret None, fresh_session, tr) /\
     existsb is_error tr = true /\
     stored tr = Some None) /\
  (forall host' s', exists r tr, load_model host' s' = (Ret r, s', tr)) /\
  Forall refused
    (@process_runs sample_imaging
       [(0%nat, offline_host,
         sample_browser 0.8 (Some (sample_file "garden.png" 481203)) true);
        (1%nat, sample_host (inr (constant_model (inr [[0.9]]%Q))),
         sample_browser 0.8 (Some (sample_file "garden.png" 481203)) true);
        (0%nat, sample_host (inr (constant_model (inr [[0.9]]%Q))),
         sample_browser 0.6 None false)]
       started).
Proof.
  apply (@failed_load_refuses_classification sample_imaging offline_host
           (sample_browser 0.8 (Some (sample_file "garden.png" 481203)) true) 0%nat
           [(1%nat, sample_host (inr (constant_model (inr [[0.9]]%Q))),
             sample_browser 0.8 (Some (sample_file "garden.png" 481203)) true);
            (0%nat, sample_host (inr (constant_model (inr [[0.9]]%Q))),
             sample_browser 0.6 None false)]
           fresh_session).
  - reflexivity.
  - left. split; [reflexivity|]. eexists. reflexivity.
Defined.

(** ** A failed inference in [main] *)

(** C4. With a loaded model whose forward pass raises, an accepted upload and
    the button clicked, [predict_image] reports its error and returns [None];
    [main] then subscripts [None] and raises [TypeError]. The message for a
    failed prediction is never shown, and the script's handler reports an
    application error instead. *)
Theorem main_raises_when_inference_fails :
  let host := sample_host (inr (constant_model (inl (Exn "ValueError" "bad input")))) in
  let browser := sample_browser 0.8 (Some (sample_file "garden.png" 481203)) true in
  run_outcome (@main sample_imaging host browser fresh_session)
    = Raised (Exn "TypeError" "'NoneType' object is not subscriptable") /\
  filter is_error (run_trace (@main sample_imaging host browser fresh_session))
    = [St_error "❌ Error making prediction: bad input"] /\
  run_outcome (@script sample_imaging host browser fresh_session) = Ret tt /\
  filter is_error (run_trace (@script sample_imaging host browser fresh_session))
    = [St_error "❌ Error making prediction: bad input";
       St_error "❌ Application Error: 'NoneType' object is not subscriptable";
       St_error "Please refresh the page or contact support if the problem persists."].
Proof.
  cbv zeta. repeat split; reflexivity.
Qed.

(** ** The session counters *)

Lemma cat_cards_app (a b : list Event) : cat_cards (a ++ b) = cat_cards a + cat_cards b.
Proof.
  unfold cat_cards. induction a as [|e a IH]; cbn [app fold_right]; [reflexivity|].
  rewrite IH. lia.
Qed.

Lemma dog_cards_app (a b : list Event) : dog_cards (a ++ b) = dog_cards a + dog_cards b.
Proof.
  unfold dog_cards. induction a as [|e a IH]; cbn [app fold_right]; [reflexivity|].
  rewrite IH. lia.
Qed.

Lemma counters_ok_made (s : SessionState) : counters_ok s -> made s = cats s + dogs s.
Proof.
  unfold counters_ok, made, cats, dogs.
  destruct (predictions_made s), (cats_detected s), (dogs_detected s);
    intro Hok; try contradiction; try exact Hok; reflexivity.
Qed.

Lemma tallies_quiet {A} (m : M A) :
  (forall s, run_state (m s) = s /\ run_trace (m s) = []) -> tallies m.
Proof.
  intros Hq s Hok. destruct (Hq s) as [Hs Ht]. rewrite Hs, Ht. cbn.
  split; [exact Hok|]. split; lia.
Qed.

Lemma tallies_ret {A} (a : A) : tallies (ret a).
Proof. apply tallies_quiet. intro s. split; reflexivity. Qed.

Lemma tallies_raise {A} (e : exn) : tallies (@raise A e).
Proof. apply tallies_quiet. intro s. split; reflexivity. Qed.

Lemma tallies_stop {A} : tallies (@st_stop A).
Proof. apply tallies_quiet. intro s. split; reflexivity. Qed.

Lemma tallies_get_state : tallies get_state.
Proof. apply tallies_quiet. intro s. split; reflexivity. Qed.

Lemma tallies_get_attr {A} (field : SessionState -> option A) (key : string) :
  tallies (get_attr field key).
Proof.
  apply tallies_quiet. intro s. unfold get_attr. destruct (field s); split; reflexivity.
Qed.

Lemma tallies_emit (e : Event) : card_label e = None -> tallies (emit e).
Proof.
  intros He s Hok. cbn. unfold cat_card, dog_card. rewrite He.
  split; [exact Hok|]. split; lia.
Qed.

Lemma tallies_set_model (v : option Model) : tallies (set_model v).
Proof. intros s Hok. cbn. split; [exact Hok|]. unfold cats, dogs. cbn. split; lia. Qed.

Lemma tallies_set_model_loaded (v : bool) : tallies (set_model_loaded v).
Proof. intros s Hok. cbn. split; [exact Hok|]. unfold cats, dogs. cbn. split; lia. Qed.

Lemma tallies_bind {A B} (m : M A) (k : A -> M B) :
  tallies m -> (forall a, tallies (k a)) -> tallies (bind m k).
Proof.
  intros Hm Hk s Hok. unfold bind.
  specialize (Hm s Hok). destruct (m s) as [[o s1] l1].
  unfold run_state, run_trace in Hm. cbn [fst snd] in Hm.
  destruct Hm as (Hok1 & Hc1 & Hd1).
  destruct o as [a| |e]; try (repeat split; assumption).
  specialize (Hk a s1 Hok1). destruct (k a s1) as [[r s2] l2].
  unfold run_state, run_trace in *. cbn [fst snd] in *.
  destruct Hk as (Hok2 & Hc2 & Hd2).
  rewrite cat_cards_app, dog_cards_app. repeat split; [assumption | lia | lia].
Qed.

Lemma tallies_try_except {A} (body : M A) (handler : exn -> M A) :
  tallies body -> (forall e, tallies (handler e)) -> tallies (try_except body handler).
Proof.
  intros Hm Hk s Hok. unfold try_except.
  specialize (Hm s Hok). destruct (body s) as [[o s1] l1].
  unfold run_state, run_trace in Hm. cbn [fst snd] in Hm.
  destruct Hm as (Hok1 & Hc1 & Hd1).
  destruct o as [a| |e]; try (repeat split; assumption).
  specialize (Hk e s1 Hok1). destruct (handler e s1) as [[r s2] l2].
  unfold run_state, run_trace in *. cbn [fst snd] in *.
  destruct Hk as (Hok2 & Hc2 & Hd2).
  rewrite cat_cards_app, dog_cards_app. repeat split; [assumption | lia | lia].
Qed.

Lemma tallies_when (b : bool) (m : M unit) : tallies m -> tallies (when b m).
Proof. intro Hm. destruct b; [exact Hm | apply tallies_ret]. Qed.

Lemma tallies_lift_result {A} (r : PyResult A) : tallies (lift_result r).
Proof. destruct r; [apply tallies_raise | apply tallies_ret]. Qed.

Lemma tallies_lib_call {A} (e : Event) (r : PyResult A) :
  card_label e = None -> tallies (lib_call e r).
Proof.
  intro He. apply tallies_bind; [apply tallies_emit; exact He|].
  intros _. apply tallies_lift_result.
Qed.

Lemma tallies_replay (replay : list Element) :
  tallies (emit_all (map element_event replay)).
Proof.
  intros s Hok. unfold emit_all, run_state, run_trace. cbn [fst snd].
  split; [exact Hok|].
  assert (Hnone : cat_cards (map element_event replay) = 0 /\
                  dog_cards (map element_event replay) = 0).
  { induction replay as [|el l [IHc IHd]]; [split; reflexivity|].
    unfold cat_cards, dog_cards in *. cbn [map fold_right]. rewrite IHc, IHd.
    destruct el; split; reflexivity. }
  destruct Hnone as [Hc Hd]. rewrite Hc, Hd. split; lia.
Qed.

(** Steps through a computation built from the operations above. *)
Ltac tally_step :=
  match goal with
  | |- tallies (bind _ _) => apply tallies_bind; [|intro]
  | |- tallies (try_except _ _) => apply tallies_try_except; [|intro]
  | |- tallies (ret _) => apply tallies_ret
  | |- tallies (raise _) => apply tallies_raise
  | |- tallies st_stop => apply tallies_stop
  | |- tallies get_state => apply tallies_get_state
  | |- tallies (get_attr _ _) => apply tallies_get_attr
  | |- tallies (emit _) => apply tallies_emit; reflexivity
  | |- tallies (emit_all (map element_event _)) => apply tallies_replay
  | |- tallies (set_model _) => apply tallies_set_model
  | |- tallies (set_model_loaded _) => apply tallies_set_model_loaded
  | |- tallies (when _ _) => apply tallies_when
  | |- tallies (lift_result _) => apply tallies_lift_result
  | |- tallies (lib_call _ _) => apply tallies_lib_call; reflexivity
  | |- tallies (py_index _ _ _) => unfold py_index
  | |- tallies (if ?b then _ else _) => destruct b
  | |- tallies (match ?x with _ => _ end) => destruct x
  | |- tallies (let _ := _ in _) => cbv zeta
  | |- tallies _ => assumption
  end.
Ltac tally := repeat tally_step.

Lemma tallies_load_model (host : Host) : tallies (load_model host).
Proof. unfold load_model, load_model_body. tally. Qed.

Lemma tallies_predict_image (model : option Model) (t : Tensor) :
  tallies (predict_image model t).
Proof. unfold predict_image. tally. Qed.

Lemma tallies_get_model_info (model : option Model) : tallies (get_model_info model).
Proof. unfold get_model_info. tally. Qed.

Lemma tallies_validate_image (f : option UploadedFile) : tallies (validate_image f).
Proof. unfold validate_image. tally. Qed.

Lemma tallies_render_session_stats : tallies render_session_stats.
Proof.
  intros s Hok. destruct s as [m l pm c d]. unfold counters_ok in Hok. cbn in Hok.
  destruct pm, c, d; try contradiction; cbn; repeat split; try assumption; lia.
Qed.

Lemma tallies_render_model_dashboard (model : option Model) :
  tallies (render_model_dashboard model).
Proof.
  unfold render_model_dashboard.
  destruct model as [m|]; [|tally].
  apply tallies_bind; [apply tallies_get_model_info|]. intro info. tally.
Qed.

Lemma tallies_render_sidebar (browser : Browser) (model : option Model) :
  tallies (render_sidebar browser model).
Proof.
  pose proof (tallies_render_model_dashboard model).
  pose proof tallies_render_session_stats.
  unfold render_sidebar. tally.
Qed.

Lemma tallies_render_header : tallies render_header.
Proof. unfold render_header. tally. Qed.

Lemma tallies_render_file_uploader (browser : Browser) :
  tallies (render_file_uploader browser).
Proof. unfold render_file_uploader. tally. Qed.

Lemma tallies_render_prediction_button (browser : Browser) :
  tallies (render_prediction_button browser).
Proof. unfold render_prediction_button. tally. Qed.

Lemma tallies_render_probability_section (results : Results) :
  tallies (render_probability_section results).
Proof.
  unfold render_probability_section, create_enhanced_probability_chart,
    render_confidence_interpretation. tally.
Qed.

(** The counters after a rendered prediction. *)
Lemma render_prediction_results_counts
    (r : Results) (settings : Settings) (s : SessionState) (n c d : Z) :
  predictions_made s = Some n ->
  cats_detected s = Some c ->
  dogs_detected s = Some d ->
  let run := render_prediction_results (Some r) settings s in
  run_outcome run = Ret tt /\
  predictions_made (run_state run) = Some (n + 1) /\
  cats_detected (run_state run) =
    Some (if String.eqb (predicted_class r) "Cat" then c + 1 else c) /\
  dogs_detected (run_state run) =
    Some (if String.eqb (predicted_class r) "Cat" then d else d + 1) /\
  ss_model (run_state run) = ss_model s /\
  ss_model_loaded (run_state run) = ss_model_loaded s /\
  cat_cards (run_trace run) = (if String.eqb (predicted_class r) "Cat" then 1 else 0) /\
  dog_cards (run_trace run) = (if String.eqb (predicted_class r) "Cat" then 0 else 1).
Proof.
  intros Hn Hc Hd. destruct s as [m l pm cc dd]. cbn in Hn, Hc, Hd. subst pm cc dd.
  unfold render_prediction_results, render_probability_section,
    create_enhanced_probability_chart, render_confidence_interpretation.
  destruct (String.eqb (predicted_class r) "Cat") eqn:E,
           (Qgeb (confidence r) (confidence_threshold settings)),
           (show_probabilities settings);
    cbn; unfold cat_card, dog_card; cbn; rewrite E; repeat split; reflexivity.
Qed.

Lemma tallies_render_prediction_results (results : option Results) (settings : Settings) :
  tallies (render_prediction_results results settings).
Proof.
  destruct results as [r|]; [|unfold render_prediction_results; tally].
  intros s Hok. destruct s as [m l pm c d]. unfold counters_ok in Hok. cbn in Hok.
  destruct pm as [n|], c as [c|], d as [d|]; try contradiction.
  - destruct (render_prediction_results_counts r settings
                {| ss_model := m; ss_model_loaded := l; predictions_made := Some n;
                   cats_detected := Some c; dogs_detected := Some d |} n c d
                eq_refl eq_refl eq_refl)
      as (_ & Hn & Hc & Hd & _ & _ & Hcc & Hdc).
    unfold counters_ok, cats, dogs. rewrite Hn, Hc, Hd, Hcc, Hdc. cbn.
    destruct (String.eqb (predicted_class r) "Cat"); repeat split; lia.
  - cbn. repeat split; reflexivity.
Qed.

Section Counter_properties.
Context `{Imaging}.

Lemma tallies_preprocess_image (f : UploadedFile) : tallies (preprocess_image f).
Proof. unfold preprocess_image. tally. Qed.

Lemma tallies_render_image_display (f : UploadedFile) (settings : Settings) :
  tallies (render_image_display f settings).
Proof.
  pose proof (tallies_preprocess_image f).
  pose proof (tallies_validate_image (Some f)).
  unfold render_image_display, render_processing_steps, render_image_info. tally.
Qed.

Lemma tallies_main (host : Host) (browser : Browser) : tallies (main host browser).
Proof.
  pose proof (tallies_load_model host).
  pose proof (tallies_render_header).
  pose proof (tallies_render_file_uploader browser).
  pose proof (tallies_render_prediction_button browser).
  unfold main, render_instructions, subscript_confidence.
  repeat first
    [ apply tallies_render_sidebar
    | apply tallies_render_image_display
    | apply tallies_predict_image
    | apply tallies_render_prediction_results
    | tally_step ].
Qed.

End Counter_properties.

Lemma tallies_advances {A} (m : M A) (s : SessionState) :
  tallies m -> counters_ok s -> advances s (effects m s).
Proof.
  intros Hm Hok. destruct (Hm s Hok) as (Hok' & Hc & Hd).
  unfold advances, effects. cbn [fst snd].
  split; [exact Hok'|]. split; [|split; assumption].
  rewrite (counters_ok_made _ Hok'), (counters_ok_made _ Hok). lia.
Qed.

(** C10. From a session whose counters are consistent, every rendering step
    and [main] as a whole leave them consistent and advance them by exactly
    the result cards rendered; rendering one prediction adds one to
    [predictions_made] and one to the counter of its label; [predict_image]
    returns the same value from any session and leaves the session as it
    was. *)
Theorem session_counters_follow_predictions `{Imaging}
    (host : Host) (browser : Browser) (model : option Model) (t : Tensor)
    (f : UploadedFile) (settings : Settings) (results : option Results) (r : Results)
    (s : SessionState) :
  counters_ok s ->
  Forall (advances s)
    [effects (render_sidebar browser model) s;
     effects render_header s;
     effects (render_file_uploader browser) s;
     effects (render_image_display f settings) s;
     effects (render_prediction_button browser) s;
     effects (render_prediction_results results settings) s;
     effects (main host browser) s] /\
  (forall n c d,
     predictions_made s = Some n -> cats_detected s = Some c -> dogs_detected s = Some d ->
     let s' := run_state (render_prediction_results (Some r) settings s) in
     predictions_made s' = Some (n + 1) /\
     (predicted_class r = "Cat" ->
        cats_detected s' = Some (c + 1) /\ dogs_detected s' = Some d) /\
     (predicted_class r <> "Cat" ->
        cats_detected s' = Some c /\ dogs_detected s' = Some (d + 1))) /\
  (forall s1 s2,
     run_outcome (predict_image model t s1) = run_outcome (predict_image model t s2) /\
     run_trace (predict_image model t s1) = run_trace (predict_image model t s2) /\
     run_state (predict_image model t s1) = s1).
Proof.
  intro Hok. split; [|split].
  - repeat (apply Forall_cons; [apply tallies_advances; [|exact Hok]|]);
      [ apply tallies_render_sidebar
      | apply tallies_render_header
      | apply tallies_render_file_uploader
      | apply tallies_render_image_display
      | apply tallies_render_prediction_button
      | apply tallies_render_prediction_results
      | apply tallies_main
      | apply Forall_nil ].
  - intros n c d Hn Hc Hd s'.
    destruct (render_prediction_results_counts r settings s n c d Hn Hc Hd)
      as (_ & Hn' & Hc' & Hd' & _).
    fold s' in Hn', Hc', Hd'. split; [exact Hn'|]. split.
    + intro Hcat. apply String.eqb_eq in Hcat. rewrite Hcat in Hc', Hd'. split; assumption.
    + intro Hcat. apply String.eqb_neq in Hcat. rewrite Hcat in Hc', Hd'. split; assumption.
  - intros s1 s2. destruct (predict_image_run model t) as (v & tr & Hrun).
    rewrite (Hrun s1), (Hrun s2). repeat split.
Qed.

Lemma session_counters_follow_predictions_witness :
  Forall (advances (busy_session (Some (constant_model (inr [[0.9]]%Q)))))
    [effects (render_sidebar
                (sample_browser 0.8 (Some (sample_file "garden.png" 481203)) true)
                (Some (constant_model (inr [[0.9]]%Q))))
       (busy_session (Some (constant_model (inr [[0.9]]%Q))));
     effects render_header (busy_session (Some (constant_model (inr [[0.9]]%Q))));
     effects (render_file_uploader
                (sample_browser 0.8 (Some (sample_file "garden.png" 481203)) true))
       (busy_session (Some (constant_model (inr [[0.9]]%Q))));
     effects (@render_image_display sample_imaging (sample_file "garden.png" 481203)
                (sample_settings 0.8))
       (busy_session (Some (constant_model (inr [[0.9]]%Q))));
     effects (render_prediction_button
                (sample_browser 0.8 (Some (sample_file "garden.png" 481203)) true))
       (busy_session (Some (constant_model (inr [[0.9]]%Q))));
     effects (render_prediction_results None (sample_settings 0.8))
       (busy_session (Some (constant_model (inr [[0.9]]%Q))));
     effects (@main sample_imaging (sample_host (inr (constant_model (inr [[0.9]]%Q))))
                (sample_browser 0.8 (Some (sample_file "garden.png" 481203)) true))
       (busy_session (Some (constant_model (inr [[0.9]]%Q))))] /\
  made (run_state
          (@main sample_imaging (sample_host (inr (constant_model (inr [[0.9]]%Q))))
             (sample_browser 0.8 (Some (sample_file "garden.png" 481203)) true)
             (busy_session (Some (constant_model (inr [[0.9]]%Q)))))) = 4 /\
  dogs (run_state
          (@main sample_imaging (sample_host (inr (constant_model (inr [[0.9]]%Q))))
             (sample_browser 0.8 (Some (sample_file "garden.png" 481203)) true)
             (busy_session (Some (constant_model (inr [[0.9]]%Q)))))) = 3.
Proof.
  split; [|split; reflexivity].
  apply (@session_counters_follow_predictions sample_imaging
           (sample_host (inr (constant_model (inr [[0.9]]%Q))))
           (sample_browser 0.8 (Some (sample_file "garden.png" 481203)) true)
           (Some (constant_model (inr [[0.9]]%Q))) []
           (sample_file "garden.png" 481203) (sample_settings 0.8) None
           {| predicted_class := "Dog"; confidence := 0.9; cat_probability := 0.1;
              dog_probability := 0.9;
              all_probabilities := [("Cat", 0.1%Q); ("Dog", 0.9%Q)] |}
           (busy_session (Some (constant_model (inr [[0.9]]%Q))))).
  reflexivity.
Defined.

(** ** The confidence threshold *)

Lemma view_app (a b : list Event) : view (a ++ b) = (view a ++ view b)%list.
Proof. unfold view. apply flat_map_app. Qed.

Lemma alike_refl {A} (m : M A) : alike eq m m.
Proof.
  intro s. split; [|split; reflexivity].
  unfold outcome_rel. destruct (run_outcome (m s)); reflexivity || exact I.
Qed.

Lemma alike_ret {A} (R : A -> A -> Prop) (a1 a2 : A) : R a1 a2 -> alike R (ret a1) (ret a2).
Proof. intros HR s. cbn. repeat split. exact HR. Qed.

Lemma alike_emit (e1 e2 : Event) : shown e1 = shown e2 -> alike eq (emit e1) (emit e2).
Proof.
  intros He s. cbn. split; [reflexivity|]. split; [reflexivity|].
  rewrite He. reflexivity.
Qed.

Lemma alike_bind {A B} (R : A -> A -> Prop) (R' : B -> B -> Prop)
                 (m1 m2 : M A) (k1 k2 : A -> M B) :
  alike R m1 m2 ->
  (forall a1 a2, R a1 a2 -> alike R' (k1 a1) (k2 a2)) ->
  alike R' (bind m1 k1) (bind m2 k2).
Proof.
  intros Hm Hk s. unfold bind.
  destruct (Hm s) as (Ho & Hs & Hv).
  destruct (m1 s) as [[o1 s1] l1], (m2 s) as [[o2 s2] l2].
  unfold run_outcome, run_state, run_trace in *. cbn [fst snd] in *. subst s2.
  destruct o1 as [a1| |e1], o2 as [a2| |e2]; cbn in Ho; try contradiction;
    try (repeat split; assumption).
  - destruct (Hk a1 a2 Ho s1) as (Ho' & Hs' & Hv').
    destruct (k1 a1 s1) as [[r1 t1] u1], (k2 a2 s1) as [[r2 t2] u2].
    unfold run_outcome, run_state, run_trace in *. cbn [fst snd] in *.
    split; [exact Ho'|]. split; [exact Hs'|].
    rewrite !view_app, Hv, Hv'. reflexivity.
Qed.

Lemma alike_when (b : bool) (m1 m2 : M unit) :
  alike eq m1 m2 -> alike eq (when b m1) (when b m2).
Proof. intro Hm. destruct b; [exact Hm | apply alike_refl]. Qed.

Lemma alike_weaken {A} (R : A -> A -> Prop) (m1 m2 : M A) :
  (forall a, R a a) -> alike eq m1 m2 -> alike R m1 m2.
Proof.
  intros HR Hm s. destruct (Hm s) as (Ho & Hs & Hv). split; [|split; assumption].
  unfold outcome_rel in *.
  destruct (run_outcome (m1 s)), (run_outcome (m2 s)); try contradiction; try exact Ho.
  subst. apply HR.
Qed.

(** A step taken by both runs: the same computation, or one emission that
    shows the same. *)
Ltac alike_step :=
  match goal with
  | |- alike eq ?m ?m => apply alike_refl
  | |- alike eq (emit _) (emit _) => apply alike_emit; reflexivity
  | |- alike _ (bind ?m _) (bind ?m _) =>
      apply (alike_bind eq); [apply alike_refl | intros ? ? <-]
  | |- alike _ (bind (emit _) _) (bind (emit _) _) =>
      apply (alike_bind eq); [apply alike_emit; reflexivity | intros ? ? <-]
  end.

Lemma render_sidebar_alike (b1 b2 : Browser) (model : option Model) :
  same_but_threshold b1 b2 ->
  alike settings_agree (render_sidebar b1 model) (render_sidebar b2 model).
Proof.
  intros (Htheme & Hp & Hi & Hs & _ & _).
  unfold render_sidebar. repeat alike_step.
  apply alike_ret. unfold settings_agree. cbn. repeat split; assumption.
Qed.

Lemma render_file_uploader_same (b1 b2 : Browser) :
  file_uploader b1 = file_uploader b2 -> render_file_uploader b1 = render_file_uploader b2.
Proof. intro Hf. unfold render_file_uploader. rewrite Hf. reflexivity. Qed.

Lemma render_prediction_button_same (b1 b2 : Browser) :
  button_clicked b1 = button_clicked b2 ->
  render_prediction_button b1 = render_prediction_button b2.
Proof. intro Hf. unfold render_prediction_button. rewrite Hf. reflexivity. Qed.

Lemma render_prediction_results_alike (results : option Results) (st1 st2 : Settings) :
  settings_agree st1 st2 ->
  alike eq (render_prediction_results results st1) (render_prediction_results results st2).
Proof.
  intros (Hp & _). destruct results as [r|]; [|apply alike_refl].
  unfold render_prediction_results. rewrite Hp. repeat alike_step.
  apply (alike_bind eq); [|intros ? ? <-; apply alike_refl].
  destruct (Qgeb (confidence r) (confidence_threshold st1)),
           (Qgeb (confidence r) (confidence_threshold st2));
    intro s; cbn; repeat split.
Qed.

Lemma balloons_alike (conf thr1 thr2 : Q) :
  alike eq
    (if Qgeb conf thr1 then emit St_balloons
     else emit (St_error "❌ Failed to make prediction. Please try again."))
    (if Qgeb conf thr2 then emit St_balloons
     else emit (St_error "❌ Failed to make prediction. Please try again.")).
Proof.
  destruct (Qgeb conf thr1), (Qgeb conf thr2); intro s; cbn; repeat split.
Qed.

Section Threshold_properties.
Context `{Imaging}.

Lemma render_image_display_same (f : UploadedFile) (st1 st2 : Settings) :
  settings_agree st1 st2 -> render_image_display f st1 = render_image_display f st2.
Proof.
  intros (_ & Hi & Hs & _). unfold render_image_display. rewrite Hi, Hs. reflexivity.
Qed.

Lemma main_alike (host : Host) (b1 b2 : Browser) :
  same_but_threshold b1 b2 -> alike eq (main host b1) (main host b2).
Proof.
  intro Hsame. pose proof Hsame as (_ & _ & _ & _ & Hfile & Hclick).
  unfold main. repeat alike_step.
  apply (alike_bind settings_agree); [apply render_sidebar_alike; exact Hsame|].
  intros st1 st2 Hst. repeat alike_step.
  rewrite (render_file_uploader_same b1 b2 Hfile).
  apply (alike_bind eq); [apply alike_refl | intros uploaded ? <-].
  destruct uploaded as [f|]; [|apply alike_refl].
  rewrite (render_image_display_same f st1 st2 Hst).
  apply (alike_bind eq); [apply alike_refl | intros [processed original] ? <-].
  destruct processed as [processed|]; [|apply alike_refl].
  rewrite (render_prediction_button_same b1 b2 Hclick).
  apply (alike_bind eq); [apply alike_refl | intros clicked ? <-].
  apply alike_when. repeat alike_step.
  apply (alike_bind eq);
    [apply alike_when; apply render_prediction_results_alike; exact Hst | intros _ _ _].
  apply (alike_bind eq); [apply alike_refl | intros conf ? <-].
  apply balloons_alike.
Qed.

End Threshold_properties.

(** C6. Two runs of [main] from the same session, with the same host and
    widgets except for the confidence slider, end alike, leave the same
    session (the same counters), and show the same label, confidence and
    class probabilities; the threshold only selects how they are presented. *)
Theorem threshold_changes_presentation_only `{Imaging}
    (host : Host) (b1 b2 : Browser) (s : SessionState) :
  same_but_threshold b1 b2 ->
  outcome_rel eq (run_outcome (main host b1 s)) (run_outcome (main host b2 s)) /\
  run_state (main host b1 s) = run_state (main host b2 s) /\
  view (run_trace (main host b1 s)) = view (run_trace (main host b2 s)).
Proof.
  intro Hsame. exact (main_alike host b1 b2 Hsame s).
Qed.

(** A prediction of confidence 0.8, read against the thresholds 0.6 and 0.95. *)
Lemma threshold_changes_presentation_only_witness :
  outcome_rel eq
    (run_outcome
       (@main sample_imaging (sample_host (inr (constant_model (inr [[0.8]]%Q))))
          (sample_browser 0.6 (Some (sample_file "garden.png" 481203)) true)
          fresh_session))
    (run_outcome
       (@main sample_imaging (sample_host (inr (constant_model (inr [[0.8]]%Q))))
          (sample_browser 0.95 (Some (sample_file "garden.png" 481203)) true)
          fresh_session)) /\
  run_state
    (@main sample_imaging (sample_host (inr (constant_model (inr [[0.8]]%Q))))
       (sample_browser 0.6 (Some (sample_file "garden.png" 481203)) true)
       fresh_session)
  = run_state
      (@main sample_imaging (sample_host (inr (constant_model (inr [[0.8]]%Q))))
         (sample_browser 0.95 (Some (sample_file "garden.png" 481203)) true)
         fresh_session) /\
  view (run_trace
          (@main sample_imaging (sample_host (inr (constant_model (inr [[0.8]]%Q))))
             (sample_browser 0.6 (Some (sample_file "garden.png" 481203)) true)
             fresh_session))
  = view (run_trace
            (@main sample_imaging (sample_host (inr (constant_model (inr [[0.8]]%Q))))
               (sample_browser 0.95 (Some (sample_file "garden.png" 481203)) true)
               fresh_session)).
Proof.
  apply (@threshold_changes_presentation_only sample_imaging
           (sample_host (inr (constant_model (inr [[0.8]]%Q))))
           (sample_browser 0.6 (Some (sample_file "garden.png" 481203)) true)
           (sample_browser 0.95 (Some (sample_file "garden.png" 481203)) true)
           fresh_session).
  repeat split; reflexivity.
Defined.

(** The two presentations of that prediction. *)
Example threshold_selects_the_card :
  filter (fun e => is_some (card_label e))
    (run_trace
       (@main sample_imaging (sample_host (inr (constant_model (inr [[0.8]]%Q))))
          (sample_browser 0.6 (Some (sample_file "garden.png" 481203)) true)
          fresh_session))
    = [Md_prediction "Dog" 0.8] /\
  filter (fun e => is_some (card_label e))
    (run_trace
       (@main sample_imaging (sample_host (inr (constant_model (inr [[0.8]]%Q))))
          (sample_browser 0.95 (Some (sample_file "garden.png" 481203)) true)
          fresh_session))
    = [Md_uncertain "Dog" 0.8 0.95].
Proof. split; reflexivity. Qed.

(** * Further properties of the code *)

(** ** [validate_image]: the decision *)

(** X1. [validate_image] accepts a file exactly when its extension is one of
    the four allowed and its size is at most 10 MiB; it then reports
    nothing. A missing file is refused without a message, and a refusal
    always leaves the session as it was. *)
Theorem validate_image_decision (f : UploadedFile) (s : SessionState) :
  (run_outcome (validate_image (Some f) s) = Ret true <->
     In (file_extension f) ALLOWED_EXTENSIONS /\ file_size f <= 10485760) /\
  (run_outcome (validate_image (Some f) s) = Ret true ->
     run_trace (validate_image (Some f) s) = []) /\
  (run_outcome (validate_image (Some f) s) = Ret true \/
   run_outcome (validate_image (Some f) s) = Ret false) /\
  run_state (validate_image (Some f) s) = s /\
  validate_image None s = (Ret false, s, []).
Proof.
  destruct (in_dec string_dec (file_extension f) ALLOWED_EXTENSIONS) as [Hin | Hnot].
  - destruct (Z_le_gt_dec (file_size f) (10 * 1024 * 1024)) as [Hle | Hgt].
    + rewrite (validate_image_accepts f s Hin Hle). cbn.
      repeat split; auto; try lia.
    + rewrite (validate_image_too_large f s Hin Hgt). cbn.
      repeat split; auto; try discriminate; try (intros [_ Hle]; lia).
  - rewrite (validate_image_bad_extension f s Hnot). cbn.
    repeat split; auto; try discriminate; try (intros [Hin _]; contradiction).
Qed.

(** ** The extension of a file name *)

Lemma append_single (cur : string) (c : ascii) (rest : string) :
  (cur ++ String c "") ++ rest = cur ++ String c rest.
Proof. induction cur as [|d cur IH]; cbn; [reflexivity | rewrite IH; reflexivity]. Qed.

Lemma split_from_nonempty (sep : ascii) (cur s : string) : split_from sep cur s <> [].
Proof.
  revert cur. induction s as [|c rest IH]; intro cur; cbn; [discriminate|].
  destruct (Ascii.eqb c sep); [discriminate | apply IH].
Qed.

Lemma last_cons_nonempty {A} (x : A) (l : list A) (d : A) : l <> [] -> last (x :: l) d = last l d.
Proof. destruct l; [congruence | reflexivity]. Qed.

Lemma last_split_no_dot (cur e d : string) :
  no_dot e = true -> last (split_from "." cur e) d = cur ++ e.
Proof.
  revert cur. induction e as [|c rest IH]; intros cur Hno; cbn.
  - induction cur as [|x cur IHc]; cbn; [reflexivity | rewrite <- IHc at 1; reflexivity].
  - cbn in Hno. apply andb_true_iff in Hno. destruct Hno as [Hc Hrest].
    apply negb_true_iff in Hc. rewrite Hc. rewrite (IH _ Hrest). apply append_single.
Qed.

Lemma last_split_after_dot (cur base e d : string) :
  last (split_from "." cur (base ++ String "." e)) d = last (split_from "." "" e) d.
Proof.
  revert cur. induction base as [|c rest IH]; intro cur; cbn [append split_from].
  - rewrite Ascii.eqb_refl. apply last_cons_nonempty. apply split_from_nonempty.
  - destruct (Ascii.eqb c "."); [|apply IH].
    rewrite last_cons_nonempty by apply split_from_nonempty. apply IH.
Qed.

(** X2. The extension that [validate_image] tests is the text after the last
    dot of the name, in lower case; a name without a dot is its own
    extension, and a name that ends in a dot has the empty extension. *)
Theorem file_extension_is_last_component (base ext : string) (bytes : Z) (data : list Byte.byte) :
  no_dot ext = true ->
  file_extension {| name := base ++ "." ++ ext; file_size := bytes; getvalue := data |}
    = lower ext /\
  file_extension {| name := ext; file_size := bytes; getvalue := data |} = lower ext /\
  file_extension {| name := base ++ "."; file_size := bytes; getvalue := data |} = "".
Proof.
  intro Hno. unfold file_extension, split. cbn [name]. split; [|split].
  - change (base ++ "." ++ ext) with (base ++ String "." ext).
    rewrite last_split_after_dot, last_split_no_dot by exact Hno. reflexivity.
  - rewrite last_split_no_dot by exact Hno. reflexivity.
  - change (base ++ ".") with (base ++ String "." "").
    rewrite last_split_after_dot. reflexivity.
Qed.

Lemma file_extension_is_last_component_witness :
  file_extension {| name := "holiday.2024" ++ "." ++ "JPG"; file_size := 2048;
                    getvalue := [] |} = lower "JPG" /\
  file_extension {| name := "JPG"; file_size := 2048; getvalue := [] |} = lower "JPG" /\
  file_extension {| name := "holiday.2024" ++ "."; file_size := 2048; getvalue := [] |} = "".
Proof.
  apply (file_extension_is_last_component "holiday.2024" "JPG" 2048 []).
  reflexivity.
Defined.

(** ** [predict_image]: failures and the shape of a result *)

(** X3. [predict_image] never raises and never touches the session. It
    returns [None] exactly when there is no model, the forward pass raises,
    or the output has no row or an empty first row; an error is reported in
    each of these cases but the first, and nothing is reported on success. *)
Theorem predict_image_fails_exactly_when
    (model : option Model) (t : Tensor) (s : SessionState) :
  exists (r : option Results) (tr : list Event),
    predict_image model t s = (Ret r, s, tr) /\
    (r = None <->
       model = None \/
       exists m, model = Some m /\
         ((exists e, predict m t = inl e) \/ predict m t = inr [] \/
          (exists rest, predict m t = inr ([] :: rest)))) /\
    (r = None -> model <> None -> existsb is_error tr = true) /\
    (r <> None -> tr = [Model_predict]).
Proof.
  destruct model as [m|].
  2:{ exists None, []. split; [reflexivity|]. split; [|split].
      - split; [intros _; left; reflexivity | reflexivity].
      - intros _ Hm. contradiction.
      - intro Hr. contradiction. }
  destruct (predict m t) as [e|rows] eqn:Hp.
  { eexists _, _. split; [apply (predict_image_raises m t e s Hp)|].
    split; [|split].
    - split; [|reflexivity]. intros _. right. exists m. split; [reflexivity|].
      left. exists e. exact Hp.
    - reflexivity.
    - intro Hr. contradiction. }
  destruct rows as [|row rest].
  { eexists _, _. split.
    { unfold predict_image, try_except, lib_call, lift_result, bind, emit.
      rewrite Hp. reflexivity. }
    split; [|split].
    - split; [|reflexivity]. intros _. right. exists m. split; [reflexivity|].
      right. left. exact Hp.
    - reflexivity.
    - intro Hr. contradiction. }
  destruct row as [|c [|d more]].
  - eexists _, _. split.
    { unfold predict_image, try_except, lib_call, lift_result, bind, emit.
      rewrite Hp. reflexivity. }
    split; [|split].
    + split; [|reflexivity]. intros _. right. exists m. split; [reflexivity|].
      right. right. exists rest. exact Hp.
    + reflexivity.
    + intro Hr. contradiction.
  - eexists _, _. split; [apply (predict_image_sigmoid m t c rest s Hp)|].
    split; [|split].
    + split; [discriminate|].
      intros [Hm | (m' & Hm & [[e He] | [He | [r' He]]])]; try discriminate;
        injection Hm as <-; congruence.
    + discriminate.
    + reflexivity.
  - eexists _, _. split; [apply (predict_image_two_outputs m t c d more rest s Hp)|].
    split; [|split].
    + split; [discriminate|].
      intros [Hm | (m' & Hm & [[e He] | [He | [r' He]]])]; try discriminate;
        injection Hm as <-; congruence.
    + discriminate.
    + reflexivity.
Qed.

(** X4. In every result of [predict_image] the confidence is the probability
    of the predicted class, it is at least the probability of the other
    class, and "Dog" is predicted only on a strictly greater dog
    probability. *)
Theorem predict_image_confidence_is_winning_probability
    (model : option Model) (t : Tensor) (s s' : SessionState)
    (tr : list Event) (r : Results) :
  predict_image model t s = (Ret (Some r), s', tr) ->
  (predicted_class r = "Dog" /\ confidence r = dog_probability r /\
     (cat_probability r < dog_probability r)%Q) \/
  (predicted_class r = "Cat" /\ confidence r = cat_probability r /\
     (dog_probability r <= cat_probability r)%Q).
Proof.
  intro Hrun.
  destruct (predict_image_success model t s s' tr r Hrun)
    as (m & row & rest & _ & _ & _ & Hclass & Hconf & _).
  rewrite Hclass, Hconf. unfold py_max.
  destruct (Qgtb (dog_probability r) (cat_probability r)) eqn:E.
  - left. apply Qgtb_true in E. repeat split. exact E.
  - right. apply Qgtb_false in E. repeat split. exact E.
Qed.

Lemma predict_image_confidence_is_winning_probability_witness :
  (predicted_class
     {| predicted_class := "Cat"; confidence := py_max 0.5 0.5;
        cat_probability := 0.5; dog_probability := 0.5;
        all_probabilities := [("Cat", 0.5%Q); ("Dog", 0.5%Q)] |} = "Dog" /\
   py_max 0.5 0.5 = 0.5%Q /\ (0.5 < 0.5)%Q) \/
  (predicted_class
     {| predicted_class := "Cat"; confidence := py_max 0.5 0.5;
        cat_probability := 0.5; dog_probability := 0.5;
        all_probabilities := [("Cat", 0.5%Q); ("Dog", 0.5%Q)] |} = "Cat" /\
   py_max 0.5 0.5 = 0.5%Q /\ (0.5 <= 0.5)%Q).
Proof.
  apply (predict_image_confidence_is_winning_probability
           (Some (constant_model (inr [[0.5; 0.5]]%Q))) [] fresh_session fresh_session
           [Model_predict]
           {| predicted_class := "Cat"; confidence := py_max 0.5 0.5;
              cat_probability := 0.5; dog_probability := 0.5;
              all_probabilities := [("Cat", 0.5%Q); ("Dog", 0.5%Q)] |}).
  reflexivity.
Defined.

(** X5. Only the first row of the model output is read, and of a row with
    two entries or more only the first two: further rows and entries change
    nothing, so the probabilities of a three-class output need not sum to
    one. *)
Theorem predict_image_reads_first_two_outputs
    (m1 m2 : Model) (t1 t2 : Tensor) (c d : Q) (more : list Q)
    (rest : list (list Q)) (s : SessionState) :
  predict m1 t1 = inr ((c :: d :: more) :: rest) ->
  predict m2 t2 = inr [[c; d]] ->
  predict_image (Some m1) t1 s = predict_image (Some m2) t2 s /\
  exists r, run_outcome (predict_image (Some m1) t1 s) = Ret (Some r) /\
            cat_probability r = c /\ dog_probability r = d.
Proof.
  intros H1 H2.
  rewrite (predict_image_two_outputs m1 t1 c d more rest s H1).
  rewrite (predict_image_two_outputs m2 t2 c d [] [] s H2).
  split; [reflexivity|]. eexists. cbn. repeat split.
Qed.

Lemma predict_image_reads_first_two_outputs_witness :
  predict_image (Some (constant_model (inr [[0.2; 0.3; 0.5]; [0.9; 0.1]]%Q))) [] fresh_session
    = predict_image (Some (constant_model (inr [[0.2; 0.3]]%Q))) [] fresh_session /\
  exists r,
    run_outcome
      (predict_image (Some (constant_model (inr [[0.2; 0.3; 0.5]; [0.9; 0.1]]%Q))) []
         fresh_session) = Ret (Some r) /\
    cat_probability r = 0.2%Q /\ dog_probability r = 0.3%Q.
Proof.
  apply (predict_image_reads_first_two_outputs
           (constant_model (inr [[0.2; 0.3; 0.5]; [0.9; 0.1]]%Q))
           (constant_model (inr [[0.2; 0.3]]%Q)) [] [] 0.2 0.3 [0.5%Q] [[0.9; 0.1]%Q]
           fresh_session).
  - reflexivity.
  - reflexivity.
Defined.

(** ** [load_model]: when it downloads and when it succeeds *)

(** X6. [load_model] always returns and leaves the session alone. Served
    from the cache it returns the cached value without a file test, a
    download or a Keras load, and puts nothing into the cache. In the first
    call of a process it downloads exactly when the artifact is missing, asks
    Keras to load unless a needed download raised, returns a model exactly
    when every step it took succeeded (the model Keras loaded), reports an
    error exactly when it returns [None], and the decorator keeps what it
    returned. *)
Theorem load_model_downloads_when_missing (host : Host) (s : SessionState) :
  exists (r : option Model) (tr : list Event),
    load_model host s = (Ret r, s, tr) /\
    (forall value, cache_resource host = Some value ->
       r = value /\ existsb loading tr = false /\ stored tr = None) /\
    (cache_resource host = None ->
       (existsb (fun e => match e with Gdown_download _ _ => true | _ => false end) tr
          = negb (model_file_exists host)) /\
       (existsb (fun e => match e with Keras_load_model _ => true | _ => false end) tr = true
          <-> (model_file_exists host = true \/ gdown_download host = inr tt)) /\
       (forall m, r = Some m <->
          keras_load_model host = inr m /\
          (model_file_exists host = true \/ gdown_download host = inr tt)) /\
       (existsb is_error tr = true <-> r = None) /\
       stored tr = Some r).
Proof.
  destruct host as [cached replay present download loaded].
  unfold load_model. cbn [cache_resource cache_replay model_file_exists
                           gdown_download keras_load_model].
  destruct cached as [value|].
  - exists value, (map element_event replay ++ [])%list.
    split; [reflexivity|]. rewrite app_nil_r. split; [|discriminate].
    intros v Hv. injection Hv as <-. split; [reflexivity|].
    split; [|apply stored_nothing]; apply existsb_replay; intros []; reflexivity.
  - unfold load_model_body, try_except, lib_call, lift_result, bind, emit, when, ret, raise.
    cbn [model_file_exists gdown_download keras_load_model].
    destruct present, download as [e1|[]], loaded as [e2|m]; cbn;
      eexists _, _; (split; [reflexivity|]); (split; [discriminate|]); intros _;
      repeat split; intros; intuition (auto; try congruence);
      match goal with H : existsb is_error _ = true |- _ => cbn in H; discriminate H end.
Qed.

(** ** The script as a whole *)

Lemma try_except_never_raises {A} (body : M A) (handler : exn -> M A) :
  (forall e s, exists a s' tr, handler e s = (Ret a, s', tr)) ->
  forall s e, run_outcome (try_except body handler s) <> Raised e.
Proof.
  intros Hh s e. unfold try_except.
  destruct (body s) as [[o s1] l1]. destruct o as [a| |e1]; cbn; try discriminate.
  destruct (Hh e1 s1) as (a & s' & tr & Hrun). rewrite Hrun. cbn. discriminate.
Qed.


(** X7. The script never ends with an exception: whatever [main] or
    [render_footer] raise, the handler turns it into an error report that
    names the exception, and the run ends normally or by [st.stop()]. *)
Theorem script_never_raises `{Imaging} (host : Host) (browser : Browser) (s : SessionState) :
  (forall e, run_outcome (script host browser s) <> Raised e) /\
  (forall e, run_outcome (main host browser s) = Raised e ->
     run_outcome (script host browser s) = Ret tt /\
     In (St_error ("❌ Application Error: " ++ exn_msg e)) (run_trace (script host browser s)) /\
     In (St_exception e) (run_trace (script host browser s))) /\
  (run_outcome (main host browser s) = Stopped ->
     script host browser s = main host browser s).
Proof.
  split; [|split].
  - intro e. apply try_except_never_raises. intros e' s'.
    eexists _, _, _. reflexivity.
  - intros e Hmain. unfold script, try_except, bind.
    destruct (main host browser s) as [[o s1] l1]. cbn in Hmain. subst o. cbn.
    split; [reflexivity|]. split; apply in_or_app; right; cbn; auto.
  - intro Hmain. unfold script, try_except, bind.
    destruct (main host browser s) as [[o s1] l1]. cbn in Hmain. subst o. reflexivity.
Qed.

(** ** What a computation never does *)

Section Holds.
Variable J : option (option Model) * option bool -> Prop.
Variable p : Event -> bool.

Lemma holds_quiet {A} (m : M A) :
  (forall s, model_part (run_state (m s)) = model_part s /\ run_trace (m s) = []) ->
  holds J p m.
Proof.
  intros Hq s HJ. destruct (Hq s) as [Hs Ht]. rewrite Hs, Ht. split; [exact HJ | reflexivity].
Qed.

Lemma holds_ret {A} (a : A) : holds J p (ret a).
Proof. apply holds_quiet. intro s. split; reflexivity. Qed.

Lemma holds_raise {A} (e : exn) : holds J p (@raise A e).
Proof. apply holds_quiet. intro s. split; reflexivity. Qed.

Lemma holds_stop {A} : holds J p (@st_stop A).
Proof. apply holds_quiet. intro s. split; reflexivity. Qed.

Lemma holds_get_state : holds J p get_state.
Proof. apply holds_quiet. intro s. split; reflexivity. Qed.

Lemma holds_get_attr {A} (field : SessionState -> option A) (key : string) :
  holds J p (get_attr field key).
Proof.
  apply holds_quiet. intro s. unfold get_attr. destruct (field s); split; reflexivity.
Qed.

Lemma holds_set_predictions_made (v : Z) : holds J p (set_predictions_made v).
Proof. apply holds_quiet. intro s. split; reflexivity. Qed.

Lemma holds_set_cats_detected (v : Z) : holds J p (set_cats_detected v).
Proof. apply holds_quiet. intro s. split; reflexivity. Qed.

Lemma holds_set_dogs_detected (v : Z) : holds J p (set_dogs_detected v).
Proof. apply holds_quiet. intro s. split; reflexivity. Qed.

Lemma holds_set_model (v : option Model) :
  (forall x l, J (x, l) -> J (Some v, l)) -> holds J p (set_model v).
Proof. intros HJ s Hs. split; [|reflexivity]. cbn. apply (HJ (ss_model s)). exact Hs. Qed.

Lemma holds_set_model_loaded (v : bool) :
  (forall x l, J (x, l) -> J (x, Some v)) -> holds J p (set_model_loaded v).
Proof. intros HJ s Hs. split; [|reflexivity]. cbn. apply (HJ _ (ss_model_loaded s)). exact Hs. Qed.

Lemma holds_emit (e : Event) : p e = false -> holds J p (emit e).
Proof. intros He s HJ. cbn. rewrite He. split; [exact HJ | reflexivity]. Qed.

Lemma holds_replay (replay : list Element) :
  (forall el, p (element_event el) = false) ->
  holds J p (emit_all (map element_event replay)).
Proof.
  intros Hp s HJ. cbn. split; [exact HJ|].
  induction replay as [|el l IH]; cbn; [reflexivity|]. rewrite Hp, IH. reflexivity.
Qed.

(** The continuation is only asked about the values [m] returns from a
    session that satisfies [J]. *)
Lemma holds_bind_returned {A B} (m : M A) (k : A -> M B) :
  holds J p m ->
  (forall s a, J (model_part s) -> run_outcome (m s) = Ret a -> holds J p (k a)) ->
  holds J p (bind m k).
Proof.
  intros Hm Hk s HJ. unfold bind. specialize (Hm s HJ). specialize (Hk s).
  destruct (m s) as [[o s1] l1]. unfold run_trace, run_state, run_outcome in *.
  cbn [fst snd] in *. destruct Hm as [HJ1 Hp1].
  destruct o as [a| |e]; try (split; assumption).
  specialize (Hk a HJ eq_refl s1 HJ1). destruct (k a s1) as [[r s2] l2].
  unfold run_trace, run_state in Hk. cbn [fst snd] in *. destruct Hk as [HJ2 Hp2].
  split; [exact HJ2|]. rewrite existsb_app, Hp1, Hp2. reflexivity.
Qed.

Lemma holds_bind {A B} (m : M A) (k : A -> M B) :
  holds J p m -> (forall a, holds J p (k a)) -> holds J p (bind m k).
Proof. intros Hm Hk. apply holds_bind_returned; [exact Hm | intros _ a _ _; apply Hk]. Qed.

Lemma holds_try_except {A} (body : M A) (handler : exn -> M A) :
  holds J p body -> (forall e, holds J p (handler e)) -> holds J p (try_except body handler).
Proof.
  intros Hm Hk s HJ. unfold try_except. specialize (Hm s HJ).
  destruct (body s) as [[o s1] l1]. unfold run_trace, run_state in *.
  cbn [fst snd] in *. destruct Hm as [HJ1 Hp1].
  destruct o as [a| |e]; try (split; assumption).
  specialize (Hk e s1 HJ1). destruct (handler e s1) as [[r s2] l2].
  unfold run_trace, run_state in Hk. cbn [fst snd] in *. destruct Hk as [HJ2 Hp2].
  split; [exact HJ2|]. rewrite existsb_app, Hp1, Hp2. reflexivity.
Qed.

Lemma holds_when (b : bool) (m : M unit) : holds J p m -> holds J p (when b m).
Proof. intro Hm. destruct b; [exact Hm | apply holds_ret]. Qed.

Lemma holds_lift_result {A} (r : PyResult A) : holds J p (lift_result r).
Proof. destruct r; [apply holds_raise | apply holds_ret]. Qed.

Lemma holds_lib_call {A} (e : Event) (r : PyResult A) :
  p e = false -> holds J p (lib_call e r).
Proof.
  intro He. apply holds_bind; [apply holds_emit; exact He|].
  intros _. apply holds_lift_result.
Qed.

End Holds.

Ltac holds_step :=
  match goal with
  | |- holds _ _ (bind _ _) => apply holds_bind; [|intro]
  | |- holds _ _ (try_except _ _) => apply holds_try_except; [|intro]
  | |- holds _ _ (ret _) => apply holds_ret
  | |- holds _ _ (raise _) => apply holds_raise
  | |- holds _ _ st_stop => apply holds_stop
  | |- holds _ _ get_state => apply holds_get_state
  | |- holds _ _ (get_attr _ _) => apply holds_get_attr
  | |- holds _ _ (emit _) => apply holds_emit; reflexivity
  | |- holds _ _ (emit_all (map element_event _)) =>
      apply holds_replay; intros []; reflexivity
  | |- holds _ _ (set_predictions_made _) => apply holds_set_predictions_made
  | |- holds _ _ (set_cats_detected _) => apply holds_set_cats_detected
  | |- holds _ _ (set_dogs_detected _) => apply holds_set_dogs_detected
  | |- holds _ _ (when _ _) => apply holds_when
  | |- holds _ _ (lift_result _) => apply holds_lift_result
  | |- holds _ _ (lib_call _ _) => apply holds_lib_call; reflexivity
  | |- holds _ _ (py_index _ _ _) => unfold py_index
  | |- holds _ _ (if ?b then _ else _) => destruct b
  | |- holds _ _ (match ?x with _ => _ end) => destruct x
  | |- holds _ _ (let _ := _ in _) => cbv zeta
  | |- holds _ _ _ => assumption
  end.
Ltac holds_tac := repeat holds_step.

(** ** The model is loaded once per session *)

Ltac unfold_page :=
  unfold page, prediction_block, subscript_confidence, render_instructions,
    render_sidebar, render_model_dashboard, get_model_info, render_session_stats,
    render_header, render_file_uploader, render_image_display, validate_image,
    render_processing_steps, preprocess_image, render_image_info,
    render_prediction_button, predict_image, render_prediction_results,
    render_probability_section, create_enhanced_probability_chart,
    render_confidence_interpretation.

Section Load_once.
Context `{Imaging}.

Lemma page_never_loads (J : option (option Model) * option bool -> Prop) (browser : Browser) :
  holds J loading (page browser).
Proof. unfold_page. holds_tac. Qed.

Lemma main_marks_loaded (host : Host) (browser : Browser) (s : SessionState) :
  is_some (ss_model (run_state (main host browser s))) = true /\
  ss_model_loaded (run_state (main host browser s)) = Some true.
Proof.
  pose proof (page_never_loads
                (fun mp => is_some (fst mp) = true /\ snd mp = Some true) browser) as Hpage.
  rewrite main_parts. destruct s as [m l pm c d].
  destruct (load_model_run host) as (r & tr & Hload & _).
  destruct l as [[|]|], m as [m|];
    unfold bind, when, emit, get_state, get_attr, set_model, set_model_loaded, ret, st_stop;
    cbn -[page load_model];
    try rewrite Hload; cbn -[page load_model];
    try (destruct r as [mdl|]; cbn -[page]);
    try (split; reflexivity);
    match goal with
    | |- context [page browser ?s1] =>
        let HJ := fresh "HJ" in
        destruct (Hpage s1) as [HJ _]; [split; reflexivity|];
        destruct (page browser s1) as [[o s2] l2]; exact HJ
    end.
Qed.

(** X8. A run of [main] in a session that already says the model is loaded
    never tests for the artifact, downloads it or calls the Keras loader,
    whatever the host; and every run leaves the session saying so. Hence in
    any sequence of runs of one session only the first can load. *)
Theorem model_is_loaded_once_per_session
    (inputs : list (Host * Browser)) (s : SessionState) :
  Forall (fun r => existsb loading (run_trace r) = false) (tl (session_runs inputs s)) /\
  Forall (fun r => ss_model_loaded (run_state r) = Some true) (session_runs inputs s).
Proof.
  assert (Hlater : forall later s1,
            is_some (ss_model s1) = true -> ss_model_loaded s1 = Some true ->
            Forall (fun r => existsb loading (run_trace r) = false) (session_runs later s1)).
  { induction later as [|[host browser] later IH]; intros s1 Hm Hl; cbn [session_runs].
    - constructor.
    - constructor.
      + rewrite (main_is_page_once_loaded host browser s1 Hm Hl).
        destruct (page_never_loads (fun _ => True) browser s1 I) as [_ Hq]. exact Hq.
      + destruct (main_marks_loaded host browser s1) as [Hm' Hl']. apply IH; assumption. }
  split.
  - destruct inputs as [|[host browser] later]; cbn [session_runs tl]; [constructor|].
    destruct (main_marks_loaded host browser s) as [Hm' Hl']. apply Hlater; assumption.
  - revert s. induction inputs as [|[host browser] later IH]; intro s; cbn [session_runs].
    + constructor.
    + constructor; [apply main_marks_loaded | apply IH].
Qed.

End Load_once.

(** ** The sidebar *)

Lemma render_sidebar_without_model (browser : Browser) (s : SessionState) :
  exists tr,
    render_sidebar browser None s = (Ret (settings_of browser), initialised s, tr) /\
    filter is_error tr = [St_error "❌ Model not loaded"] /\
    existsb classifying tr = false /\ existsb predicting tr = false.
Proof.
  destruct s as [m l pm c d].
  destruct pm, c, d; cbn; eexists; repeat split; reflexivity.
Qed.

Lemma render_sidebar_with_model (browser : Browser) (m : Model) (s : SessionState) :
  count_params m <> 0 ->
  exists tr,
    render_sidebar browser (Some m) s = (Ret (settings_of browser), initialised s, tr) /\
    existsb telling tr = false.
Proof.
  intro Hparams. apply Z.eqb_neq in Hparams.
  destruct s as [mm l pm c d].
  unfold render_sidebar, render_model_dashboard, get_model_info, try_except, bind, ret.
  cbn [total_params]. rewrite Hparams.
  destruct pm, c, d; cbn; eexists; repeat split; reflexivity.
Qed.

(** X9. [render_sidebar] returns the values of the widgets as the settings
    and sets every unset session counter to zero, keeping those that are
    set; with a model that reports zero parameters it raises
    [ZeroDivisionError] (the trainable percentage) before the settings and
    the counters are reached, and so does [main] in a session holding such a
    model. *)
Theorem render_sidebar_settings_and_zero_parameters `{Imaging}
    (host : Host) (browser : Browser) (model : option Model) (s : SessionState) :
  ((forall m, model = Some m -> count_params m <> 0) ->
     run_outcome (render_sidebar browser model s) = Ret (settings_of browser) /\
     run_state (render_sidebar browser model s) = initialised s) /\
  (forall m, model = Some m -> count_params m = 0 ->
     (run_outcome (render_sidebar browser model s)
        = Raised (Exn "ZeroDivisionError" "division by zero") /\
      run_state (render_sidebar browser model s) = s) /\
     (model_ready m s ->
        run_outcome (main host browser s)
          = Raised (Exn "ZeroDivisionError" "division by zero") /\
        existsb classifying (run_trace (main host browser s)) = false)).
Proof.
  split.
  - intro Hparams. destruct model as [m|].
    + destruct (render_sidebar_with_model browser m s (Hparams m eq_refl)) as (tr & Hrun & _).
      rewrite Hrun. split; reflexivity.
    + destruct (render_sidebar_without_model browser s) as (tr & Hrun & _).
      rewrite Hrun. split; reflexivity.
  - intros m -> Hparams. apply Z.eqb_eq in Hparams. split.
    + unfold render_sidebar, render_model_dashboard, get_model_info, try_except, bind, ret.
      cbn [total_params]. rewrite Hparams. split; reflexivity.
    + intros [Hm Hl].
      rewrite (main_is_page_once_loaded host browser s) by (try rewrite Hm; auto).
      destruct s as [mm l pm c d]. cbn in Hm, Hl. subst mm l.
      unfold page, render_sidebar, render_model_dashboard, get_model_info, try_except,
        bind, ret.
      cbn [total_params get_attr ss_model]. rewrite Hparams. split; reflexivity.
Qed.

(** ** [render_prediction_results] *)

(** X10. [render_prediction_results] on a result needs the counters the
    sidebar sets: in a session where [predictions_made] is unset it raises
    [AttributeError] before anything is shown or counted, while after
    [render_sidebar] it always returns. Without a result it shows one error
    and counts nothing. *)
Theorem render_prediction_results_needs_counters
    (r : Results) (settings : Settings) (s : SessionState) :
  (predictions_made s = None ->
     exists msg,
       render_prediction_results (Some r) settings s
         = (Raised (Exn "AttributeError" msg), s, [])) /\
  run_outcome (render_prediction_results (Some r) settings (initialised s)) = Ret tt /\
  render_prediction_results None settings s
    = (Ret tt, s,
       [St_error "❌ Could not generate prediction. Please try again with a different image."]).
Proof.
  split; [|split].
  - intro Hn. destruct s as [m l pm c d]. cbn in Hn. subst pm.
    eexists. reflexivity.
  - destruct (render_prediction_results_counts r settings (initialised s)
                (made s) (cats s) (dogs s) eq_refl eq_refl eq_refl) as (Ho & _).
    exact Ho.
  - reflexivity.
Qed.


(** X11. A rendered prediction shows exactly one result card: the
    "It's a ...!" card, followed by the success note that states the
    confidence, when the confidence reaches the threshold, otherwise the
    "Uncertain Prediction" card with a warning; the probability cards and
    the chart appear exactly when the setting asks for them, and the chart
    lists "Cat" before "Dog". *)
Theorem render_prediction_results_card
    (r : Results) (settings : Settings) (s : SessionState) (n c d : Z) :
  predictions_made s = Some n ->
  cats_detected s = Some c ->
  dogs_detected s = Some d ->
  let tr := run_trace (render_prediction_results (Some r) settings s) in
  filter (fun e => is_some (card_label e)) tr =
    [if Qgeb (confidence r) (confidence_threshold settings)
     then Md_prediction (predicted_class r) (confidence r)
     else Md_uncertain (predicted_class r) (confidence r) (confidence_threshold settings)] /\
  filter (fun e => match e with
                   | St_success _ | St_success_certain _ | St_warning _ => true
                   | _ => false end) tr =
    [if Qgeb (confidence r) (confidence_threshold settings)
     then St_success_certain (confidence r)
     else St_warning "⚠️ Low confidence prediction. Consider uploading a clearer image."] /\
  filter (fun e => match e with
                   | Md_probability _ _ | St_plotly_chart _ _ _ => true
                   | _ => false end) tr =
    (if show_probabilities settings
     then [Md_probability "Cat" (cat_probability r);
           Md_probability "Dog" (dog_probability r);
           St_plotly_chart "🎯 Class Probability Distribution"
             (map fst (all_probabilities r)) (map snd (all_probabilities r))]
     else []) /\
  filter is_error tr = [].
Proof.
  intros Hn Hc Hd. destruct s as [m l pm cc dd]. cbn in Hn, Hc, Hd. subst pm cc dd.
  unfold render_prediction_results, render_probability_section,
    create_enhanced_probability_chart, render_confidence_interpretation.
  destruct (String.eqb (predicted_class r) "Cat"),
           (Qgeb (confidence r) (confidence_threshold settings)),
           (show_probabilities settings);
    cbn; repeat split; reflexivity.
Qed.

Lemma render_prediction_results_card_witness :
  filter (fun e => is_some (card_label e))
    (run_trace (render_prediction_results
       (Some {| predicted_class := "Cat"; confidence := 0.7; cat_probability := 0.7;
                dog_probability := 0.3;
                all_probabilities := [("Cat", 0.7%Q); ("Dog", 0.3%Q)] |})
       (sample_settings 0.8) (busy_session None))) =
    [if Qgeb 0.7 0.8 then Md_prediction "Cat" 0.7 else Md_uncertain "Cat" 0.7 0.8] /\
  filter (fun e => match e with
                   | St_success _ | St_success_certain _ | St_warning _ => true
                   | _ => false end)
    (run_trace (render_prediction_results
       (Some {| predicted_class := "Cat"; confidence := 0.7; cat_probability := 0.7;
                dog_probability := 0.3;
                all_probabilities := [("Cat", 0.7%Q); ("Dog", 0.3%Q)] |})
       (sample_settings 0.8) (busy_session None))) =
    [if Qgeb 0.7 0.8
     then St_success_certain 0.7
     else St_warning "⚠️ Low confidence prediction. Consider uploading a clearer image."] /\
  filter (fun e => match e with
                   | Md_probability _ _ | St_plotly_chart _ _ _ => true
                   | _ => false end)
    (run_trace (render_prediction_results
       (Some {| predicted_class := "Cat"; confidence := 0.7; cat_probability := 0.7;
                dog_probability := 0.3;
                all_probabilities := [("Cat", 0.7%Q); ("Dog", 0.3%Q)] |})
       (sample_settings 0.8) (busy_session None))) =
    (if true
     then [Md_probability "Cat" 0.7; Md_probability "Dog" 0.3;
           St_plotly_chart "🎯 Class Probability Distribution"
             (map fst [("Cat", 0.7%Q); ("Dog", 0.3%Q)])
             (map snd [("Cat", 0.7%Q); ("Dog", 0.3%Q)])]
     else []) /\
  filter is_error
    (run_trace (render_prediction_results
       (Some {| predicted_class := "Cat"; confidence := 0.7; cat_probability := 0.7;
                dog_probability := 0.3;
                all_probabilities := [("Cat", 0.7%Q); ("Dog", 0.3%Q)] |})
       (sample_settings 0.8) (busy_session None))) = [].
Proof.
  apply (render_prediction_results_card
           {| predicted_class := "Cat"; confidence := 0.7; cat_probability := 0.7;
              dog_probability := 0.3;
              all_probabilities := [("Cat", 0.7%Q); ("Dog", 0.3%Q)] |}
           (sample_settings 0.8) (busy_session None) 3 1 2).
  - reflexivity.
  - reflexivity.
  - reflexivity.
Defined.

(** ** A prediction inside [main] *)


Lemma filter_nil_of_existsb {A} (p : A -> bool) (l : list A) :
  existsb p l = false -> filter p l = [].
Proof.
  induction l as [|x l IH]; cbn; [reflexivity|].
  destruct (p x); cbn; [discriminate | exact IH].
Qed.





Lemma render_file_uploader_run (browser : Browser) (s : SessionState) :
  exists tr,
    render_file_uploader browser s = (Ret (file_uploader browser), s, tr) /\
    existsb telling tr = false /\
    existsb processing tr = false.
Proof.
  unfold render_file_uploader. destruct (file_uploader browser); cbn;
    eexists; repeat split; reflexivity.
Qed.

Lemma render_prediction_button_run (browser : Browser) (s : SessionState) :
  render_prediction_button browser s =
    (Ret (button_clicked browser), s,
     [St_markdown "#### 🔮 AI Analysis"; St_markdown "🚀 Ready to Analyze Your Pet Photo?";
      St_columns 3; St_button "🎯 Analyze Image with AI"]).
Proof. reflexivity. Qed.

Section Page_properties.
Context `{Imaging}.



End Page_properties.





Section Prediction_in_main.
Context `{Imaging}.



End Prediction_in_main.



(** ** Runs that predict nothing *)

Lemma no_cards_counted (tr : list Event) :
  existsb predicting tr = false -> cat_cards tr = 0 /\ dog_cards tr = 0.
Proof.
  induction tr as [|e tr IH]; [split; reflexivity|]. cbn. intro Hp.
  apply orb_false_iff in Hp. destruct Hp as [He Hrest]. destruct (IH Hrest) as [Hc Hd].
  unfold cat_cards, dog_cards in *. cbn [fold_right]. rewrite Hc, Hd.
  unfold cat_card, dog_card.
  destruct e; cbn in He |- *; try discriminate He; split; reflexivity.
Qed.

Ltac unfold_main_but tac :=
  rewrite main_parts;
  unfold page;
  tac;
  unfold load_model, load_model_body, subscript_confidence, render_instructions,
    render_sidebar, render_model_dashboard, get_model_info, render_session_stats,
    render_header, validate_image,
    render_processing_steps, preprocess_image, render_image_info,
    render_probability_section, create_enhanced_probability_chart,
    render_confidence_interpretation.

Ltac holds_trivial_step :=
  first
    [ apply holds_set_model; intros; exact I
    | apply holds_set_model_loaded; intros; exact I
    | holds_step ].

Section Idle_runs.
Context `{Imaging}.

Lemma main_without_click (host : Host) (browser : Browser) :
  button_clicked browser = false ->
  holds (fun _ => True) predicting (main host browser).
Proof.
  intro Hclick.
  unfold_main_but ltac:(unfold render_file_uploader, render_image_display).
  repeat first
    [ match goal with
      | |- holds _ _ (bind (render_prediction_button _) _) =>
          apply holds_bind_returned;
          [ unfold render_prediction_button; repeat holds_trivial_step
          | let s' := fresh "s" in let a := fresh "a" in let Hret := fresh "Hret" in
            intros s' a _ Hret; rewrite render_prediction_button_run in Hret;
            cbn in Hret; injection Hret as <-; rewrite Hclick; apply holds_ret ]
      end
    | holds_trivial_step ].
Qed.

Lemma main_without_file (host : Host) (browser : Browser) :
  file_uploader browser = None ->
  holds (fun _ => True) (fun e => offering e || processing e) (main host browser).
Proof.
  intro Hfile.
  unfold_main_but ltac:(idtac).
  repeat first
    [ match goal with
      | |- holds _ _ (bind (render_file_uploader _) _) =>
          apply holds_bind_returned;
          [ unfold render_file_uploader; repeat holds_trivial_step
          | let s' := fresh "s" in let a := fresh "a" in let Hret := fresh "Hret" in
            intros s' a _ Hret;
            destruct (render_file_uploader_run browser s') as (? & Hrun & _);
            rewrite Hrun in Hret; cbn in Hret; injection Hret as <-; rewrite Hfile;
            repeat holds_trivial_step ]
      end
    | holds_trivial_step ].
Qed.

(** X14. A run of [main] in which the button is not clicked makes no forward
    pass and shows no result card, and a run without an uploaded file also
    opens no image and renders no predict button; either way the session
    counters keep their values. *)
Theorem idle_run_predicts_and_counts_nothing
    (host : Host) (browser : Browser) (s : SessionState) :
  counters_ok s ->
  button_clicked browser = false \/ file_uploader browser = None ->
  existsb predicting (run_trace (main host browser s)) = false /\
  (file_uploader browser = None ->
     existsb (fun e => offering e || processing e) (run_trace (main host browser s)) = false) /\
  made (run_state (main host browser s)) = made s /\
  cats (run_state (main host browser s)) = cats s /\
  dogs (run_state (main host browser s)) = dogs s.
Proof.
  intros Hok Hidle.
  assert (Hpred : existsb predicting (run_trace (main host browser s)) = false).
  { destruct Hidle as [Hclick | Hfile].
    - apply (main_without_click host browser Hclick s I).
    - destruct (main_without_file host browser Hfile s I) as [_ Hq].
      clear - Hq. induction (run_trace (main host browser s)) as [|e l IH]; [reflexivity|].
      cbn in Hq |- *. apply orb_false_iff in Hq. destruct Hq as [He Hrest].
      rewrite (IH Hrest), orb_false_r.
      destruct e; cbn in He |- *; try reflexivity; discriminate He. }
  split; [exact Hpred|]. split.
  - intro Hfile. apply (main_without_file host browser Hfile s I).
  - destruct (tallies_advances (main host browser) s (tallies_main host browser) Hok)
      as (_ & Hm & Hc & Hd).
    unfold effects in Hm, Hc, Hd. cbn [fst snd] in Hm, Hc, Hd.
    destruct (no_cards_counted _ Hpred) as [Hcc Hdc].
    rewrite Hcc, Hdc in *. repeat split; lia.
Qed.

End Idle_runs.

Lemma idle_run_predicts_and_counts_nothing_witness :
  existsb predicting
    (run_trace
       (@main sample_imaging (sample_host (inr (constant_model (inr [[0.9]]%Q))))
          (sample_browser 0.8 (Some (sample_file "garden.png" 481203)) false)
          (busy_session (Some (constant_model (inr [[0.9]]%Q)))))) = false /\
  (file_uploader (sample_browser 0.8 (Some (sample_file "garden.png" 481203)) false) = None ->
     existsb (fun e => offering e || processing e)
       (run_trace
          (@main sample_imaging (sample_host (inr (constant_model (inr [[0.9]]%Q))))
             (sample_browser 0.8 (Some (sample_file "garden.png" 481203)) false)
             (busy_session (Some (constant_model (inr [[0.9]]%Q)))))) = false) /\
  made (run_state
          (@main sample_imaging (sample_host (inr (constant_model (inr [[0.9]]%Q))))
             (sample_browser 0.8 (Some (sample_file "garden.png" 481203)) false)
             (busy_session (Some (constant_model (inr [[0.9]]%Q))))))
    = made (busy_session (Some (constant_model (inr [[0.9]]%Q)))) /\
  cats (run_state
          (@main sample_imaging (sample_host (inr (constant_model (inr [[0.9]]%Q))))
             (sample_browser 0.8 (Some (sample_file "garden.png" 481203)) false)
             (busy_session (Some (constant_model (inr [[0.9]]%Q))))))
    = cats (busy_session (Some (constant_model (inr [[0.9]]%Q)))) /\
  dogs (run_state
          (@main sample_imaging (sample_host (inr (constant_model (inr [[0.9]]%Q))))
             (sample_browser 0.8 (Some (sample_file "garden.png" 481203)) false)
             (busy_session (Some (constant_model (inr [[0.9]]%Q))))))
    = dogs (busy_session (Some (constant_model (inr [[0.9]]%Q)))).
Proof.
  apply (@idle_run_predicts_and_counts_nothing sample_imaging
           (sample_host (inr (constant_model (inr [[0.9]]%Q))))
           (sample_browser 0.8 (Some (sample_file "garden.png" 481203)) false)
           (busy_session (Some (constant_model (inr [[0.9]]%Q))))).
  - reflexivity.
  - left. reflexivity.
Defined.

(** ** Uploads that never reach the model *)

Section Bad_uploads.
Context `{Imaging}.

Lemma render_image_display_undecodable
    (f : UploadedFile) (settings : Settings) (e : exn) (s : SessionState) :
  In (file_extension f) ALLOWED_EXTENSIONS ->
  file_size f <= 10 * 1024 * 1024 ->
  PIL_open f = inl e ->
  exists tr,
    render_image_display f settings s = (Ret (None, None), s, tr) /\
    filter is_error tr =
      [St_error ("❌ Error processing image: " ++ exn_msg e);
       St_error "❌ Failed to process the image. Please try a different file."] /\
    filter processing tr = [Image_open (name f)].
Proof.
  intros Hext Hsize Hopen.
  unfold render_image_display, bind.
  rewrite (validate_image_accepts f s Hext Hsize). cbn [negb].
  destruct (show_processing_steps settings);
    cbn -[preprocess_image]; rewrite (preprocess_image_undecodable f e s Hopen);
    cbn; eexists; repeat split; reflexivity.
Qed.

Lemma render_image_display_bad
    (f : UploadedFile) (settings : Settings) (s : SessionState) :
  ~ In (file_extension f) ALLOWED_EXTENSIONS \/ file_size f > 10 * 1024 * 1024 \/
  (exists e, PIL_open f = inl e) ->
  exists tr,
    render_image_display f settings s = (Ret (None, None), s, tr) /\
    existsb is_error tr = true /\
    (~ In (file_extension f) ALLOWED_EXTENSIONS \/ file_size f > 10 * 1024 * 1024 ->
       existsb processing tr = false).
Proof.
  intro Hbad.
  destruct (in_dec string_dec (file_extension f) ALLOWED_EXTENSIONS) as [Hin | Hnot].
  - destruct (Z_le_gt_dec (file_size f) (10 * 1024 * 1024)) as [Hle | Hgt].
    + destruct Hbad as [Hx | [Hx | [e He]]]; [contradiction | lia |].
      destruct (render_image_display_undecodable f settings e s Hin Hle He)
        as (tr & Hrun & Herr & _).
      exists tr. split; [exact Hrun|]. split.
      * destruct (existsb is_error tr) eqn:E; [reflexivity|].
        rewrite (filter_nil_of_existsb _ _ E) in Herr. discriminate.
      * intros [Hx | Hx]; [contradiction | lia].
    + eexists. split.
      { apply render_image_display_rejected. apply validate_image_too_large; assumption. }
      split; [reflexivity | intros _; reflexivity].
  - eexists. split.
    { apply render_image_display_rejected. apply validate_image_bad_extension; assumption. }
    split; [reflexivity | intros _; reflexivity].
Qed.

Lemma main_with_bad_upload (host : Host) (browser : Browser) (f : UploadedFile) :
  file_uploader browser = Some f ->
  ~ In (file_extension f) ALLOWED_EXTENSIONS \/ file_size f > 10 * 1024 * 1024 \/
  (exists e, PIL_open f = inl e) ->
  holds (fun _ => True) offering (main host browser).
Proof.
  intros Hfile Hbad.
  unfold_main_but ltac:(idtac).
  repeat first
    [ match goal with
      | |- holds _ _ (bind (render_file_uploader _) _) =>
          apply holds_bind_returned;
          [ unfold render_file_uploader; repeat holds_trivial_step
          | let s' := fresh "s" in let a := fresh "a" in let Hret := fresh "Hret" in
            intros s' a _ Hret;
            destruct (render_file_uploader_run browser s') as (? & Hrun & _);
            rewrite Hrun in Hret; cbn in Hret; injection Hret as <-; rewrite Hfile;
            cbv beta iota ]
      | |- holds _ _ (bind (render_image_display f _) _) =>
          apply holds_bind_returned;
          [ unfold render_image_display, validate_image, render_processing_steps,
              preprocess_image, render_image_info; repeat holds_trivial_step
          | let s' := fresh "s" in let a := fresh "a" in let Hret := fresh "Hret" in
            intros s' a _ Hret;
            let Hdisp := fresh "Hdisp" in
            match type of Hret with
            | run_outcome (render_image_display _ ?st _) = _ =>
                destruct (render_image_display_bad f st s' Hbad) as (? & Hdisp & _)
            end;
            rewrite Hdisp in Hret; cbn in Hret; injection Hret as <-;
            apply holds_ret ]
      end
    | holds_trivial_step ].
Qed.

(** X15. An upload that [validate_image] rejects, or that PIL cannot decode,
    makes [render_image_display] report an error and return nothing, with
    the session untouched; a rejected file is never opened. In [main] such an
    upload never brings up the predict button, a forward pass or a result. *)
Theorem bad_upload_never_reaches_the_model
    (host : Host) (browser : Browser) (f : UploadedFile) (settings : Settings)
    (s : SessionState) :
  file_uploader browser = Some f ->
  ~ In (file_extension f) ALLOWED_EXTENSIONS \/ file_size f > 10 * 1024 * 1024 \/
  (exists e, PIL_open f = inl e) ->
  (exists tr,
     render_image_display f settings s = (Ret (None, None), s, tr) /\
     existsb is_error tr = true /\
     (~ In (file_extension f) ALLOWED_EXTENSIONS \/ file_size f > 10 * 1024 * 1024 ->
        existsb processing tr = false)) /\
  existsb offering (run_trace (main host browser s)) = false.
Proof.
  intros Hfile Hbad. split.
  - apply render_image_display_bad. exact Hbad.
  - apply (main_with_bad_upload host browser f Hfile Hbad s I).
Qed.

End Bad_uploads.

(** A file with an allowed name that is not an image. *)
Lemma bad_upload_never_reaches_the_model_witness :
  (exists tr,
     @render_image_display sample_imaging (sample_file "broken.png" 120)
       (sample_settings 0.8) (busy_session (Some (constant_model (inr [[0.9]]%Q))))
       = (Ret (None, None), busy_session (Some (constant_model (inr [[0.9]]%Q))), tr) /\
     existsb is_error tr = true /\
     (~ In (file_extension (sample_file "broken.png" 120)) ALLOWED_EXTENSIONS \/
      file_size (sample_file "broken.png" 120) > 10 * 1024 * 1024 ->
        existsb processing tr = false)) /\
  existsb offering
    (run_trace
       (@main sample_imaging (sample_host (inr (constant_model (inr [[0.9]]%Q))))
          (sample_browser 0.8 (Some (sample_file "broken.png" 120)) true)
          (busy_session (Some (constant_model (inr [[0.9]]%Q)))))) = false.
Proof.
  apply (@bad_upload_never_reaches_the_model sample_imaging
           (sample_host (inr (constant_model (inr [[0.9]]%Q))))
           (sample_browser 0.8 (Some (sample_file "broken.png" 120)) true)
           (sample_file "broken.png" 120) (sample_settings 0.8)
           (busy_session (Some (constant_model (inr [[0.9]]%Q))))).
  - reflexivity.
  - right. right. eexists. reflexivity.
Defined.

(** ** [preprocess_image]: both values or neither *)

(** X16. [preprocess_image] never raises and leaves the session alone. It
    opens the file once and returns either no tensor and no image, after
    reporting the decoder's message, or both: a 1 x 224 x 224 x 3 tensor and,
    for display, the image in mode RGB at the size it was uploaded with. *)
Theorem preprocess_image_both_or_neither `{Imaging} (f : UploadedFile) (s : SessionState) :
  (exists e,
     PIL_open f = inl e /\
     preprocess_image f s =
       (Ret (None, None), s,
        [Image_open (name f); St_error ("❌ Error processing image: " ++ exn_msg e)])) \/
  (exists image t original,
     PIL_open f = inr image /\
     preprocess_image f s = (Ret (Some t, Some original), s, [Image_open (name f)]) /\
     has_shape t 1 224 224 3 /\
     mode original = "RGB" /\
     size original = size image).
Proof.
  destruct (PIL_open f) as [e|image] eqn:Hopen.
  - left. exists e. split; [reflexivity|]. apply preprocess_image_undecodable. exact Hopen.
  - right. destruct (preprocess_image_decoded f image s Hopen) as [Hrgb Hpre].
    eexists image, _, _. split; [reflexivity|]. split; [exact Hpre|].
    split; [apply normalised_grid_shape|]. split; [exact Hrgb|].
    destruct (negb (String.eqb (mode image) "RGB")); reflexivity.
Qed.

(** ** The counters over a whole session *)

Section Session_counters.
Context `{Imaging}.

Lemma session_end_counts (inputs : list (Host * Browser)) (s : SessionState) :
  counters_ok s ->
  counters_ok (session_end inputs s) /\
  cats (session_end inputs s) = cats s + cat_cards (session_trace (session_runs inputs s)) /\
  dogs (session_end inputs s) = dogs s + dog_cards (session_trace (session_runs inputs s)).
Proof.
  revert s. induction inputs as [|[host browser] later IH]; intros s Hok.
  - cbn. repeat split; [exact Hok | lia | lia].
  - cbn [session_end session_runs]. unfold session_trace. cbn [flat_map].
    fold (session_trace (session_runs later (run_state (main host browser s)))).
    destruct (tallies_main host browser s Hok) as (Hok1 & Hc1 & Hd1).
    destruct (IH _ Hok1) as (Hok2 & Hc2 & Hd2).
    rewrite cat_cards_app, dog_cards_app. repeat split; [exact Hok2 | lia | lia].
Qed.

(** X17. Over any sequence of runs of one session that starts with
    consistent counters, the counters stay consistent, never decrease, and
    at the end have advanced by exactly the result cards shown during the
    session: cats by the cards labelled "Cat", dogs by the others,
    predictions by all of them. *)
Theorem session_counters_count_the_cards
    (inputs : list (Host * Browser)) (s : SessionState) :
  counters_ok s ->
  counters_ok (session_end inputs s) /\
  made (session_end inputs s)
    = made s + cat_cards (session_trace (session_runs inputs s))
             + dog_cards (session_trace (session_runs inputs s)) /\
  cats (session_end inputs s) = cats s + cat_cards (session_trace (session_runs inputs s)) /\
  dogs (session_end inputs s) = dogs s + dog_cards (session_trace (session_runs inputs s)) /\
  made s <= made (session_end inputs s) /\
  cats s <= cats (session_end inputs s) /\
  dogs s <= dogs (session_end inputs s).
Proof.
  intro Hok. destruct (session_end_counts inputs s Hok) as (Hok' & Hc & Hd).
  assert (Hcn : forall tr, 0 <= cat_cards tr).
  { induction tr as [|e tr IH]; [cbn; lia|]. unfold cat_cards in *. cbn [fold_right].
    unfold cat_card at 1. destruct (card_label e) as [l|]; [destruct (String.eqb l "Cat")|]; lia. }
  assert (Hdn : forall tr, 0 <= dog_cards tr).
  { induction tr as [|e tr IH]; [cbn; lia|]. unfold dog_cards in *. cbn [fold_right].
    unfold dog_card at 1. destruct (card_label e) as [l|]; [destruct (String.eqb l "Cat")|]; lia. }
  pose proof (Hcn (session_trace (session_runs inputs s))).
  pose proof (Hdn (session_trace (session_runs inputs s))).
  rewrite (counters_ok_made _ Hok'), (counters_ok_made _ Hok).
  repeat split; try assumption; lia.
Qed.

End Session_counters.

(** Two predictions in one session: the first run loads the model, the
    second finds the machine offline and the model in the session. *)
Lemma session_counters_count_the_cards_witness :
  counters_ok
    (@session_end sample_imaging
       [(sample_host (inr (constant_model (inr [[0.9]]%Q))),
         sample_browser 0.8 (Some (sample_file "garden.png" 481203)) true);
        (with_cache (Some (Some (constant_model (inr [[0.9]]%Q)))) offline_host,
         sample_browser 0.8 (Some (sample_file "garden.png" 481203)) true)]
       fresh_session) /\
  made
    (@session_end sample_imaging
       [(sample_host (inr (constant_model (inr [[0.9]]%Q))),
         sample_browser 0.8 (Some (sample_file "garden.png" 481203)) true);
        (with_cache (Some (Some (constant_model (inr [[0.9]]%Q)))) offline_host,
         sample_browser 0.8 (Some (sample_file "garden.png" 481203)) true)]
       fresh_session) = 2.
Proof.
  split; [|reflexivity].
  exact (proj1 (@session_counters_count_the_cards sample_imaging
                  [(sample_host (inr (constant_model (inr [[0.9]]%Q))),
                    sample_browser 0.8 (Some (sample_file "garden.png" 481203)) true);
                   (with_cache (Some (Some (constant_model (inr [[0.9]]%Q)))) offline_host,
                    sample_browser 0.8 (Some (sample_file "garden.png" 481203)) true)]
                  fresh_session I)).
Defined.

(** ** The first run of a process *)

Section First_run.
Context `{Imaging}.

Lemma page_never_caches (J : option (option Model) * option bool -> Prop) (browser : Browser) :
  holds J caching (page browser).
Proof. unfold_page. holds_tac. Qed.

Lemma page_keeps_model (browser : Browser) (m : Model) (s : SessionState) :
  model_ready m s ->
  model_ready m (run_state (page browser s)) /\
  existsb loading (run_trace (page browser s)) = false /\
  existsb caching (run_trace (page browser s)) = false.
Proof.
  intros [Hm Hl].
  destruct (page_never_loads (fun mp => mp = (Some (Some m), Some true)) browser s)
    as [HJ Hq].
  { unfold model_part. rewrite Hm, Hl. reflexivity. }
  destruct (page_never_caches (fun _ => True) browser s I) as [_ Hc].
  unfold model_part in HJ. injection HJ as Ha Hb.
  split; [split; assumption|]. split; assumption.
Qed.

(** A run of a session that has not loaded yet, when [load_model] returns
    the model [m] with the trace [tr]. *)
Lemma main_loads_model (host : Host) (browser : Browser) (s : SessionState)
                       (m : Model) (tr : list Event) :
  ss_model_loaded s <> Some true ->
  (forall s', load_model host s' = (Ret (Some m), s', tr)) ->
  exists rest,
    run_trace (main host browser s) =
      ((St_spinner "🤖 Loading AI model... This may take a moment on first run." :: tr
        ++ [St_success "✅ Model loaded successfully!"]) ++ rest)%list /\
    existsb loading rest = false /\
    existsb caching rest = false /\
    model_ready m (run_state (main host browser s)).
Proof.
  intros Hl Hload.
  pose proof (main_first_run host browser s (Some m) tr Hl Hload) as Hmain.
  cbv zeta beta iota in Hmain. rewrite Hmain.
  cbn [run_outcome run_state run_trace fst snd].
  destruct (page_keeps_model browser m
              {| ss_model := Some (Some m); ss_model_loaded := Some true;
                 predictions_made := predictions_made s;
                 cats_detected := cats_detected s;
                 dogs_detected := dogs_detected s |}) as (Hready & Hq & Hc);
    [split; reflexivity|].
  eexists. split; [reflexivity|]. split; [exact Hq|]. split; [exact Hc | exact Hready].
Qed.

(** Once the cache holds a model, every run of every session ends with that
    model in its session and loads nothing. *)
Lemma process_runs_serve_model (inputs : list (nat * Host * Browser)) (p : Process)
                               (m : Model) :
  cache p = Some (Some m) ->
  (forall j, ss_model_loaded (sessions p j) <> Some true \/ model_ready m (sessions p j)) ->
  Forall (fun r => model_ready m (run_state r) /\ existsb loading (run_trace r) = false)
    (process_runs inputs p).
Proof.
  revert p. induction inputs as [|[[i host] browser] later IH]; intros p Hcache Hsessions;
    cbn [process_runs].
  - constructor.
  - set (run := main (with_cache (cache p) host) browser (sessions p i)).
    assert (Hrun : model_ready m (run_state run) /\
                   existsb loading (run_trace run) = false /\
                   existsb caching (run_trace run) = false).
    { destruct (Hsessions i) as [Hfresh | Hready].
      - destruct (load_model_run (with_cache (cache p) host))
          as (r & tr & Hload & _ & Hhit & _).
        destruct (Hhit (Some m)) as (-> & Hnostore & Hnoload); [rewrite Hcache; reflexivity|].
        destruct (main_loads_model _ browser (sessions p i) m tr Hfresh Hload)
          as (rest & Htrace & Hq & Hc & Hready).
        split; [exact Hready|]. unfold run. rewrite Htrace.
        cbn [app existsb loading caching orb].
        rewrite !existsb_app, Hnostore, Hnoload, Hq, Hc. split; reflexivity.
      - unfold run. rewrite (main_is_page_once_loaded _ browser (sessions p i)).
        + apply page_keeps_model. exact Hready.
        + destruct Hready as [-> _]. reflexivity.
        + apply Hready. }
    destruct Hrun as (Hready & Hq & Hc).
    constructor; [split; assumption|].
    apply IH.
    + cbn [after_run cache]. rewrite (stored_nothing _ Hc). exact Hcache.
    + intro j. cbn [after_run sessions].
      destruct (Nat.eqb j i); [right; exact Hready | apply Hsessions].
Qed.

(** X18. When the load succeeds in the first run of a process, [main]
    announces it, the decorator keeps the model that Keras returned and the
    session stores it. Every run of the process ends with exactly that model
    in its session, in the session of the first run and in any other, and no
    run after the first tests for the artifact, downloads or calls Keras,
    whatever the machine would answer by then. *)
Theorem first_run_stores_the_loaded_model
    (host : Host) (browser : Browser) (m : Model) (i : nat)
    (later : list (nat * Host * Browser)) :
  keras_load_model host = inr m ->
  model_file_exists host = true \/ gdown_download host = inr tt ->
  In (St_success "✅ Model loaded successfully!")
    (run_trace (main (with_cache None host) browser fresh_session)) /\
  existsb loading (run_trace (main (with_cache None host) browser fresh_session)) = true /\
  stored (run_trace (main (with_cache None host) browser fresh_session)) = Some (Some m) /\
  Forall (fun r => model_ready m (run_state r))
    (process_runs ((i, host, browser) :: later) started) /\
  Forall (fun r => existsb loading (run_trace r) = false)
    (tl (process_runs ((i, host, browser) :: later) started)).
Proof.
  intros Hkeras Hfile.
  destruct (load_model_run (with_cache None host)) as (r & tr & Hload & _ & _ & Hmiss).
  destruct (Hmiss eq_refl) as (Hstored & _ & _ & Hfound).
  destruct (Hfound m Hkeras Hfile) as (-> & Hloading).
  destruct (main_loads_model (with_cache None host) browser fresh_session m tr)
    as (rest & Htrace & Hq & Hc & Hready); [discriminate | exact Hload |].
  assert (Hkept : stored (run_trace (main (with_cache None host) browser fresh_session))
                  = Some (Some m)).
  { rewrite Htrace. cbn [app stored]. rewrite <- app_assoc.
    destruct (existsb caching tr) eqn:Etr.
    - clear - Hstored Etr. induction tr as [|e tr IH]; [discriminate Etr|].
      destruct e; cbn [app stored] in *; try (apply IH; assumption).
      exact Hstored.
    - rewrite (stored_nothing _ Etr) in Hstored. discriminate Hstored. }
  split; [rewrite Htrace; apply in_or_app; left; right; apply in_or_app; right; left;
          reflexivity|].
  split; [rewrite Htrace; cbn [app existsb loading orb];
          rewrite !existsb_app, Hloading; reflexivity|].
  split; [exact Hkept|].
  cbn [process_runs].
  change (main (with_cache (cache started) host) browser (sessions started i))
    with (main (with_cache None host) browser fresh_session).
  assert (Hlater : Forall (fun r => model_ready m (run_state r) /\
                                    existsb loading (run_trace r) = false)
                     (process_runs later
                        (after_run started i
                           (main (with_cache None host) browser fresh_session)))).
  { apply process_runs_serve_model.
    - cbn [after_run cache]. rewrite Hkept. reflexivity.
    - intro j. cbn [after_run sessions].
      destruct (Nat.eqb j i); [right; exact Hready | left; discriminate]. }
  split.
  - constructor; [exact Hready|].
    apply (Forall_impl _ (fun r Hr => proj1 Hr) Hlater).
  - cbn [tl]. apply (Forall_impl _ (fun r Hr => proj2 Hr) Hlater).
Qed.

End First_run.

(** The artifact is there when the process starts; the machine is offline
    when a second session opens and when the first one comes back. *)
Lemma first_run_stores_the_loaded_model_witness :
  In (St_success "✅ Model loaded successfully!")
    (run_trace
       (@main sample_imaging
          (with_cache None (sample_host (inr (constant_model (inr [[0.9]]%Q)))))
          (sample_browser 0.8 None false) fresh_session)) /\
  existsb loading
    (run_trace
       (@main sample_imaging
          (with_cache None (sample_host (inr (constant_model (inr [[0.9]]%Q)))))
          (sample_browser 0.8 None false) fresh_session)) = true /\
  stored
    (run_trace
       (@main sample_imaging
          (with_cache None (sample_host (inr (constant_model (inr [[0.9]]%Q)))))
          (sample_browser 0.8 None false) fresh_session))
    = Some (Some (constant_model (inr [[0.9]]%Q))) /\
  Forall (fun r => model_ready (constant_model (inr [[0.9]]%Q)) (run_state r))
    (@process_runs sample_imaging
       [(0%nat, sample_host (inr (constant_model (inr [[0.9]]%Q))),
         sample_browser 0.8 None false);
        (1%nat, offline_host,
         sample_browser 0.8 (Some (sample_file "garden.png" 481203)) true);
        (0%nat, offline_host,
         sample_browser 0.8 (Some (sample_file "garden.png" 481203)) true)]
       started) /\
  Forall (fun r => existsb loading (run_trace r) = false)
    (tl (@process_runs sample_imaging
           [(0%nat, sample_host (inr (constant_model (inr [[0.9]]%Q))),
             sample_browser 0.8 None false);
            (1%nat, offline_host,
             sample_browser 0.8 (Some (sample_file "garden.png" 481203)) true);
            (0%nat, offline_host,
             sample_browser 0.8 (Some (sample_file "garden.png" 481203)) true)]
           started)).
Proof.
  apply (@first_run_stores_the_loaded_model sample_imaging
           (sample_host (inr (constant_model (inr [[0.9]]%Q))))
           (sample_browser 0.8 None false) (constant_model (inr [[0.9]]%Q)) 0%nat
           [(1%nat, offline_host,
             sample_browser 0.8 (Some (sample_file "garden.png" 481203)) true);
            (0%nat, offline_host,
             sample_browser 0.8 (Some (sample_file "garden.png" 481203)) true)]).
  - reflexivity.
  - left. reflexivity.
Defined.

(** ** The confidence bands *)

Lemma Qgeb_false (a b : Q) : Qgeb a b = false <-> (a < b)%Q.
Proof.
  unfold Qgeb. split; intro Hc.
  - apply Qnot_le_lt. intro Hle. apply Qle_bool_iff in Hle. congruence.
  - destruct (Qle_bool b a) eqn:E; [|reflexivity].
    apply Qle_bool_iff in E. exfalso. exact (Qlt_not_le _ _ Hc E).
Qed.

(** X19. [render_confidence_interpretation] shows one level for the
    confidence, by half-open bands: "Extremely High" from 0.9, "High" on
    [0.8, 0.9), "Moderate" on [0.7, 0.8), "Low" on [0.6, 0.7) and "Very Low"
    below 0.6; it changes nothing in the session. *)
Theorem confidence_level_bands (results : Results) (cat_prob dog_prob : Q) (s : SessionState) :
  exists level,
    render_confidence_interpretation results cat_prob dog_prob s =
      (Ret tt, s,
       [St_markdown "#### 🧠 AI Confidence Analysis";
        Md_confidence_level level (confidence results)]) /\
    (level = "Extremely High" <-> (0.9 <= confidence results)%Q) /\
    (level = "High" <-> (0.8 <= confidence results < 0.9)%Q) /\
    (level = "Moderate" <-> (0.7 <= confidence results < 0.8)%Q) /\
    (level = "Low" <-> (0.6 <= confidence results < 0.7)%Q) /\
    (level = "Very Low" <-> (confidence results < 0.6)%Q).
Proof.
  eexists. split; [reflexivity|].
  destruct (Qgeb (confidence results) 0.9) eqn:E9;
    [apply Qgeb_true in E9 | apply Qgeb_false in E9].
  { repeat split; intros; try reflexivity; try discriminate; try lra. }
  destruct (Qgeb (confidence results) 0.8) eqn:E8;
    [apply Qgeb_true in E8 | apply Qgeb_false in E8].
  { repeat split; intros; try reflexivity; try discriminate; try lra. }
  destruct (Qgeb (confidence results) 0.7) eqn:E7;
    [apply Qgeb_true in E7 | apply Qgeb_false in E7].
  { repeat split; intros; try reflexivity; try discriminate; try lra. }
  destruct (Qgeb (confidence results) 0.6) eqn:E6;
    [apply Qgeb_true in E6 | apply Qgeb_false in E6].
  { repeat split; intros; try reflexivity; try discriminate; try lra. }
  repeat split; intros; try reflexivity; try discriminate; try lra.
Qed.
